(** * Campus assignment services of the LXP platform

    A shallow embedding of the three assignment services

    - [CampusTeacherService]  (src/server/services/CampusTeacherService.ts)
    - [TeacherCampusService]  (src/server/services/TeacherCampusService.ts)
    - [CampusStudentService]  (the student mirror of the first one)

    over a relational store whose tables, unique indexes and cascading
    foreign keys are those of the migration that creates "TeacherCampus",
    "TeacherClassAssignment" and "TeacherSubjectAssignment".

    Tables are lists of rows (insertion order is kept; the view that
    aggregates with [json_agg] takes the order of its rows from the
    storage).  A service method is a function from the store to the store
    after the call together with either the thrown error or the returned
    value: a thrown error does not undo the statements that ran before it,
    except inside [transaction]. *)

From Stdlib Require Import List String Bool ZArith Lia Permutation.
Import ListNotations.
Open Scope string_scope.
Open Scope bool_scope.

(** ** Enumerations *)

Inductive Status : Type := ACTIVE | INACTIVE | ARCHIVED.

Definition Status_eqb (a b : Status) : bool :=
  match a, b with
  | ACTIVE, ACTIVE | INACTIVE, INACTIVE | ARCHIVED, ARCHIVED => true
  | _, _ => false
  end.

Inductive CampusPermission : Type :=
| MANAGE_CAMPUS_TEACHERS
| MANAGE_CAMPUS_STUDENTS
| VIEW_CAMPUS_CLASSES.

(** The [code] of a [TRPCError] thrown by the services. *)
Inductive TRPCCode : Type :=
| FORBIDDEN | NOT_FOUND | CONFLICT | BAD_REQUEST | INTERNAL_SERVER_ERROR.

(** What the storage layer rejects a statement for. *)
Inductive DbFault : Type :=
| UniqueViolation        (* primary key or unique index *)
| ForeignKeyViolation    (* referenced row missing *)
| NotNullViolation       (* no value for a NOT NULL column without default *)
| RecordNotFound.        (* Prisma update/delete on a missing unique key *)

Inductive Error : Type :=
| TRPCError (code : TRPCCode)
| StorageError (fault : DbFault)
| TypeError.             (* property read on a null relation *)

(** ** Rows *)

Module User.
Record t : Type := mk
  { id : string; name : option string; email : option string;
    userRoles : list string (* userRole.role.name of every role held *) }.
End User.

Module TeacherProfile.
Record t : Type := mk { id : string; userId : string }.
End TeacherProfile.

(** A row of "Teacher", the table the foreign key of
    "TeacherCampus"."teacherId" references in the migration.  The services
    look a teacher up in "TeacherProfile" and never read this table. *)
Module Teacher.
Record t : Type := mk { id : string }.
End Teacher.

Module Student.
Record t : Type := mk { id : string; userId : string }.
End Student.

Module Campus.
Record t : Type := mk { id : string; name : string }.
End Campus.

Module Program.
Record t : Type := mk { campusId : string }.
End Program.

Module ClassGroup.
Record t : Type := mk { program : Program.t }.
End ClassGroup.

(** A class as [class.findUnique] returns it with
    [include: { classGroup: { include: { program: true } } }].  [campusId]
    is the column of the class itself, which [class.create] is given beside
    [classGroupId] and independently of it; the campus of the program of
    the class group is another value. *)
Module Class_.
Record t : Type := mk
  { id : string; campusId : string; classGroup : ClassGroup.t }.
End Class_.

Module Subject.
Record t : Type := mk { id : string; name : string }.
End Subject.

Module TeacherCampus.
Record t : Type := mk
  { id : string; teacherId : string; campusId : string;
    isPrimary : bool; status : Status;
    joinedAt : Z; createdAt : Z; updatedAt : Z }.

Definition set_isPrimary (b : bool) (r : t) : t :=
  mk (id r) (teacherId r) (campusId r) b (status r)
     (joinedAt r) (createdAt r) (updatedAt r).

Definition set_status (s : Status) (r : t) : t :=
  mk (id r) (teacherId r) (campusId r) (isPrimary r) s
     (joinedAt r) (createdAt r) (updatedAt r).

Definition set_updatedAt (now : Z) (r : t) : t :=
  mk (id r) (teacherId r) (campusId r) (isPrimary r) (status r)
     (joinedAt r) (createdAt r) now.
End TeacherCampus.

Module TeacherClassAssignment.
Record t : Type := mk
  { id : string; teacherCampusId : string; classId : string;
    isClassTeacher : bool; status : Status;
    createdAt : Z; updatedAt : Z }.
End TeacherClassAssignment.

Module TeacherSubjectAssignment.
Record t : Type := mk
  { id : string; teacherClassAssignmentId : string; subjectId : string;
    status : Status; createdAt : Z; updatedAt : Z }.
End TeacherSubjectAssignment.

Module StudentCampus.
Record t : Type := mk
  { id : string; studentId : string; campusId : string;
    isPrimary : bool; status : Status; joinedAt : Z }.

Definition set_isPrimary (b : bool) (r : t) : t :=
  mk (id r) (studentId r) (campusId r) b (status r) (joinedAt r).

Definition set_status (s : Status) (r : t) : t :=
  mk (id r) (studentId r) (campusId r) (isPrimary r) s (joinedAt r).
End StudentCampus.

(** ** The store *)

Record Db : Type := mkDb
  { user : list User.t;
    teacherProfile : list TeacherProfile.t;
    teacher : list Teacher.t;
    student : list Student.t;
    campus : list Campus.t;
    class_ : list Class_.t;
    subject : list Subject.t;
    teacherCampus : list TeacherCampus.t;
    teacherClassAssignment : list TeacherClassAssignment.t;
    teacherSubjectAssignment : list TeacherSubjectAssignment.t;
    studentCampus : list StudentCampus.t }.

Definition with_teacherCampus (rows : list TeacherCampus.t) (db : Db) : Db :=
  mkDb (user db) (teacherProfile db) (teacher db) (student db) (campus db)
       (class_ db)
       (subject db) rows (teacherClassAssignment db)
       (teacherSubjectAssignment db) (studentCampus db).

Definition with_teacherClassAssignment
  (rows : list TeacherClassAssignment.t) (db : Db) : Db :=
  mkDb (user db) (teacherProfile db) (teacher db) (student db) (campus db)
       (class_ db)
       (subject db) (teacherCampus db) rows
       (teacherSubjectAssignment db) (studentCampus db).

Definition with_teacherSubjectAssignment
  (rows : list TeacherSubjectAssignment.t) (db : Db) : Db :=
  mkDb (user db) (teacherProfile db) (teacher db) (student db) (campus db)
       (class_ db)
       (subject db) (teacherCampus db) (teacherClassAssignment db)
       rows (studentCampus db).

Definition with_studentCampus (rows : list StudentCampus.t) (db : Db) : Db :=
  mkDb (user db) (teacherProfile db) (teacher db) (student db) (campus db)
       (class_ db)
       (subject db) (teacherCampus db) (teacherClassAssignment db)
       (teacherSubjectAssignment db) rows.

(** ** Calls: store passing with thrown errors *)

Definition Call (A : Type) : Type := Db -> Db * (Error + A).

Definition ret {A} (a : A) : Call A := fun db => (db, inr a).

Definition throw {A} (e : Error) : Call A := fun db => (db, inl e).

Definition bind {A B} (c : Call A) (k : A -> Call B) : Call B :=
  fun db =>
    match c db with
    | (db', inl e) => (db', inl e)
    | (db', inr a) => k a db'
    end.

(** A read of the store. *)
Definition query {A} (f : Db -> A) : Call A := fun db => (db, inr (f db)).

(** A statement that cannot be rejected. *)
Definition exec (f : Db -> Db) : Call unit := fun db => (f db, inr tt).

(** [if (b) throw e]. *)
Definition throwIf (b : bool) (e : Error) : Call unit :=
  if b then throw e else ret tt.

(** [if (!x) throw e], giving [x] to the rest of the method. *)
Definition orThrow {A} (x : option A) (e : Error) : Call A :=
  match x with Some a => ret a | None => throw e end.

(** [try { c } catch (error) { throw h error }]. *)
Definition tryCatch {A} (c : Call A) (h : Error -> Error) : Call A :=
  fun db =>
    match c db with
    | (db', inl e) => (db', inl (h e))
    | r => r
    end.

(** [prisma.$transaction([...])]: a failure inside restores the store. *)
Definition transaction {A} (c : Call A) : Call A :=
  fun db =>
    match c db with
    | (_, inl e) => (db, inl e)
    | r => r
    end.

Declare Scope call_scope.
Delimit Scope call_scope with call.
Notation "x <- c ;; k" := (bind c (fun x => k))
  (at level 61, c at next level, right associativity) : call_scope.
Notation "c ;;; k" := (bind c (fun _ => k))
  (at level 61, right associativity) : call_scope.
Open Scope call_scope.

(** [for (const x of xs) { await body i x }], [i] counting the iterations. *)
Fixpoint forEachFrom {A} (i : nat) (xs : list A) (body : nat -> A -> Call unit)
  : Call unit :=
  match xs with
  | [] => ret tt
  | x :: xs' => body i x ;;; forEachFrom (S i) xs' body
  end.

(** ** Statements on generic tables *)

(** [UPDATE t SET f WHERE p]. *)
Definition updateWhere {R} (p : R -> bool) (f : R -> R) (rows : list R)
  : list R :=
  map (fun r => if p r then f r else r) rows.

(** [DELETE FROM t WHERE p]. *)
Definition deleteWhere {R} (p : R -> bool) (rows : list R) : list R :=
  filter (fun r => negb (p r)) rows.

(** [SELECT * FROM t WHERE p]. *)
Definition selectWhere {R} (p : R -> bool) (rows : list R) : list R :=
  filter p rows.

(** [findUnique]: the row with the given key, if any. *)
Definition findUnique {R} (key : R -> string) (k : string) (rows : list R)
  : option R :=
  find (fun r => key r =? k) rows.

Definition hasKey {R} (key : R -> string) (k : string) (rows : list R) : bool :=
  existsb (fun r => key r =? k) rows.

Definition mem (k : string) (ks : list string) : bool :=
  existsb (String.eqb k) ks.

(** ** Statements on the assignment tables

    The constraints are those of the migration: a primary key on every
    [id], the unique indexes [(teacherId, campusId)],
    [(teacherCampusId, classId)] and [(teacherClassAssignmentId, subjectId)],
    and foreign keys that cascade on delete from "TeacherCampus" downward.
    The teacher a row refers to is looked up where the services look it
    up, in [teacherProfile]. *)

Module Sql.

Definition teacherCampusPair (t c : string) (r : TeacherCampus.t) : bool :=
  (TeacherCampus.teacherId r =? t) && (TeacherCampus.campusId r =? c).

Definition isPrimaryOf (t : string) (r : TeacherCampus.t) : bool :=
  (TeacherCampus.teacherId r =? t) && TeacherCampus.isPrimary r.

(** [SELECT * FROM "TeacherCampus" WHERE "teacherId" = t AND "campusId" = c] *)
Definition selectTeacherCampus (t c : string) (db : Db)
  : list TeacherCampus.t :=
  selectWhere (teacherCampusPair t c) (teacherCampus db).

(** [SELECT ... FROM "TeacherCampus" tc WHERE tc.id = k] *)
Definition selectTeacherCampusById (k : string) (db : Db)
  : list TeacherCampus.t :=
  selectWhere (fun r => TeacherCampus.id r =? k) (teacherCampus db).

(** [UPDATE "TeacherCampus" SET f WHERE p] *)
Definition updateTeacherCampus
  (p : TeacherCampus.t -> bool) (f : TeacherCampus.t -> TeacherCampus.t)
  (db : Db) : Db :=
  with_teacherCampus (updateWhere p f (teacherCampus db)) db.

(** [INSERT INTO "TeacherCampus" (columns) VALUES (values)].  [id] is the
    value the statement gives for the column "id", [None] when the
    statement does not name the column: the migration declares
    ["id" TEXT NOT NULL] with no default, so a statement without it is
    rejected, before any index is looked at.  The foreign keys are those
    of the migration: "teacherId" references "Teacher", "campusId"
    references "Campus". *)
Definition insertTeacherCampus
  (id : option string) (teacherId campusId : string) (isPrimary : bool)
  (status : Status) (joinedAt createdAt updatedAt : Z) : Call unit :=
  fun db =>
    match id with
    | None => (db, inl (StorageError NotNullViolation))
    | Some k =>
        if hasKey TeacherCampus.id k (teacherCampus db)
        then (db, inl (StorageError UniqueViolation))
        else if existsb (teacherCampusPair teacherId campusId)
                        (teacherCampus db)
        then (db, inl (StorageError UniqueViolation))
        else if negb (hasKey Teacher.id teacherId (teacher db))
        then (db, inl (StorageError ForeignKeyViolation))
        else if negb (hasKey Campus.id campusId (campus db))
        then (db, inl (StorageError ForeignKeyViolation))
        else (with_teacherCampus
                (teacherCampus db
                 ++ [TeacherCampus.mk k teacherId campusId isPrimary status
                       joinedAt createdAt updatedAt]) db,
              inr tt)
    end.

(** [DELETE FROM "TeacherSubjectAssignment" WHERE p] *)
Definition deleteTeacherSubjectAssignment
  (p : TeacherSubjectAssignment.t -> bool) (db : Db) : Db :=
  with_teacherSubjectAssignment
    (deleteWhere p (teacherSubjectAssignment db)) db.

(** [DELETE FROM "TeacherClassAssignment" WHERE p]; the subject rows of the
    deleted class rows go with them (ON DELETE CASCADE). *)
Definition deleteTeacherClassAssignment
  (p : TeacherClassAssignment.t -> bool) (db : Db) : Db :=
  let gone :=
    map TeacherClassAssignment.id (selectWhere p (teacherClassAssignment db)) in
  with_teacherClassAssignment
    (deleteWhere p (teacherClassAssignment db))
    (deleteTeacherSubjectAssignment
       (fun s => mem (TeacherSubjectAssignment.teacherClassAssignmentId s) gone)
       db).

(** [DELETE FROM "TeacherCampus" WHERE p]; the class rows of the deleted
    rows, and their subject rows, go with them (ON DELETE CASCADE). *)
Definition deleteTeacherCampus (p : TeacherCampus.t -> bool) (db : Db) : Db :=
  let gone := map TeacherCampus.id (selectWhere p (teacherCampus db)) in
  with_teacherCampus
    (deleteWhere p (teacherCampus db))
    (deleteTeacherClassAssignment
       (fun a => mem (TeacherClassAssignment.teacherCampusId a) gone) db).

Definition classAssignmentPair (tc c : string) (a : TeacherClassAssignment.t)
  : bool :=
  (TeacherClassAssignment.teacherCampusId a =? tc)
  && (TeacherClassAssignment.classId a =? c).

(** [INSERT INTO "TeacherClassAssignment" ... VALUES row] *)
Definition insertTeacherClassAssignment (row : TeacherClassAssignment.t)
  : Call unit :=
  fun db =>
    if hasKey TeacherClassAssignment.id (TeacherClassAssignment.id row)
              (teacherClassAssignment db)
    then (db, inl (StorageError UniqueViolation))
    else if existsb
              (classAssignmentPair (TeacherClassAssignment.teacherCampusId row)
                                   (TeacherClassAssignment.classId row))
              (teacherClassAssignment db)
    then (db, inl (StorageError UniqueViolation))
    else if negb (hasKey TeacherCampus.id
                         (TeacherClassAssignment.teacherCampusId row)
                         (teacherCampus db))
    then (db, inl (StorageError ForeignKeyViolation))
    else if negb (hasKey Class_.id (TeacherClassAssignment.classId row)
                         (class_ db))
    then (db, inl (StorageError ForeignKeyViolation))
    else (with_teacherClassAssignment (teacherClassAssignment db ++ [row]) db,
          inr tt).

Definition subjectAssignmentPair (ca s : string)
  (a : TeacherSubjectAssignment.t) : bool :=
  (TeacherSubjectAssignment.teacherClassAssignmentId a =? ca)
  && (TeacherSubjectAssignment.subjectId a =? s).

(** [INSERT INTO "TeacherSubjectAssignment" ... VALUES row] *)
Definition insertTeacherSubjectAssignment (row : TeacherSubjectAssignment.t)
  : Call unit :=
  fun db =>
    if hasKey TeacherSubjectAssignment.id (TeacherSubjectAssignment.id row)
              (teacherSubjectAssignment db)
    then (db, inl (StorageError UniqueViolation))
    else if existsb
              (subjectAssignmentPair
                 (TeacherSubjectAssignment.teacherClassAssignmentId row)
                 (TeacherSubjectAssignment.subjectId row))
              (teacherSubjectAssignment db)
    then (db, inl (StorageError UniqueViolation))
    else if negb (hasKey TeacherClassAssignment.id
                         (TeacherSubjectAssignment.teacherClassAssignmentId row)
                         (teacherClassAssignment db))
    then (db, inl (StorageError ForeignKeyViolation))
    else if negb (hasKey Subject.id (TeacherSubjectAssignment.subjectId row)
                         (subject db))
    then (db, inl (StorageError ForeignKeyViolation))
    else (with_teacherSubjectAssignment
            (teacherSubjectAssignment db ++ [row]) db, inr tt).

End Sql.

(** ** The Prisma model [studentCampus]

    The compound unique key [studentId_campusId] is the one the service
    addresses rows by; rows refer to a student and a campus. *)

Module StudentCampusModel.

Definition pair (s c : string) (r : StudentCampus.t) : bool :=
  (StudentCampus.studentId r =? s) && (StudentCampus.campusId r =? c).

Definition isPrimaryOf (s : string) (r : StudentCampus.t) : bool :=
  (StudentCampus.studentId r =? s) && StudentCampus.isPrimary r.

(** [findUnique({ where: { studentId_campusId } })] *)
Definition findUnique (s c : string) (db : Db) : option StudentCampus.t :=
  find (pair s c) (studentCampus db).

(** [updateMany({ where, data })] *)
Definition updateMany
  (p : StudentCampus.t -> bool) (f : StudentCampus.t -> StudentCampus.t)
  (db : Db) : Db :=
  with_studentCampus (updateWhere p f (studentCampus db)) db.

(** [create({ data })] *)
Definition create (row : StudentCampus.t) : Call StudentCampus.t :=
  fun db =>
    if hasKey StudentCampus.id (StudentCampus.id row) (studentCampus db)
    then (db, inl (StorageError UniqueViolation))
    else if existsb (pair (StudentCampus.studentId row)
                          (StudentCampus.campusId row)) (studentCampus db)
    then (db, inl (StorageError UniqueViolation))
    else if negb (hasKey Student.id (StudentCampus.studentId row) (student db))
    then (db, inl (StorageError ForeignKeyViolation))
    else if negb (hasKey Campus.id (StudentCampus.campusId row) (campus db))
    then (db, inl (StorageError ForeignKeyViolation))
    else (with_studentCampus (studentCampus db ++ [row]) db, inr row).

(** [update({ where: { studentId_campusId }, data })]: rejected when the
    key matches no row. *)
Definition update (s c : string) (f : StudentCampus.t -> StudentCampus.t)
  : Call StudentCampus.t :=
  fun db =>
    match findUnique s c db with
    | None => (db, inl (StorageError RecordNotFound))
    | Some r =>
        (with_studentCampus (updateWhere (pair s c) f (studentCampus db)) db,
         inr (f r))
    end.

(** [delete({ where: { studentId_campusId } })]: rejected when the key
    matches no row. *)
Definition delete (s c : string) : Call StudentCampus.t :=
  fun db =>
    match findUnique s c db with
    | None => (db, inl (StorageError RecordNotFound))
    | Some r =>
        (with_studentCampus (deleteWhere (pair s c) (studentCampus db)) db,
         inr r)
    end.

End StudentCampusModel.

(** ** The permission oracle

    [CampusUserService.hasPermission(userId, campusId, permission)] is an
    injected collaborator whose source is not part of the services: its
    answer, which may depend on the store, is a parameter of every method
    that asks it. *)

Module CampusUserService.
Record t : Type := mk
  { hasPermission : Db -> string -> string -> CampusPermission -> bool }.
End CampusUserService.

(** ** Values returned by the services *)

Module UserSummary.
Record t : Type := mk
  { id : string; name : option string; email : option string }.
End UserSummary.

Module TeacherSummary.
Record t : Type := mk { id : string; user : UserSummary.t }.
End TeacherSummary.

(** The interface [TeacherCampusAssignment] of CampusTeacherService.ts;
    [id] is present only where the method returns it. *)
Module TeacherCampusAssignment.
Record t : Type := mk
  { id : option string; teacherId : string; campusId : string;
    isPrimary : bool; status : Status; joinedAt : Z;
    campus : Campus.t; teacher : TeacherSummary.t }.
End TeacherCampusAssignment.

(** What [assignTeacherToClass] returns. *)
Module ClassAssignmentResult.
Record t : Type := mk
  { id : string; teacherCampusId : string; classId : string;
    isClassTeacher : bool; status : Status; class : Class_.t }.
End ClassAssignmentResult.

(** A [studentCampus] row with the relations the methods [include]. *)
Module StudentCampusAssignment.
Record t : Type := mk
  { assignment : StudentCampus.t;
    campus : option Campus.t;
    student : option (Student.t * option User.t) }.
End StudentCampusAssignment.

Definition Success : Type := unit.   (* { success: true } *)

(** [teacherProfile.findUnique({ where: { id }, include: { user: true } })] *)
Definition findTeacherWithUser (teacherId : string) (db : Db)
  : option (TeacherProfile.t * option User.t) :=
  match findUnique TeacherProfile.id teacherId (teacherProfile db) with
  | Some tp =>
      Some (tp, findUnique User.id (TeacherProfile.userId tp) (user db))
  | None => None
  end.

(** [{ id: teacher.id, user: { id: teacher.user.id, name: teacher.user.name,
       email: teacher.user.email } }] *)
Definition teacherSummary (teacher : TeacherProfile.t * option User.t)
  : Call TeacherSummary.t :=
  match snd teacher with
  | Some u =>
      ret (TeacherSummary.mk (TeacherProfile.id (fst teacher))
             (UserSummary.mk (User.id u) (User.name u) (User.email u)))
  | None => throw TypeError
  end.

(** [user?.userRoles?.some(userRole => userRole.role.name === 'super-admin')],
    undefined (hence falsy) when the user is not found. *)
Definition hasSuperAdminRole (user_ : option User.t) : bool :=
  match user_ with
  | Some u => existsb (fun name => name =? "super-admin") (User.userRoles u)
  | None => false
  end.

(** ** CampusTeacherService *)

Module CampusTeacherService.

Section Methods.
Variable userService : CampusUserService.t.

(** The INSERT of this method names the columns "teacherId", "campusId",
    "isPrimary", "status", "joinedAt", "createdAt" and "updatedAt", and no
    "id".  [now] is the value of [new Date()]. *)
Definition assignTeacherToCampus
  (userId campusId teacherId : string) (isPrimary : bool)
  (now : Z) : Call TeacherCampusAssignment.t :=
  user_ <- query (fun db => findUnique User.id userId (user db)) ;;
  let isSuperAdmin := hasSuperAdminRole user_ in
  (if negb isSuperAdmin then
     hasPermission <-
       query (fun db => CampusUserService.hasPermission userService db
                          userId campusId MANAGE_CAMPUS_TEACHERS) ;;
     throwIf (negb hasPermission) (TRPCError FORBIDDEN)
   else ret tt) ;;;
  teacher <-
    query (fun db => findUnique TeacherProfile.id teacherId (teacherProfile db)) ;;
  teacher <- orThrow teacher (TRPCError NOT_FOUND) ;;
  campus <- query (fun db => findUnique Campus.id campusId (campus db)) ;;
  campus <- orThrow campus (TRPCError NOT_FOUND) ;;
  existingRelationship <- query (Sql.selectTeacherCampus teacherId campusId) ;;
  throwIf (0 <? List.length existingRelationship)%nat (TRPCError CONFLICT) ;;;
  (if isPrimary then
     exec (Sql.updateTeacherCampus (Sql.isPrimaryOf teacherId)
             (TeacherCampus.set_isPrimary false))
   else ret tt) ;;;
  Sql.insertTeacherCampus None teacherId campusId isPrimary ACTIVE
    now now now ;;;
  userDetails <-
    query (fun db => findUnique User.id (TeacherProfile.userId teacher) (user db)) ;;
  ret (TeacherCampusAssignment.mk None teacherId campusId isPrimary ACTIVE now
         (Campus.mk (Campus.id campus) (Campus.name campus))
         (TeacherSummary.mk (TeacherProfile.id teacher)
            (UserSummary.mk (TeacherProfile.userId teacher)
               (match userDetails with Some u => User.name u | None => None end)
               (match userDetails with Some u => User.email u | None => None end)))).

Definition removeTeacherFromCampus (userId campusId teacherId : string)
  : Call Success :=
  hasPermission <-
    query (fun db => CampusUserService.hasPermission userService db
                       userId campusId MANAGE_CAMPUS_TEACHERS) ;;
  throwIf (negb hasPermission) (TRPCError FORBIDDEN) ;;;
  relationship <- query (Sql.selectTeacherCampus teacherId campusId) ;;
  throwIf (List.length relationship =? 0)%nat (TRPCError NOT_FOUND) ;;;
  exec (Sql.deleteTeacherCampus (Sql.teacherCampusPair teacherId campusId)) ;;;
  ret tt.

Definition updateTeacherCampusStatus
  (userId campusId teacherId : string) (status : Status) (now : Z)
  : Call TeacherCampusAssignment.t :=
  hasPermission <-
    query (fun db => CampusUserService.hasPermission userService db
                       userId campusId MANAGE_CAMPUS_TEACHERS) ;;
  throwIf (negb hasPermission) (TRPCError FORBIDDEN) ;;;
  relationship <- query (Sql.selectTeacherCampus teacherId campusId) ;;
  relationship0 <- orThrow (hd_error relationship) (TRPCError NOT_FOUND) ;;
  exec (Sql.updateTeacherCampus (Sql.teacherCampusPair teacherId campusId)
          (fun r => TeacherCampus.set_updatedAt now
                      (TeacherCampus.set_status status r))) ;;;
  teacher <- query (findTeacherWithUser teacherId) ;;
  campus <- query (fun db => findUnique Campus.id campusId (campus db)) ;;
  teacher <- orThrow teacher (TRPCError INTERNAL_SERVER_ERROR) ;;
  campus <- orThrow campus (TRPCError INTERNAL_SERVER_ERROR) ;;
  summary <- teacherSummary teacher ;;
  ret (TeacherCampusAssignment.mk None teacherId campusId
         (TeacherCampus.isPrimary relationship0) status
         (TeacherCampus.joinedAt relationship0)
         (Campus.mk (Campus.id campus) (Campus.name campus)) summary).

Definition setPrimaryCampus (userId teacherId campusId : string) (now : Z)
  : Call TeacherCampusAssignment.t :=
  relationship <- query (Sql.selectTeacherCampus teacherId campusId) ;;
  relationship0 <- orThrow (hd_error relationship) (TRPCError NOT_FOUND) ;;
  exec (Sql.updateTeacherCampus (Sql.isPrimaryOf teacherId)
          (fun r => TeacherCampus.set_updatedAt now
                      (TeacherCampus.set_isPrimary false r))) ;;;
  exec (Sql.updateTeacherCampus (Sql.teacherCampusPair teacherId campusId)
          (fun r => TeacherCampus.set_updatedAt now
                      (TeacherCampus.set_isPrimary true r))) ;;;
  teacher <- query (findTeacherWithUser teacherId) ;;
  campus <- query (fun db => findUnique Campus.id campusId (campus db)) ;;
  teacher <- orThrow teacher (TRPCError INTERNAL_SERVER_ERROR) ;;
  campus <- orThrow campus (TRPCError INTERNAL_SERVER_ERROR) ;;
  summary <- teacherSummary teacher ;;
  ret (TeacherCampusAssignment.mk None teacherId campusId true
         (TeacherCampus.status relationship0)
         (TeacherCampus.joinedAt relationship0)
         (Campus.mk (Campus.id campus) (Campus.name campus)) summary).

End Methods.
End CampusTeacherService.

(** ** TeacherCampusService *)

Module TeacherCampusService.

(** [data: TeacherCampusAssignment] of TeacherCampusService.ts. *)
Record TeacherCampusAssignmentData : Type := mkCampusData
  { teacherId : string; campusId : string; isPrimary : bool;
    status : option Status }.

(** [data: TeacherClassAssignment]. *)
Record TeacherClassAssignmentData : Type := mkClassData
  { teacherCampusId : string; classId : string; isClassTeacher : bool;
    subjectIds : list string }.

(** [rowId] is the value of [gen_random_uuid()], [now] that of
    [CURRENT_TIMESTAMP]. *)
Definition assignTeacherToCampus
  (data : TeacherCampusAssignmentData) (now : Z) (rowId : string)
  : Call TeacherCampusAssignment.t :=
  let status_ := match status data with Some s => s | None => ACTIVE end in
  teacher <- query (findTeacherWithUser (teacherId data)) ;;
  teacher <- orThrow teacher (TRPCError NOT_FOUND) ;;
  campus <- query (fun db => findUnique Campus.id (campusId data) (campus db)) ;;
  campus <- orThrow campus (TRPCError NOT_FOUND) ;;
  existing <-
    query (Sql.selectTeacherCampus (teacherId data) (campusId data)) ;;
  throwIf (match hd_error existing with Some _ => true | None => false end)
          (TRPCError CONFLICT) ;;;
  (if isPrimary data then
     exec (Sql.updateTeacherCampus (Sql.isPrimaryOf (teacherId data))
             (TeacherCampus.set_isPrimary false))
   else ret tt) ;;;
  Sql.insertTeacherCampus (Some rowId) (teacherId data) (campusId data)
    (isPrimary data) status_ now now now ;;;
  summary <- teacherSummary teacher ;;
  ret (TeacherCampusAssignment.mk (Some rowId) (teacherId data)
         (campusId data) (isPrimary data) status_ now
         (Campus.mk (Campus.id campus) (Campus.name campus)) summary).

(** [uuid 0] is the id of the class row, [uuid (S i)] that of the subject
    row inserted by iteration [i] of the loop. *)
Definition assignTeacherToClass
  (data : TeacherClassAssignmentData) (now : Z) (uuid : nat -> string)
  : Call ClassAssignmentResult.t :=
  found <- query (Sql.selectTeacherCampusById (teacherCampusId data)) ;;
  teacherCampus_ <- orThrow (hd_error found) (TRPCError NOT_FOUND) ;;
  cls <- query (fun db => findUnique Class_.id (classId data) (class_ db)) ;;
  cls <- orThrow cls (TRPCError NOT_FOUND) ;;
  let classCampusId :=
    Program.campusId (ClassGroup.program (Class_.classGroup cls)) in
  throwIf (negb (classCampusId =? TeacherCampus.campusId teacherCampus_))
          (TRPCError BAD_REQUEST) ;;;
  Sql.insertTeacherClassAssignment
    (TeacherClassAssignment.mk (uuid 0%nat) (teacherCampusId data)
       (classId data) (isClassTeacher data) ACTIVE now now) ;;;
  (if (0 <? List.length (subjectIds data))%nat then
     forEachFrom 0 (subjectIds data)
       (fun i subjectId =>
          Sql.insertTeacherSubjectAssignment
            (TeacherSubjectAssignment.mk (uuid (S i)) (uuid 0%nat) subjectId
               ACTIVE now now))
   else ret tt) ;;;
  ret (ClassAssignmentResult.mk (uuid 0%nat) (teacherCampusId data)
         (classId data) (isClassTeacher data) ACTIVE cls).

Definition updateAssignmentStatus
  (teacherCampusId : string) (status : Status) (now : Z)
  : Call TeacherCampus.t :=
  exec (Sql.updateTeacherCampus (fun r => TeacherCampus.id r =? teacherCampusId)
          (fun r => TeacherCampus.set_updatedAt now
                      (TeacherCampus.set_status status r))) ;;;
  returning <- query (Sql.selectTeacherCampusById teacherCampusId) ;;
  orThrow (hd_error returning) (TRPCError NOT_FOUND).

Definition removeTeacherFromCampus (teacherId campusId : string)
  : Call Success :=
  found <- query (Sql.selectTeacherCampus teacherId campusId) ;;
  assignment <- orThrow (hd_error found) (TRPCError NOT_FOUND) ;;
  transaction
    (exec (fun db =>
             Sql.deleteTeacherSubjectAssignment
               (fun s =>
                  mem (TeacherSubjectAssignment.teacherClassAssignmentId s)
                      (map TeacherClassAssignment.id
                         (selectWhere
                            (fun a => TeacherClassAssignment.teacherCampusId a
                                      =? TeacherCampus.id assignment)
                            (teacherClassAssignment db))))
               db) ;;;
     exec (Sql.deleteTeacherClassAssignment
             (fun a => TeacherClassAssignment.teacherCampusId a
                       =? TeacherCampus.id assignment)) ;;;
     exec (Sql.deleteTeacherCampus
             (fun r => TeacherCampus.id r =? TeacherCampus.id assignment))) ;;;
  ret tt.

End TeacherCampusService.

(** ** CampusStudentService *)

Module CampusStudentService.

(** [student.findUnique({ where: { id }, include: { user: true } })] *)
Definition findStudentWithUser (studentId : string) (db : Db)
  : option (Student.t * option User.t) :=
  match findUnique Student.id studentId (student db) with
  | Some s => Some (s, findUnique User.id (Student.userId s) (user db))
  | None => None
  end.

(** The [include] of the campus and of the student with its user. *)
Definition included (row : StudentCampus.t) (db : Db)
  : StudentCampusAssignment.t :=
  StudentCampusAssignment.mk row
    (findUnique Campus.id (StudentCampus.campusId row) (campus db))
    (findStudentWithUser (StudentCampus.studentId row) db).

(** [if (error instanceof TRPCError) throw error; throw INTERNAL_SERVER_ERROR] *)
Definition rethrowTRPC (e : Error) : Error :=
  match e with
  | TRPCError _ => e
  | _ => TRPCError INTERNAL_SERVER_ERROR
  end.

Definition internalError (_ : Error) : Error :=
  TRPCError INTERNAL_SERVER_ERROR.

Section Methods.
Variable userService : CampusUserService.t.

Definition assignStudentToCampus
  (userId campusId studentId : string) (isPrimary : bool)
  (now : Z) (rowId : string) : Call StudentCampusAssignment.t :=
  hasPermission <-
    query (fun db => CampusUserService.hasPermission userService db
                       userId campusId MANAGE_CAMPUS_STUDENTS) ;;
  throwIf (negb hasPermission) (TRPCError FORBIDDEN) ;;;
  tryCatch
    (student_ <- query (findStudentWithUser studentId) ;;
     student_ <- orThrow student_ (TRPCError NOT_FOUND) ;;
     campus <- query (fun db => findUnique Campus.id campusId (campus db)) ;;
     campus <- orThrow campus (TRPCError NOT_FOUND) ;;
     existingAssignment <-
       query (StudentCampusModel.findUnique studentId campusId) ;;
     throwIf (match existingAssignment with Some _ => true | None => false end)
             (TRPCError CONFLICT) ;;;
     (if isPrimary then
        exec (StudentCampusModel.updateMany
                (StudentCampusModel.isPrimaryOf studentId)
                (StudentCampus.set_isPrimary false))
      else ret tt) ;;;
     assignment <-
       StudentCampusModel.create
         (StudentCampus.mk rowId studentId campusId isPrimary ACTIVE now) ;;
     query (included assignment))
    rethrowTRPC.

Definition removeStudentFromCampus (userId campusId studentId : string)
  : Call Success :=
  hasPermission <-
    query (fun db => CampusUserService.hasPermission userService db
                       userId campusId MANAGE_CAMPUS_STUDENTS) ;;
  throwIf (negb hasPermission) (TRPCError FORBIDDEN) ;;;
  tryCatch
    (StudentCampusModel.delete studentId campusId ;;; ret tt)
    internalError.

Definition updateStudentCampusStatus
  (userId campusId studentId : string) (status : Status)
  : Call StudentCampusAssignment.t :=
  hasPermission <-
    query (fun db => CampusUserService.hasPermission userService db
                       userId campusId MANAGE_CAMPUS_STUDENTS) ;;
  throwIf (negb hasPermission) (TRPCError FORBIDDEN) ;;;
  tryCatch
    (assignment <-
       StudentCampusModel.update studentId campusId
         (StudentCampus.set_status status) ;;
     query (included assignment))
    internalError.

Definition setPrimaryCampus (userId studentId campusId : string)
  : Call StudentCampusAssignment.t :=
  hasPermission <-
    query (fun db => CampusUserService.hasPermission userService db
                       userId campusId MANAGE_CAMPUS_STUDENTS) ;;
  throwIf (negb hasPermission) (TRPCError FORBIDDEN) ;;;
  tryCatch
    (exec (StudentCampusModel.updateMany
             (StudentCampusModel.isPrimaryOf studentId)
             (StudentCampus.set_isPrimary false)) ;;;
     assignment <-
       StudentCampusModel.update studentId campusId
         (StudentCampus.set_isPrimary true) ;;
     query (included assignment))
    internalError.

End Methods.
End CampusStudentService.

(** ** Sequences of calls *)

Inductive Op : Type :=
| CT_assignTeacherToCampus
    (userId campusId teacherId : string) (isPrimary : bool) (now : Z)
| CT_removeTeacherFromCampus (userId campusId teacherId : string)
| CT_updateTeacherCampusStatus
    (userId campusId teacherId : string) (status : Status) (now : Z)
| CT_setPrimaryCampus (userId teacherId campusId : string) (now : Z)
| TC_assignTeacherToCampus
    (data : TeacherCampusService.TeacherCampusAssignmentData)
    (now : Z) (rowId : string)
| TC_assignTeacherToClass
    (data : TeacherCampusService.TeacherClassAssignmentData)
    (now : Z) (uuid : nat -> string)
| TC_updateAssignmentStatus (teacherCampusId : string) (status : Status) (now : Z)
| TC_removeTeacherFromCampus (teacherId campusId : string)
| CS_assignStudentToCampus
    (userId campusId studentId : string) (isPrimary : bool)
    (now : Z) (rowId : string)
| CS_removeStudentFromCampus (userId campusId studentId : string)
| CS_updateStudentCampusStatus
    (userId campusId studentId : string) (status : Status)
| CS_setPrimaryCampus (userId studentId campusId : string).

(** The store a call leaves behind, whether it returned or threw. *)
Definition run (us : CampusUserService.t) (op : Op) (db : Db) : Db :=
  match op with
  | CT_assignTeacherToCampus u c t p now =>
      fst (CampusTeacherService.assignTeacherToCampus us u c t p now db)
  | CT_removeTeacherFromCampus u c t =>
      fst (CampusTeacherService.removeTeacherFromCampus us u c t db)
  | CT_updateTeacherCampusStatus u c t s now =>
      fst (CampusTeacherService.updateTeacherCampusStatus us u c t s now db)
  | CT_setPrimaryCampus u t c now =>
      fst (CampusTeacherService.setPrimaryCampus u t c now db)
  | TC_assignTeacherToCampus d now k =>
      fst (TeacherCampusService.assignTeacherToCampus d now k db)
  | TC_assignTeacherToClass d now uuid =>
      fst (TeacherCampusService.assignTeacherToClass d now uuid db)
  | TC_updateAssignmentStatus k s now =>
      fst (TeacherCampusService.updateAssignmentStatus k s now db)
  | TC_removeTeacherFromCampus t c =>
      fst (TeacherCampusService.removeTeacherFromCampus t c db)
  | CS_assignStudentToCampus u c s p now k =>
      fst (CampusStudentService.assignStudentToCampus us u c s p now k db)
  | CS_removeStudentFromCampus u c s =>
      fst (CampusStudentService.removeStudentFromCampus us u c s db)
  | CS_updateStudentCampusStatus u c s st =>
      fst (CampusStudentService.updateStudentCampusStatus us u c s st db)
  | CS_setPrimaryCampus u s c =>
      fst (CampusStudentService.setPrimaryCampus us u s c db)
  end.

(** The stores observable between the calls of a sequence, the first one
    included. *)
Fixpoint trace (us : CampusUserService.t) (ops : list Op) (db : Db)
  : list Db :=
  match ops with
  | [] => [db]
  | op :: ops' => db :: trace us ops' (run us op db)
  end.

(** ** Predicates on stores *)

(** The primary flags of a table of campus assignments, whatever the
    table: [person] is [teacherId] or [studentId]. *)
Section PrimaryFlag.
Context {R : Type}.
Variables (person campus : R -> string) (primary : R -> bool)
          (status : R -> Status).

Definition pairOf (s c : string) (r : R) : bool :=
  (person r =? s) && (campus r =? c).

Definition primaryOf (s : string) (r : R) : bool :=
  (person r =? s) && primary r.

Definition activePrimaryOf (s : string) (r : R) : bool :=
  primaryOf s r && Status_eqb (status r) ACTIVE.

(** Number of rows of [s] flagged primary, of any status. *)
Definition primaries (s : string) (rows : list R) : nat :=
  List.length (filter (primaryOf s) rows).

(** Number of Active rows of [s] flagged primary. *)
Definition activePrimaries (s : string) (rows : list R) : nat :=
  List.length (filter (activePrimaryOf s) rows).

(** The unique index on (person, campus). *)
Definition pairsUnique (rows : list R) : Prop :=
  NoDup (map (fun r => (person r, campus r)) rows).

Definition onePrimary (rows : list R) : Prop :=
  pairsUnique rows /\ forall s, (primaries s rows <= 1)%nat.

End PrimaryFlag.

Definition teacherPairsUnique : list TeacherCampus.t -> Prop :=
  pairsUnique TeacherCampus.teacherId TeacherCampus.campusId.

Definition studentPairsUnique : list StudentCampus.t -> Prop :=
  pairsUnique StudentCampus.studentId StudentCampus.campusId.

(** At most one row flagged primary per person, rows of any status
    counted, in a store that respects the unique indexes. *)
Definition PrimaryInv (db : Db) : Prop :=
  onePrimary TeacherCampus.teacherId TeacherCampus.campusId
             TeacherCampus.isPrimary (teacherCampus db)
  /\ onePrimary StudentCampus.studentId StudentCampus.campusId
                StudentCampus.isPrimary (studentCampus db).

(** At most one Active row flagged primary per person. *)
Definition atMostOneActivePrimary (db : Db) : Prop :=
  (forall t,
      (activePrimaries TeacherCampus.teacherId TeacherCampus.isPrimary
         TeacherCampus.status t (teacherCampus db) <= 1)%nat)
  /\ (forall s,
      (activePrimaries StudentCampus.studentId StudentCampus.isPrimary
         StudentCampus.status s (studentCampus db) <= 1)%nat).

(** The campus a class belongs to, as the service reads it. *)
Definition classCampusId (c : Class_.t) : string :=
  Program.campusId (ClassGroup.program (Class_.classGroup c)).

(** Every class assignment is for a class of the campus of the campus
    assignment it hangs off. *)
Definition crossCampusRows
  (tcs : list TeacherCampus.t) (tcas : list TeacherClassAssignment.t)
  (cls : list Class_.t) : Prop :=
  forall a tc c,
    In a tcas ->
    In tc tcs ->
    TeacherCampus.id tc = TeacherClassAssignment.teacherCampusId a ->
    In c cls ->
    Class_.id c = TeacherClassAssignment.classId a ->
    classCampusId c = TeacherCampus.campusId tc.

Definition crossCampus (db : Db) : Prop :=
  crossCampusRows (teacherCampus db) (teacherClassAssignment db) (class_ db).

(** Primary keys of the rows a class assignment refers to, and its foreign
    key to "TeacherCampus". *)
Definition keysRows
  (tcs : list TeacherCampus.t) (tcas : list TeacherClassAssignment.t)
  (cls : list Class_.t) : Prop :=
  NoDup (map TeacherCampus.id tcs)
  /\ NoDup (map Class_.id cls)
  /\ (forall a, In a tcas ->
        hasKey TeacherCampus.id (TeacherClassAssignment.teacherCampusId a) tcs
        = true).

Definition crossCampusInvRows
  (tcs : list TeacherCampus.t) (tcas : list TeacherClassAssignment.t)
  (cls : list Class_.t) : Prop :=
  keysRows tcs tcas cls /\ crossCampusRows tcs tcas cls.

Definition CrossCampusInv (db : Db) : Prop :=
  crossCampusInvRows (teacherCampus db) (teacherClassAssignment db)
                     (class_ db).

(** The call names a campus assignment and a class that both resolve, of
    different campuses. *)
Definition campusMismatch
  (data : TeacherCampusService.TeacherClassAssignmentData) (db : Db) : Prop :=
  exists tc cls,
    hd_error (Sql.selectTeacherCampusById
                (TeacherCampusService.teacherCampusId data) db) = Some tc
    /\ findUnique Class_.id (TeacherCampusService.classId data) (class_ db)
       = Some cls
    /\ classCampusId cls <> TeacherCampus.campusId tc.

(** The cross-campus invariant with the campus of a class read off the
    class's own column, as the specification words it. *)
Definition crossCampusOwn (db : Db) : Prop :=
  forall a tc c,
    In a (teacherClassAssignment db) ->
    In tc (teacherCampus db) ->
    TeacherCampus.id tc = TeacherClassAssignment.teacherCampusId a ->
    In c (class_ db) ->
    Class_.id c = TeacherClassAssignment.classId a ->
    Class_.campusId c = TeacherCampus.campusId tc.

(** The mismatch as the specification words it: the campus assignment and
    the class resolve, and the class's own campus is another one. *)
Definition ownCampusMismatch
  (data : TeacherCampusService.TeacherClassAssignmentData) (db : Db) : Prop :=
  exists tc cls,
    hd_error (Sql.selectTeacherCampusById
                (TeacherCampusService.teacherCampusId data) db) = Some tc
    /\ findUnique Class_.id (TeacherCampusService.classId data) (class_ db)
       = Some cls
    /\ Class_.campusId cls <> TeacherCampus.campusId tc.

(** Every class is of the campus of the program of its class group. *)
Definition classesCoherent (db : Db) : Prop :=
  forall c, In c (class_ db) -> Class_.campusId c = classCampusId c.

(** The tables the services read but never write. *)
Definition referenceTables (db : Db)
  : list User.t * list TeacherProfile.t * list Teacher.t * list Student.t
    * list Campus.t * list Class_.t * list Subject.t :=
  (user db, teacherProfile db, teacher db, student db, campus db, class_ db,
   subject db).

(** A class row that hangs off a campus assignment of teacher [t] at
    campus [c], and a subject row that hangs off such a class row. *)
Definition hangsOffPair (t c : string) (db : Db)
  (a : TeacherClassAssignment.t) : bool :=
  existsb (fun tc => Sql.teacherCampusPair t c tc
                     && (TeacherClassAssignment.teacherCampusId a
                         =? TeacherCampus.id tc))
          (teacherCampus db).

Definition hangsOffClassOfPair (t c : string) (db : Db)
  (s : TeacherSubjectAssignment.t) : bool :=
  existsb (fun a => hangsOffPair t c db a
                    && (TeacherSubjectAssignment.teacherClassAssignmentId s
                        =? TeacherClassAssignment.id a))
          (teacherClassAssignment db).

(** What the removal of teacher [t] from campus [c] leaves, table by
    table: the campus assignments without those of the pair, the class
    assignments without those that hung off them, the subject assignments
    without those that hung off these, each in its order, and every other
    table as it was.  Every other row is kept as it is: the assignments of
    the teacher at other campuses with their primary flags, and the class
    and subject rows of every other assignment. *)
Definition Removed (t c : string) (db db' : Db) : Prop :=
  teacherCampus db'
  = filter (fun r => negb (Sql.teacherCampusPair t c r)) (teacherCampus db)
  /\ teacherClassAssignment db'
     = filter (fun a => negb (hangsOffPair t c db a))
              (teacherClassAssignment db)
  /\ teacherSubjectAssignment db'
     = filter (fun s => negb (hangsOffClassOfPair t c db s))
              (teacherSubjectAssignment db)
  /\ studentCampus db' = studentCampus db
  /\ referenceTables db' = referenceTables db.


(** The calls that write the status column of an existing campus
    assignment, of a teacher or of a student. *)
Definition isStatusUpdate (op : Op) : bool :=
  match op with
  | CT_updateTeacherCampusStatus _ _ _ _ _ => true
  | TC_updateAssignmentStatus _ _ _ => true
  | CS_updateStudentCampusStatus _ _ _ _ => true
  | _ => false
  end.

(** Every row of [rows'] whose id was in [rows] has the status of a row of
    [rows] with that id. *)
Definition statusKeptRows {R} (key : R -> string) (status : R -> Status)
  (rows rows' : list R) : Prop :=
  forall r',
    In r' rows' ->
    (exists r, In r rows /\ key r = key r' /\ status r = status r')
    \/ ~ In (key r') (map key rows).

(** The store without the [updatedAt] stamps of the campus assignments:
    the rows with their ids, pairs, primary flags, statuses and join dates,
    and every other table as it is. *)
Definition observableState (db : Db) : Db :=
  with_teacherCampus
    (map (TeacherCampus.set_updatedAt 0) (teacherCampus db)) db.

(** What designating campus [c] as the primary campus of person [s] does
    to a table of campus assignments: afterwards only rows at [c] are
    flagged for [s], at most one row in all, and every row the person had
    at another campus is still there, with its status, and is not flagged.
    No clause looks at the status of a row. *)
Section Designation.
Context {R : Type}.
Variables (key person campus : R -> string) (primary : R -> bool)
          (status : R -> Status).

Definition designated (s c : string) (rows rows' : list R) : Prop :=
  (forall r', In r' rows' -> person r' = s -> primary r' = true ->
              campus r' = c)
  /\ (primaries person primary s rows' <= 1)%nat
  /\ (forall r, In r rows -> person r = s -> campus r <> c ->
        exists r', In r' rows' /\ key r' = key r /\ status r' = status r
                   /\ primary r' = false).

End Designation.

Definition TeacherDesignated (t c : string) (db db' : Db) : Prop :=
  designated TeacherCampus.id TeacherCampus.teacherId TeacherCampus.campusId
             TeacherCampus.isPrimary TeacherCampus.status
             t c (teacherCampus db) (teacherCampus db').

Definition StudentDesignated (s c : string) (db db' : Db) : Prop :=
  designated StudentCampus.id StudentCampus.studentId StudentCampus.campusId
             StudentCampus.isPrimary StudentCampus.status
             s c (studentCampus db) (studentCampus db').

(** The subject ids attached to class assignment [ca], in table order. *)
Definition subjectsOf (ca : string) (db : Db) : list string :=
  map TeacherSubjectAssignment.subjectId
    (selectWhere
       (fun s => TeacherSubjectAssignment.teacherClassAssignmentId s =? ca)
       (teacherSubjectAssignment db)).

(** The rows the loop of [assignTeacherToClass] inserts for the subject
    ids [l], the first of them by iteration [i]. *)
Fixpoint subjectRows (uuid : nat -> string) (ca : string) (now : Z)
  (i : nat) (l : list string) : list TeacherSubjectAssignment.t :=
  match l with
  | [] => []
  | x :: l' =>
      TeacherSubjectAssignment.mk (uuid (S i)) ca x ACTIVE now now
      :: subjectRows uuid ca now (S i) l'
  end.

(** The foreign key of "TeacherSubjectAssignment" to its class row. *)
Definition subjectRowsRefer (db : Db) : Prop :=
  forall s, In s (teacherSubjectAssignment db) ->
    hasKey TeacherClassAssignment.id
           (TeacherSubjectAssignment.teacherClassAssignmentId s)
           (teacherClassAssignment db) = true.

(** The specification's wording of the subject loop: the call returns and
    the new class assignment has exactly one subject row per distinct
    subject id of the request. *)
Definition spec_deduplicates
  (data : TeacherCampusService.TeacherClassAssignmentData)
  (now : Z) (uuid : nat -> string) (db : Db) : Prop :=
  exists res,
    snd (TeacherCampusService.assignTeacherToClass data now uuid db) = inr res
    /\ subjectsOf (uuid 0%nat)
         (fst (TeacherCampusService.assignTeacherToClass data now uuid db))
       = nodup string_dec (TeacherCampusService.subjectIds data).

(** What the storage layer and the checks of [assignTeacherToClass] need
    for the call to go through: the campus assignment and the class
    resolve, to the same campus; the ids handed out are new and pairwise
    distinct; the class is not assigned yet; every subject exists. *)
Definition attachable
  (data : TeacherCampusService.TeacherClassAssignmentData)
  (uuid : nat -> string) (db : Db) : Prop :=
  (exists tc cls,
      hd_error (Sql.selectTeacherCampusById
                  (TeacherCampusService.teacherCampusId data) db) = Some tc
      /\ findUnique Class_.id (TeacherCampusService.classId data) (class_ db)
         = Some cls
      /\ classCampusId cls = TeacherCampus.campusId tc)
  /\ hasKey TeacherClassAssignment.id (uuid 0%nat) (teacherClassAssignment db)
     = false
  /\ existsb (Sql.classAssignmentPair
                (TeacherCampusService.teacherCampusId data)
                (TeacherCampusService.classId data))
             (teacherClassAssignment db) = false
  /\ (forall s, In s (TeacherCampusService.subjectIds data) ->
        hasKey Subject.id s (subject db) = true)
  /\ (forall j,
        (j < List.length (TeacherCampusService.subjectIds data))%nat ->
        hasKey TeacherSubjectAssignment.id (uuid (S j))
               (teacherSubjectAssignment db) = false)
  /\ (forall j j', (j < j')%nat ->
        (j' < List.length (TeacherCampusService.subjectIds data))%nat ->
        uuid (S j) <> uuid (S j')).

(** ** A sample store

    Teacher T1 and student St1, three campuses, class X1 of campus C2 and
    class X2 of campus C1, subjects S1 and S2.  The oracle lets "admin"
    manage every campus but C3; "root" holds the super-admin role. *)

Definition sampleOracle : CampusUserService.t :=
  CampusUserService.mk
    (fun _ userId campusId _ => (userId =? "admin") && negb (campusId =? "C3")).

Definition sampleStore
  (tc : list TeacherCampus.t) (tca : list TeacherClassAssignment.t)
  (tsa : list TeacherSubjectAssignment.t) (sc : list StudentCampus.t) : Db :=
  mkDb [User.mk "admin" (Some "Ada") None ["campus-admin"];
        User.mk "root" (Some "Ruth") None ["super-admin"];
        User.mk "u1" (Some "Tom") (Some "tom@lxp") ["teacher"];
        User.mk "u2" (Some "Sue") None ["student"]]
       [TeacherProfile.mk "T1" "u1"]
       [Teacher.mk "T1"]
       [Student.mk "St1" "u2"]
       [Campus.mk "C1" "North"; Campus.mk "C2" "South"; Campus.mk "C3" "East"]
       [Class_.mk "X1" "C2" (ClassGroup.mk (Program.mk "C2"));
        Class_.mk "X2" "C1" (ClassGroup.mk (Program.mk "C1"))]
       [Subject.mk "S1" "Maths"; Subject.mk "S2" "Music"]
       tc tca tsa sc.

Definition emptyStore : Db := sampleStore [] [] [] [].

(** T1 at C1 (row a1) and at C2 (row a2, primary). *)
Definition rowT1C1 (p : bool) (st : Status) : TeacherCampus.t :=
  TeacherCampus.mk "a1" "T1" "C1" p st 1 1 1.

Definition rowT1C2 (p : bool) (st : Status) : TeacherCampus.t :=
  TeacherCampus.mk "a2" "T1" "C2" p st 2 2 2.

(** T1 at C1 teaching class X2 (row k1) with subjects S1 and S2, and at
    C2, its primary campus. *)
Definition storeWithClass : Db :=
  sampleStore
    [rowT1C1 false ACTIVE; rowT1C2 true ACTIVE]
    [TeacherClassAssignment.mk "k1" "a1" "X2" true ACTIVE 3 3]
    [TeacherSubjectAssignment.mk "s1" "k1" "S1" ACTIVE 3 3;
     TeacherSubjectAssignment.mk "s2" "k1" "S2" ACTIVE 3 3]
    [].

(** T1 at C1 and at C2 (primary), no class yet. *)
Definition storeTwoCampuses : Db :=
  sampleStore [rowT1C1 false ACTIVE; rowT1C2 true ACTIVE] [] [] [].

(** St1 at C1, its primary campus. *)
Definition storeStudent : Db :=
  sampleStore [] [] [] [StudentCampus.mk "b1" "St1" "C1" true ACTIVE 1].

(** Class X3, created at campus C1 under a class group whose program is
    of campus C2; T1 at C1 and at C2, no class yet. *)
Definition strayClass : Class_.t :=
  Class_.mk "X3" "C1" (ClassGroup.mk (Program.mk "C2")).

Definition storeStrayClass : Db :=
  mkDb (user storeTwoCampuses) (teacherProfile storeTwoCampuses)
       (teacher storeTwoCampuses)
       (student storeTwoCampuses) (campus storeTwoCampuses)
       (class_ storeTwoCampuses ++ [strayClass]) (subject storeTwoCampuses)
       (teacherCampus storeTwoCampuses) [] [] [].

(** The ids handed out to the rows of one [assignTeacherToClass] call. *)
Definition sampleUuid (n : nat) : string :=
  String (Ascii.ascii_of_nat (65 + n)) "".

(** ** Read views

    A raw SELECT returns the rows of its join.  The lists of
    [getCampusesForTeacher], [getTeachersForCampus] and
    [getCampusesForStudent] are written in table order, and what is
    stated of them compares two calls or speaks of membership and counts;
    [getTeacherCampusAssignments], which aggregates with [json_agg], takes
    the order of its rows from a [RowOrder.t]. *)

(** [... AND tc."status" = 'ACTIVE'], left out when inactive rows are
    asked for. *)
Definition statusCondition (includeInactive : bool) (s : Status) : bool :=
  includeInactive || Status_eqb s ACTIVE.

(** [xs.map(f)] where [f] may throw: the first throw ends the map. *)
Fixpoint mapThrowing {A B} (f : A -> Error + B) (xs : list A)
  : Error + list B :=
  match xs with
  | [] => inr []
  | x :: xs' =>
      match f x with
      | inl e => inl e
      | inr y =>
          match mapThrowing f xs' with
          | inl e => inl e
          | inr ys => inr (y :: ys)
          end
      end
  end.

(** A value computed without writing, which may throw. *)
Definition compute {A} (f : Db -> Error + A) : Call A :=
  fun db => (db, f db).

(** The interface [CampusWithAssignment]. *)
Module CampusWithAssignment.
Record t : Type := mk
  { id : string; name : string; status : Status; isPrimary : bool;
    joinedAt : Z; campusId : string }.
End CampusWithAssignment.

(** A row of the class query of [getTeachersForCampus], over the tables
    "TeacherClass", "Class", "ClassGroup" and "Subject" (left join). *)
Module TeacherClassRow.
Record t : Type := mk
  { classId : string; className : string;
    classGroupId : string; classGroupName : string;
    subjectId : option string; subjectName : option string }.
End TeacherClassRow.

(** The interface [TeacherWithClasses]; [classes] are the rows of the
    class query, regrouped. *)
Module TeacherWithClasses.
Record t : Type := mk
  { id : string; name : option string; email : option string;
    status : Status; isPrimary : bool; joinedAt : Z;
    teacherType : option string; specialization : option string;
    classes : list TeacherClassRow.t }.
End TeacherWithClasses.

Module CampusTeacherViews.

(** [FROM "TeacherCampus" tc JOIN "Campus" c ON tc."campusId" = c."id"
     WHERE tc."teacherId" = teacherId] and the status condition. *)
Definition selectCampusesOfTeacher
  (teacherId : string) (includeInactive : bool) (db : Db)
  : list (Campus.t * TeacherCampus.t) :=
  flat_map
    (fun tc =>
       map (fun c => (c, tc))
           (selectWhere (fun c => Campus.id c =? TeacherCampus.campusId tc)
                        (campus db)))
    (selectWhere
       (fun tc => (TeacherCampus.teacherId tc =? teacherId)
                  && statusCondition includeInactive (TeacherCampus.status tc))
       (teacherCampus db)).

Definition getCampusesForTeacher
  (userId teacherId : string) (includeInactive : bool)
  : Call (list CampusWithAssignment.t) :=
  teacher <-
    query (fun db => findUnique TeacherProfile.id teacherId (teacherProfile db)) ;;
  orThrow teacher (TRPCError NOT_FOUND) ;;;
  teacherCampuses <- query (selectCampusesOfTeacher teacherId includeInactive) ;;
  ret (map (fun row =>
              CampusWithAssignment.mk
                (Campus.id (fst row)) (Campus.name (fst row))
                (TeacherCampus.status (snd row))
                (TeacherCampus.isPrimary (snd row))
                (TeacherCampus.joinedAt (snd row))
                (TeacherCampus.campusId (snd row)))
           teacherCampuses).

(** [FROM "TeacherCampus" tc JOIN "TeacherProfile" tp ON tc."teacherId" =
     tp."id" JOIN "User" u ON tp."userId" = u."id"
     WHERE tc."campusId" = campusId] and the status condition. *)
Definition selectTeachersOfCampus
  (campusId : string) (includeInactive : bool) (db : Db)
  : list (TeacherCampus.t * TeacherProfile.t * User.t) :=
  flat_map
    (fun tc =>
       flat_map
         (fun tp =>
            map (fun u => (tc, tp, u))
                (selectWhere (fun u => User.id u =? TeacherProfile.userId tp)
                             (user db)))
         (selectWhere (fun tp => TeacherProfile.id tp
                                 =? TeacherCampus.teacherId tc)
                      (teacherProfile db)))
    (selectWhere
       (fun tc => (TeacherCampus.campusId tc =? campusId)
                  && statusCondition includeInactive (TeacherCampus.status tc))
       (teacherCampus db)).

Section Methods.
Variable userService : CampusUserService.t.
(** The columns [teacherType] and [specialization] of a teacher profile,
    and the class query for a teacher at a campus: they read tables whose
    schema is not part of the services. *)
Variable profileColumns : TeacherProfile.t -> option string * option string.
Variable teacherClasses : Db -> string -> string -> list TeacherClassRow.t.

Definition getTeachersForCampus
  (userId campusId : string) (includeInactive : bool)
  : Call (list TeacherWithClasses.t) :=
  hasPermission <-
    query (fun db => CampusUserService.hasPermission userService db
                       userId campusId VIEW_CAMPUS_CLASSES) ;;
  throwIf (negb hasPermission) (TRPCError FORBIDDEN) ;;;
  campus <- query (fun db => findUnique Campus.id campusId (campus db)) ;;
  orThrow campus (TRPCError NOT_FOUND) ;;;
  teacherCampuses <- query (selectTeachersOfCampus campusId includeInactive) ;;
  query (fun db =>
           map (fun row =>
                  match row with
                  | (tc, tp, u) =>
                      TeacherWithClasses.mk
                        (TeacherCampus.teacherId tc)
                        (User.name u) (User.email u)
                        (TeacherCampus.status tc)
                        (TeacherCampus.isPrimary tc)
                        (TeacherCampus.joinedAt tc)
                        (fst (profileColumns tp)) (snd (profileColumns tp))
                        (teacherClasses db (TeacherCampus.teacherId tc)
                                        campusId)
                  end)
               teacherCampuses).

End Methods.
End CampusTeacherViews.

(** The objects [getTeacherCampusAssignments] builds with
    [json_build_object]; a column of the left join is null when the campus
    assignment has no class row. *)
Module SubjectJson.
Record t : Type := mk { id : string; name : string }.
End SubjectJson.

Module ClassAssignmentJson.
Record t : Type := mk
  { id : option string; classId : option string;
    isClassTeacher : option bool; status : option Status;
    subjects : option (list SubjectJson.t) }.
End ClassAssignmentJson.

Module CampusAssignmentJson.
Record t : Type := mk
  { id : string; teacherId : string; campusId : string;
    isPrimary : bool; status : Status; campusName : string;
    classAssignments : list ClassAssignmentJson.t }.
End CampusAssignmentJson.

(** The order of the rows of a query without ORDER BY, and of the
    elements of a [json_agg] without one, is the storage's choice: an
    arrangement of the rows, whatever it is, as long as it keeps them. *)
Module RowOrder.
Record t : Type := mk
  { arrange : forall A : Type, list A -> list A;
    arrange_perm : forall (A : Type) (l : list A),
        Permutation (arrange A l) l }.
End RowOrder.

(** The rows as they are in the table, and the other way round. *)
Definition tableOrder : RowOrder.t :=
  RowOrder.mk (fun _ l => l) (fun _ l => Permutation_refl l).

Definition reverseOrder : RowOrder.t :=
  RowOrder.mk (fun _ l => rev l)
              (fun _ l => Permutation_sym (Permutation_rev l)).

Module TeacherCampusViews.

(** [json_agg] over no row is null. *)
Definition json_agg {A} (rows : list A) : option (list A) :=
  match rows with
  | [] => None
  | _ => Some rows
  end.

(** The rows of
    [FROM "TeacherSubjectAssignment" tsa
     JOIN "Subject" s ON s.id = tsa."subjectId"
     WHERE tsa."teacherClassAssignmentId" = classAssignmentId],
    each as [json_build_object('id', s.id, 'name', s.name)]. *)
Definition subjectsJoin (classAssignmentId : string) (db : Db)
  : list SubjectJson.t :=
  flat_map
    (fun tsa =>
       map (fun s => SubjectJson.mk (Subject.id s) (Subject.name s))
           (selectWhere
              (fun s => Subject.id s =? TeacherSubjectAssignment.subjectId tsa)
              (subject db)))
    (selectWhere
       (fun tsa => TeacherSubjectAssignment.teacherClassAssignmentId tsa
                   =? classAssignmentId)
       (teacherSubjectAssignment db)).

Section Queries.
(** The order the storage answers in. *)
Variable order : RowOrder.t.

(** [SELECT json_agg(...)] over the rows of [subjectsJoin]. *)
Definition subjectsJson (classAssignmentId : string) (db : Db)
  : option (list SubjectJson.t) :=
  json_agg (RowOrder.arrange order _ (subjectsJoin classAssignmentId db)).

(** The [json_agg] over
    [LEFT JOIN "TeacherClassAssignment" tca ON tca."teacherCampusId" = tc.id]:
    without a class row the join has one row of nulls, whose subquery
    compares with null and finds nothing. *)
Definition classAssignmentsJson (tc : TeacherCampus.t) (db : Db)
  : list ClassAssignmentJson.t :=
  match selectWhere
          (fun a => TeacherClassAssignment.teacherCampusId a
                    =? TeacherCampus.id tc)
          (teacherClassAssignment db) with
  | [] => [ClassAssignmentJson.mk None None None None None]
  | rows =>
      RowOrder.arrange order _
        (map (fun a =>
                ClassAssignmentJson.mk
                  (Some (TeacherClassAssignment.id a))
                  (Some (TeacherClassAssignment.classId a))
                  (Some (TeacherClassAssignment.isClassTeacher a))
                  (Some (TeacherClassAssignment.status a))
                  (subjectsJson (TeacherClassAssignment.id a) db))
             rows)
  end.

(** One group per row of "TeacherCampus" of the teacher joined with its
    campus: the GROUP BY key holds the primary key [tc.id]. *)
Definition getTeacherCampusAssignments (teacherId : string)
  : Call (list CampusAssignmentJson.t) :=
  query (fun db =>
           RowOrder.arrange order _
             (flat_map
                (fun tc =>
                   map (fun c =>
                          CampusAssignmentJson.mk
                            (TeacherCampus.id tc) (TeacherCampus.teacherId tc)
                            (TeacherCampus.campusId tc)
                            (TeacherCampus.isPrimary tc)
                            (TeacherCampus.status tc) (Campus.name c)
                            (classAssignmentsJson tc db))
                       (selectWhere
                          (fun c => Campus.id c =? TeacherCampus.campusId tc)
                          (campus db)))
                (selectWhere
                   (fun tc => TeacherCampus.teacherId tc =? teacherId)
                   (teacherCampus db)))).

End Queries.
End TeacherCampusViews.

Module CampusStudentViews.

(** [studentCampus.findMany({ where: { studentId, status? },
     include: { campus: true } })] *)
Definition findManyWithCampus
  (studentId : string) (includeInactive : bool) (db : Db)
  : list (StudentCampus.t * option Campus.t) :=
  map (fun sc =>
         (sc, findUnique Campus.id (StudentCampus.campusId sc) (campus db)))
      (selectWhere
         (fun sc => (StudentCampus.studentId sc =? studentId)
                    && statusCondition includeInactive (StudentCampus.status sc))
         (studentCampus db)).

Definition getCampusesForStudent
  (userId studentId : string) (includeInactive : bool)
  : Call (list CampusWithAssignment.t) :=
  tryCatch
    (campuses <- query (findManyWithCampus studentId includeInactive) ;;
     compute (fun _ =>
                mapThrowing
                  (fun assignment =>
                     match snd assignment with
                     | Some c =>
                         inr (CampusWithAssignment.mk
                                (Campus.id c) (Campus.name c)
                                (StudentCampus.status (fst assignment))
                                (StudentCampus.isPrimary (fst assignment))
                                (StudentCampus.joinedAt (fst assignment))
                                (StudentCampus.campusId (fst assignment)))
                     | None => inl TypeError
                     end)
                  campuses))
    CampusStudentService.internalError.

End CampusStudentViews.

(** ** The procedures of the campus router

    A procedure refuses a call without a logged-in user and otherwise
    hands the id of the session's user to the service as the actor. *)

Module CampusRouter.

Inductive ProcedureError : Type :=
| UNAUTHORIZED
| Thrown (e : Error).

(** [if (!ctx.session || !ctx.session.user) throw UNAUTHORIZED], then the
    service call with [ctx.session.user.id]. *)
Definition withSession {A} (session : option string) (body : string -> Call A)
  : Db -> Db * (ProcedureError + A) :=
  fun db =>
    match session with
    | None => (db, inl UNAUTHORIZED)
    | Some userId =>
        match body userId db with
        | (db', inl e) => (db', inl (Thrown e))
        | (db', inr a) => (db', inr a)
        end
    end.

Section Procedures.
Variable userService : CampusUserService.t.

(** [isPrimary: z.boolean().optional()]: left out, the service's default
    [false] applies. *)
Definition assignTeacherToCampus
  (session : option string) (campusId teacherId : string)
  (isPrimary : option bool) (now : Z) :=
  withSession session
    (fun userId =>
       CampusTeacherService.assignTeacherToCampus userService userId
         campusId teacherId
         (match isPrimary with Some b => b | None => false end) now).

Definition removeTeacherFromCampus
  (session : option string) (campusId teacherId : string) :=
  withSession session
    (fun userId =>
       CampusTeacherService.removeTeacherFromCampus userService userId
         campusId teacherId).

Definition updateTeacherCampusStatus
  (session : option string) (campusId teacherId : string) (status : Status)
  (now : Z) :=
  withSession session
    (fun userId =>
       CampusTeacherService.updateTeacherCampusStatus userService userId
         campusId teacherId status now).

Definition setPrimaryCampus
  (session : option string) (teacherId campusId : string) (now : Z) :=
  withSession session
    (fun userId =>
       CampusTeacherService.setPrimaryCampus userId teacherId campusId now).

(** The procedure passes no [includeInactive]: the service's default
    [false] applies. *)
Definition getTeacherCampuses (session : option string) (teacherId : string) :=
  withSession session
    (fun userId =>
       CampusTeacherViews.getCampusesForTeacher userId teacherId false).

End Procedures.
End CampusRouter.

(** ** Outcome of a call of a sequence *)

Definition errorOf {A} (r : Error + A) : option Error :=
  match r with
  | inl e => Some e
  | inr _ => None
  end.

(** The error a call throws, if it throws. *)
Definition thrown (us : CampusUserService.t) (op : Op) (db : Db)
  : option Error :=
  match op with
  | CT_assignTeacherToCampus u c t p now =>
      errorOf (snd (CampusTeacherService.assignTeacherToCampus
                      us u c t p now db))
  | CT_removeTeacherFromCampus u c t =>
      errorOf (snd (CampusTeacherService.removeTeacherFromCampus us u c t db))
  | CT_updateTeacherCampusStatus u c t s now =>
      errorOf (snd (CampusTeacherService.updateTeacherCampusStatus
                      us u c t s now db))
  | CT_setPrimaryCampus u t c now =>
      errorOf (snd (CampusTeacherService.setPrimaryCampus u t c now db))
  | TC_assignTeacherToCampus d now k =>
      errorOf (snd (TeacherCampusService.assignTeacherToCampus d now k db))
  | TC_assignTeacherToClass d now uuid =>
      errorOf (snd (TeacherCampusService.assignTeacherToClass d now uuid db))
  | TC_updateAssignmentStatus k s now =>
      errorOf (snd (TeacherCampusService.updateAssignmentStatus k s now db))
  | TC_removeTeacherFromCampus t c =>
      errorOf (snd (TeacherCampusService.removeTeacherFromCampus t c db))
  | CS_assignStudentToCampus u c s p now k =>
      errorOf (snd (CampusStudentService.assignStudentToCampus
                      us u c s p now k db))
  | CS_removeStudentFromCampus u c s =>
      errorOf (snd (CampusStudentService.removeStudentFromCampus us u c s db))
  | CS_updateStudentCampusStatus u c s st =>
      errorOf (snd (CampusStudentService.updateStudentCampusStatus
                      us u c s st db))
  | CS_setPrimaryCampus u s c =>
      errorOf (snd (CampusStudentService.setPrimaryCampus us u s c db))
  end.

(** ** Predicates of the further properties *)

(** The errors a call can end with: the [throw] statements of its method,
    the rejections of its INSERTs that no earlier test rules out, and what
    its catch block makes of them.  The INSERT of
    [CampusTeacherService.assignTeacherToCampus] is rejected for its
    missing "id" whenever it is reached. *)
Definition mayThrow (op : Op) : list Error :=
  match op with
  | CT_assignTeacherToCampus _ _ _ _ _ =>
      [TRPCError FORBIDDEN; TRPCError NOT_FOUND; TRPCError CONFLICT;
       StorageError NotNullViolation]
  | CT_removeTeacherFromCampus _ _ _ =>
      [TRPCError FORBIDDEN; TRPCError NOT_FOUND]
  | CT_updateTeacherCampusStatus _ _ _ _ _ =>
      [TRPCError FORBIDDEN; TRPCError NOT_FOUND;
       TRPCError INTERNAL_SERVER_ERROR; TypeError]
  | CT_setPrimaryCampus _ _ _ _ =>
      [TRPCError NOT_FOUND; TRPCError INTERNAL_SERVER_ERROR; TypeError]
  | TC_assignTeacherToCampus _ _ _ =>
      [TRPCError NOT_FOUND; TRPCError CONFLICT; StorageError UniqueViolation;
       StorageError ForeignKeyViolation; TypeError]
  | TC_assignTeacherToClass _ _ _ =>
      [TRPCError NOT_FOUND; TRPCError BAD_REQUEST;
       StorageError UniqueViolation; StorageError ForeignKeyViolation]
  | TC_updateAssignmentStatus _ _ _ => [TRPCError NOT_FOUND]
  | TC_removeTeacherFromCampus _ _ => [TRPCError NOT_FOUND]
  | CS_assignStudentToCampus _ _ _ _ _ _ =>
      [TRPCError FORBIDDEN; TRPCError NOT_FOUND; TRPCError CONFLICT;
       TRPCError INTERNAL_SERVER_ERROR]
  | CS_removeStudentFromCampus _ _ _ =>
      [TRPCError FORBIDDEN; TRPCError INTERNAL_SERVER_ERROR]
  | CS_updateStudentCampusStatus _ _ _ _ =>
      [TRPCError FORBIDDEN; TRPCError INTERNAL_SERVER_ERROR]
  | CS_setPrimaryCampus _ _ _ =>
      [TRPCError FORBIDDEN; TRPCError INTERNAL_SERVER_ERROR]
  end.

(** Who is assigned where, and which assignment is flagged primary: the
    rows without their status and [updatedAt] columns. *)
Definition teacherPlacement (db : Db)
  : list (string * string * string * bool * Z * Z) :=
  map (fun r => (TeacherCampus.id r, TeacherCampus.teacherId r,
                 TeacherCampus.campusId r, TeacherCampus.isPrimary r,
                 TeacherCampus.joinedAt r, TeacherCampus.createdAt r))
      (teacherCampus db).

Definition studentPlacement (db : Db)
  : list (string * string * string * bool * Z) :=
  map (fun r => (StudentCampus.id r, StudentCampus.studentId r,
                 StudentCampus.campusId r, StudentCampus.isPrimary r,
                 StudentCampus.joinedAt r))
      (studentCampus db).

(** The foreign key of "TeacherClassAssignment" to "TeacherCampus". *)
Definition classRowsRefer (db : Db) : Prop :=
  forall a, In a (teacherClassAssignment db) ->
    hasKey TeacherCampus.id (TeacherClassAssignment.teacherCampusId a)
           (teacherCampus db) = true.

(** The foreign key of "StudentCampus" to "Campus". *)
Definition studentRowsRefer (db : Db) : Prop :=
  forall sc, In sc (studentCampus db) ->
    hasKey Campus.id (StudentCampus.campusId sc) (campus db) = true.

(** A child table whose rows all refer to a row of the parent table. *)
Definition refersTo {P C} (pk : P -> string) (fk : C -> string)
  (parents : list P) (children : list C) : Prop :=
  forall c, In c children -> hasKey pk (fk c) parents = true.

(** The foreign keys among the three assignment tables of a teacher. *)
Definition noOrphanRows
  (tcs : list TeacherCampus.t) (tcas : list TeacherClassAssignment.t)
  (tsas : list TeacherSubjectAssignment.t) : Prop :=
  refersTo TeacherCampus.id TeacherClassAssignment.teacherCampusId tcs tcas
  /\ refersTo TeacherClassAssignment.id
              TeacherSubjectAssignment.teacherClassAssignmentId tcas tsas.

(** No class assignment without its campus assignment, no subject
    assignment without its class assignment. *)
Definition NoOrphans (db : Db) : Prop :=
  noOrphanRows (teacherCampus db) (teacherClassAssignment db)
               (teacherSubjectAssignment db).

(** ** Requests to the router *)

(** A request to one of the mutations of the router that manage the
    campuses of a teacher, with the session it comes with. *)
Inductive Request : Type :=
| AssignTeacherToCampus
    (session : option string) (campusId teacherId : string)
    (isPrimary : option bool) (now : Z)
| RemoveTeacherFromCampus (session : option string) (campusId teacherId : string)
| UpdateTeacherCampusStatus
    (session : option string) (campusId teacherId : string) (status : Status)
    (now : Z)
| SetPrimaryCampus (session : option string) (teacherId campusId : string)
    (now : Z).

(** The store a request leaves behind. *)
Definition serve (us : CampusUserService.t) (req : Request) (db : Db) : Db :=
  match req with
  | AssignTeacherToCampus s c t p now =>
      fst (CampusRouter.assignTeacherToCampus us s c t p now db)
  | RemoveTeacherFromCampus s c t =>
      fst (CampusRouter.removeTeacherFromCampus us s c t db)
  | UpdateTeacherCampusStatus s c t st now =>
      fst (CampusRouter.updateTeacherCampusStatus us s c t st now db)
  | SetPrimaryCampus s t c now =>
      fst (CampusRouter.setPrimaryCampus s t c now db)
  end.

(** The stores observable between the requests of a sequence. *)
Fixpoint served (us : CampusUserService.t) (reqs : list Request) (db : Db)
  : list Db :=
  match reqs with
  | [] => [db]
  | req :: reqs' => db :: served us reqs' (serve us req db)
  end.

(* ================================================================== *)
(** * Properties *)

(** ** Generic table statements *)

Lemma updateWhere_map_key {R K} (key : R -> K) p (f : R -> R) rows :
  (forall r, key (f r) = key r) ->
  map key (updateWhere p f rows) = map key rows.
Proof.
  intros Hk. unfold updateWhere. rewrite map_map.
  apply map_ext. intros r. destruct (p r); auto.
Qed.

Lemma filter_length_map_le {R} (q : R -> bool) (g : R -> R) rows :
  (forall r, q (g r) = true -> q r = true) ->
  (List.length (filter q (map g rows)) <= List.length (filter q rows))%nat.
Proof.
  intros Hq. induction rows as [|r rows IH]; simpl; auto.
  destruct (q (g r)) eqn:E.
  - rewrite (Hq _ E). simpl. lia.
  - destruct (q r); simpl; lia.
Qed.

Lemma filter_length_map_none {R} (q : R -> bool) (g : R -> R) rows :
  (forall r, q (g r) = false) ->
  List.length (filter q (map g rows)) = 0%nat.
Proof.
  intros Hq. induction rows as [|r rows IH]; simpl; auto.
  rewrite Hq. exact IH.
Qed.

Lemma filter_length_filter_le {R} (q p : R -> bool) rows :
  (List.length (filter q (filter p rows)) <= List.length (filter q rows))%nat.
Proof.
  induction rows as [|r rows IH]; simpl; auto.
  destruct (p r); simpl; destruct (q r); simpl; lia.
Qed.

Lemma filter_length_app {R} (q : R -> bool) rows r :
  List.length (filter q (rows ++ [r]))
  = (List.length (filter q rows) + (if q r then 1 else 0))%nat.
Proof.
  rewrite filter_app, length_app. simpl. destruct (q r); reflexivity.
Qed.

Lemma filter_length_weaken {R} (q q' : R -> bool) rows :
  (forall r, q r = true -> q' r = true) ->
  (List.length (filter q rows) <= List.length (filter q' rows))%nat.
Proof.
  intros H. induction rows as [|r rows IH]; simpl; auto.
  destruct (q r) eqn:E.
  - rewrite (H _ E). simpl. lia.
  - destruct (q' r); simpl; lia.
Qed.

Lemma NoDup_map_filter {R K} (key : R -> K) p rows :
  NoDup (map key rows) -> NoDup (map key (filter p rows)).
Proof.
  induction rows as [|r rows IH]; simpl; intros H; auto.
  inversion H as [|? ? Hn Hd]; subst.
  destruct (p r); simpl; auto.
  constructor; auto.
  intros Hin. apply Hn. apply in_map_iff in Hin.
  destruct Hin as [x [Hx Hf]]. apply filter_In in Hf.
  apply in_map_iff. exists x. tauto.
Qed.

Lemma NoDup_map_snoc {R K} (key : R -> K) rows r :
  NoDup (map key rows) -> ~ In (key r) (map key rows) ->
  NoDup (map key (rows ++ [r])).
Proof.
  intros Hd Hn. rewrite map_app. simpl.
  apply NoDup_app; auto.
  - constructor; [intros []|constructor].
  - intros x Hx [Hy|[]]. subst. contradiction.
Qed.

Lemma existsb_false_forall {R} (p : R -> bool) rows :
  existsb p rows = false -> forall r, In r rows -> p r = false.
Proof.
  intros H r Hin. destruct (p r) eqn:E; auto.
  assert (existsb p rows = true) by (apply existsb_exists; eauto).
  congruence.
Qed.

Lemma filter_nil_forall {R} (p : R -> bool) rows :
  filter p rows = [] -> forall r, In r rows -> p r = false.
Proof.
  intros H r Hin. destruct (p r) eqn:E; auto.
  assert (In r (filter p rows)) by (apply filter_In; auto).
  rewrite H in *. contradiction.
Qed.

Lemma filter_length_zero {R} (p : R -> bool) rows :
  List.length (filter p rows) = 0%nat -> forall r, In r rows -> p r = false.
Proof.
  intros H. apply filter_nil_forall.
  destruct (filter p rows); [reflexivity|discriminate].
Qed.

(** ** Primary flags *)

Section PrimaryFlagFacts.
Context {R : Type}.
Variables (person campus : R -> string) (primary : R -> bool)
          (status : R -> Status).

Lemma pairOf_key s c r :
  pairOf person campus s c r = true <-> (person r, campus r) = (s, c).
Proof.
  unfold pairOf. rewrite andb_true_iff, !String.eqb_eq.
  split; [intros [-> ->]; reflexivity|intros H; inversion H; auto].
Qed.

Lemma pairsUnique_at_most_one s c rows :
  pairsUnique person campus rows ->
  (List.length (filter (pairOf person campus s c) rows) <= 1)%nat.
Proof.
  unfold pairsUnique.
  induction rows as [|r rows IH]; simpl; intros H; auto.
  inversion H as [|? ? Hn Hd]; subst.
  destruct (pairOf person campus s c r) eqn:E; simpl; auto.
  assert (filter (pairOf person campus s c) rows = []) as ->; simpl; auto.
  destruct (filter (pairOf person campus s c) rows) as [|x xs] eqn:F; auto.
  exfalso. apply Hn.
  assert (In x (filter (pairOf person campus s c) rows)) as Hx
    by (rewrite F; left; auto).
  apply filter_In in Hx. destruct Hx as [Hx Hp].
  apply pairOf_key in E. apply pairOf_key in Hp.
  rewrite E, <- Hp. apply (in_map (fun r => (person r, campus r))). exact Hx.
Qed.

Lemma activePrimaries_le s rows :
  (activePrimaries person primary status s rows
   <= primaries person primary s rows)%nat.
Proof.
  apply filter_length_weaken. unfold activePrimaryOf.
  intros r H. apply andb_true_iff in H. tauto.
Qed.

(** An update that keeps person and campus and raises no flag. *)
Lemma onePrimary_demote (g : R -> R) rows :
  (forall r, person (g r) = person r) ->
  (forall r, campus (g r) = campus r) ->
  (forall r, primary (g r) = true -> primary r = true) ->
  onePrimary person campus primary rows ->
  onePrimary person campus primary (map g rows).
Proof.
  intros Hp Hc Hf [Hu H1]. split.
  - unfold pairsUnique in *. rewrite map_map.
    erewrite map_ext; [exact Hu|].
    intros r; simpl. rewrite Hp, Hc. reflexivity.
  - intros s. specialize (H1 s).
    eapply Nat.le_trans; [|exact H1].
    apply filter_length_map_le. unfold primaryOf.
    intros r H. apply andb_true_iff in H. destruct H as [Ha Hb].
    rewrite Hp in Ha. rewrite Ha, (Hf _ Hb). reflexivity.
Qed.

Lemma onePrimary_updateWhere p (f : R -> R) rows :
  (forall r, person (f r) = person r) ->
  (forall r, campus (f r) = campus r) ->
  (forall r, primary (f r) = true -> primary r = true) ->
  onePrimary person campus primary rows ->
  onePrimary person campus primary (updateWhere p f rows).
Proof.
  intros Hp Hc Hf. apply onePrimary_demote; intros r; destruct (p r); auto.
Qed.

Lemma onePrimary_delete p rows :
  onePrimary person campus primary rows ->
  onePrimary person campus primary (filter p rows).
Proof.
  intros [Hu H1]. split.
  - apply NoDup_map_filter. exact Hu.
  - intros s. eapply Nat.le_trans; [apply filter_length_filter_le|apply H1].
Qed.

(** The clear step leaves the person without any flagged row. *)
Lemma primaries_clear s (f : R -> R) rows :
  (forall r, person (f r) = person r) ->
  (forall r, primary (f r) = false) ->
  primaries person primary s (updateWhere (primaryOf person primary s) f rows) = 0%nat.
Proof.
  intros Hp Hf. apply filter_length_map_none.
  intros r. unfold primaryOf.
  destruct (person r =? s) eqn:E; simpl.
  - destruct (primary r) eqn:F; simpl.
    + rewrite Hp, E, Hf. reflexivity.
    + rewrite E, F. reflexivity.
  - rewrite E. reflexivity.
Qed.

Lemma no_pair_not_in s c rows :
  (forall r, In r rows -> pairOf person campus s c r = false) ->
  ~ In (s, c) (map (fun r => (person r, campus r)) rows).
Proof.
  intros H Hin. apply in_map_iff in Hin. destruct Hin as [r [Hk Hr]].
  apply pairOf_key in Hk. rewrite (H _ Hr) in Hk. discriminate.
Qed.

(** Appending a row for a pair that is not there yet. *)
Lemma onePrimary_insert rows r :
  (forall x, In x rows ->
             pairOf person campus (person r) (campus r) x = false) ->
  (primary r = true -> primaries person primary (person r) rows = 0%nat) ->
  onePrimary person campus primary rows ->
  onePrimary person campus primary (rows ++ [r]).
Proof.
  intros Hn Hz [Hu H1]. split.
  - apply NoDup_map_snoc; auto. simpl. apply no_pair_not_in. exact Hn.
  - intros s. unfold primaries. rewrite filter_length_app.
    specialize (H1 s). unfold primaries in *.
    destruct (primaryOf person primary s r) eqn:E; [|lia].
    unfold primaryOf in E. apply andb_true_iff in E.
    destruct E as [Es Ep]. apply String.eqb_eq in Es. subst s.
    rewrite (Hz Ep). lia.
Qed.

(** Raising the flag of one pair of a person that has no flagged row. *)
Lemma onePrimary_promote s c (f : R -> R) rows :
  (forall r, person (f r) = person r) ->
  (forall r, campus (f r) = campus r) ->
  primaries person primary s rows = 0%nat ->
  onePrimary person campus primary rows ->
  onePrimary person campus primary
    (updateWhere (pairOf person campus s c) f rows).
Proof.
  intros Hp Hc Hz [Hu H1]. split.
  - unfold pairsUnique in *.
    rewrite updateWhere_map_key; auto.
    intros r. rewrite Hp, Hc. reflexivity.
  - intros s'. destruct (String.eqb_spec s' s) as [->|Hne].
    + eapply Nat.le_trans; [|apply (pairsUnique_at_most_one s c rows Hu)].
      unfold primaries, updateWhere.
      assert (Hnone : forall r, In r rows ->
                                primaryOf person primary s r = false)
        by (apply filter_length_zero; exact Hz).
      clear - Hnone Hp. induction rows as [|r rows IH]; simpl; auto.
      assert (Hr := Hnone r (or_introl eq_refl)).
      assert (IH' := IH (fun x Hx => Hnone x (or_intror Hx))).
      destruct (pairOf person campus s c r) eqn:E; simpl.
      * destruct (primaryOf person primary s (f r)); simpl; lia.
      * rewrite Hr. exact IH'.
    + eapply Nat.le_trans; [|apply (H1 s')].
      apply filter_length_map_le. intros r.
      destruct (pairOf person campus s c r) eqn:E; auto.
      unfold primaryOf. rewrite Hp.
      apply pairOf_key in E. inversion E as [[Ea Eb]].
      rewrite Ea. destruct (String.eqb_spec s s'); [congruence|].
      simpl. discriminate.
Qed.

End PrimaryFlagFacts.

(** ** Case analysis of a call *)

(** Splits on the innermost test first, so that every branch of a method
    is followed from its first statement on. *)
Ltac break_inner :=
  match goal with
  | |- context [match ?x with _ => _ end] =>
      lazymatch x with
      | context [match _ with _ => _ end] => fail
      | _ => destruct x eqn:?
      end
  end.

Ltac unfold_call :=
  unfold bind, query, exec, orThrow, throwIf, tryCatch, transaction,
         ret, throw in *.

Ltac run_call := unfold_call; simpl; repeat (break_inner; simpl).

Ltac row_facts :=
  intros []; simpl; try reflexivity; try discriminate; auto.

(** ** At most one primary campus per person *)

Ltac primary_table :=
  first
  [ assumption
  | apply onePrimary_delete; primary_table
  | apply onePrimary_promote;
    [ row_facts | row_facts
    | apply primaries_clear; row_facts
    | primary_table ]
  | apply onePrimary_updateWhere;
    [ row_facts | row_facts | row_facts | primary_table ]
  | apply onePrimary_insert; simpl;
    [ apply existsb_false_forall; assumption
    | first [ discriminate | intros _; apply primaries_clear; row_facts ]
    | primary_table ] ].

Ltac primary_leaf := split; simpl; primary_table.

Lemma with_teacherSubjectAssignment_self db :
  db = with_teacherSubjectAssignment (teacherSubjectAssignment db) db.
Proof. destruct db; reflexivity. Qed.

(** The loop of [assignTeacherToClass] writes to "TeacherSubjectAssignment"
    only. *)
Lemma subject_loop_frame uuid ca now l : forall i db d res,
  forEachFrom i l
    (fun i subjectId =>
       Sql.insertTeacherSubjectAssignment
         (TeacherSubjectAssignment.mk (uuid (S i)) ca subjectId ACTIVE now now))
    db = (d, res) ->
  exists rows, d = with_teacherSubjectAssignment rows db.
Proof.
  induction l as [|x l IH]; simpl; intros i db d res H.
  - inversion H; subst. eexists. apply with_teacherSubjectAssignment_self.
  - unfold bind at 1 in H.
    unfold Sql.insertTeacherSubjectAssignment at 1 in H. simpl in H.
    repeat match type of H with
           | context [if ?b then _ else _] => destruct b
           end;
      try (inversion H; subst; eexists;
           apply with_teacherSubjectAssignment_self).
    apply IH in H. destruct H as [rows ->]. eexists. reflexivity.
Qed.

Ltac subject_loop :=
  match goal with
  | H : forEachFrom _ _ _ _ = (_, _) |- _ =>
      apply subject_loop_frame in H; destruct H as [? ->]
  end.

(** ** Tables the services never write *)

Lemma run_keeps_reference_tables us op db :
  referenceTables (run us op db) = referenceTables db.
Proof.
  destruct op; unfold run, referenceTables.
  - unfold CampusTeacherService.assignTeacherToCampus, Sql.insertTeacherCampus.
    run_call; reflexivity.
  - unfold CampusTeacherService.removeTeacherFromCampus.
    run_call; reflexivity.
  - unfold CampusTeacherService.updateTeacherCampusStatus, teacherSummary.
    run_call; reflexivity.
  - unfold CampusTeacherService.setPrimaryCampus, teacherSummary.
    run_call; reflexivity.
  - unfold TeacherCampusService.assignTeacherToCampus, teacherSummary,
      Sql.insertTeacherCampus.
    run_call; reflexivity.
  - unfold TeacherCampusService.assignTeacherToClass,
      Sql.insertTeacherClassAssignment.
    run_call; try subject_loop; reflexivity.
  - unfold TeacherCampusService.updateAssignmentStatus.
    run_call; reflexivity.
  - unfold TeacherCampusService.removeTeacherFromCampus.
    run_call; reflexivity.
  - unfold CampusStudentService.assignStudentToCampus,
      StudentCampusModel.create.
    run_call; reflexivity.
  - unfold CampusStudentService.removeStudentFromCampus,
      StudentCampusModel.delete.
    run_call; reflexivity.
  - unfold CampusStudentService.updateStudentCampusStatus,
      StudentCampusModel.update.
    run_call; reflexivity.
  - unfold CampusStudentService.setPrimaryCampus, StudentCampusModel.update.
    run_call; reflexivity.
Qed.

(** What every call keeps holds in every store between the calls of a
    sequence. *)
Lemma trace_invariant (P : Db -> Prop) us :
  (forall op db, P db -> P (run us op db)) ->
  forall ops db0, P db0 -> Forall P (trace us ops db0).
Proof.
  intros Hrun. induction ops as [|op ops IH]; simpl; intros db0 H.
  - constructor; auto.
  - constructor; auto.
Qed.

Lemma PrimaryInv_run us op db : PrimaryInv db -> PrimaryInv (run us op db).
Proof.
  intros [Ht Hs]. destruct op; unfold run.
  - unfold CampusTeacherService.assignTeacherToCampus, Sql.insertTeacherCampus.
    run_call; primary_leaf.
  - unfold CampusTeacherService.removeTeacherFromCampus.
    run_call; primary_leaf.
  - unfold CampusTeacherService.updateTeacherCampusStatus, teacherSummary.
    run_call; primary_leaf.
  - unfold CampusTeacherService.setPrimaryCampus, teacherSummary.
    run_call; primary_leaf.
  - unfold TeacherCampusService.assignTeacherToCampus, teacherSummary,
      Sql.insertTeacherCampus.
    run_call; primary_leaf.
  - unfold TeacherCampusService.assignTeacherToClass,
      Sql.insertTeacherClassAssignment.
    run_call; try subject_loop; primary_leaf.
  - unfold TeacherCampusService.updateAssignmentStatus.
    run_call; primary_leaf.
  - unfold TeacherCampusService.removeTeacherFromCampus.
    run_call; primary_leaf.
  - unfold CampusStudentService.assignStudentToCampus,
      StudentCampusModel.create.
    run_call; primary_leaf.
  - unfold CampusStudentService.removeStudentFromCampus,
      StudentCampusModel.delete.
    run_call; primary_leaf.
  - unfold CampusStudentService.updateStudentCampusStatus,
      StudentCampusModel.update.
    run_call; primary_leaf.
  - unfold CampusStudentService.setPrimaryCampus, StudentCampusModel.update.
    run_call; primary_leaf.
Qed.

(** Counts the flagged rows of a store that is written out. *)
Ltac count_rows :=
  intros ?s; unfold primaries, primaryOf; cbn -[String.eqb];
  repeat match goal with
         | |- context [if ?a =? ?b then _ else _] => destruct (a =? b)
         | |- context [(?a =? ?b) && _] => destruct (a =? b)
         end;
  cbn; lia.

Lemma PrimaryInv_active db : PrimaryInv db -> atMostOneActivePrimary db.
Proof.
  intros [[_ Ht] [_ Hs]]. split; intros p.
  - exact (Nat.le_trans _ _ _
             (activePrimaries_le _ TeacherCampus.campusId _ _ p _) (Ht p)).
  - exact (Nat.le_trans _ _ _
             (activePrimaries_le _ StudentCampus.campusId _ _ p _) (Hs p)).
Qed.

Lemma PrimaryInv_trace us ops :
  forall db, PrimaryInv db -> Forall PrimaryInv (trace us ops db).
Proof.
  induction ops as [|op ops IH]; simpl; intros db H.
  - constructor; auto.
  - constructor; auto. apply IH. apply PrimaryInv_run. exact H.
Qed.



(** ** Class assignments stay within their campus *)

Lemma hasKey_map {R} (key : R -> string) k rows :
  hasKey key k rows = existsb (fun x => x =? k) (map key rows).
Proof.
  unfold hasKey. induction rows as [|r rows IH]; simpl; auto.
  rewrite IH. reflexivity.
Qed.

Lemma hasKey_true {R} (key : R -> string) k rows :
  hasKey key k rows = true <-> exists r, In r rows /\ key r = k.
Proof.
  unfold hasKey. rewrite existsb_exists.
  split; intros [r [Hr Hk]]; exists r; split; auto;
    apply String.eqb_eq; auto.
Qed.

Lemma hasKey_false {R} (key : R -> string) k rows :
  hasKey key k rows = false -> ~ In k (map key rows).
Proof.
  intros H Hin. apply in_map_iff in Hin. destruct Hin as [r [Hk Hr]].
  assert (hasKey key k rows = true) by (apply hasKey_true; eauto).
  congruence.
Qed.

Lemma NoDup_map_inj {R K} (key : R -> K) rows x y :
  NoDup (map key rows) -> In x rows -> In y rows -> key x = key y -> x = y.
Proof.
  induction rows as [|r rows IH]; simpl; intros Hd Hx Hy Hk; [tauto|].
  inversion Hd as [|? ? Hn Hd']; subst.
  destruct Hx as [->|Hx], Hy as [->|Hy]; auto.
  - exfalso. apply Hn. rewrite Hk. apply in_map. exact Hy.
  - exfalso. apply Hn. rewrite <- Hk. apply in_map. exact Hx.
Qed.

Lemma hd_error_filter_some {R} (p : R -> bool) rows r :
  hd_error (filter p rows) = Some r -> In r rows /\ p r = true.
Proof.
  intros H. apply filter_In. destruct (filter p rows); inversion H.
  subst. left. reflexivity.
Qed.

Lemma findUnique_some {R} (key : R -> string) k rows r :
  findUnique key k rows = Some r -> In r rows /\ key r = k.
Proof.
  unfold findUnique. intros H. apply find_some in H.
  destruct H as [Hin Hk]. apply String.eqb_eq in Hk. auto.
Qed.

Lemma In_updateWhere {R} (p : R -> bool) (f : R -> R) rows r' :
  In r' (updateWhere p f rows) ->
  exists r, In r rows /\ (r' = r \/ r' = f r).
Proof.
  unfold updateWhere. intros H. apply in_map_iff in H.
  destruct H as [r [Hr Hin]]. exists r. split; auto.
  destruct (p r); auto.
Qed.


Lemma crossCampusInv_update p (g : TeacherCampus.t -> TeacherCampus.t)
  tcs tcas cls :
  (forall r, TeacherCampus.id (g r) = TeacherCampus.id r) ->
  (forall r, TeacherCampus.campusId (g r) = TeacherCampus.campusId r) ->
  crossCampusInvRows tcs tcas cls ->
  crossCampusInvRows (updateWhere p g tcs) tcas cls.
Proof.
  intros Hi Hc [[Hd [Hcd Hfk]] Hx]. split; [split; [|split]|]; auto.
  - rewrite updateWhere_map_key; auto.
  - intros a Ha. rewrite hasKey_map, updateWhere_map_key, <- hasKey_map; auto.
  - intros a tc' c Ha Htc Hid Hcin Hcid.
    apply In_updateWhere in Htc. destruct Htc as [tc [Htc [->| ->]]].
    + eapply Hx; eauto.
    + rewrite Hc. rewrite Hi in Hid. eapply Hx; eauto.
Qed.

Lemma crossCampusInv_insert_campus row tcs tcas cls :
  hasKey TeacherCampus.id (TeacherCampus.id row) tcs = false ->
  crossCampusInvRows tcs tcas cls ->
  crossCampusInvRows (tcs ++ [row]) tcas cls.
Proof.
  intros Hk [[Hd [Hcd Hfk]] Hx]. split; [split; [|split]|]; auto.
  - apply NoDup_map_snoc; auto. apply hasKey_false. exact Hk.
  - intros a Ha. apply hasKey_true.
    destruct (proj1 (hasKey_true _ _ _) (Hfk a Ha)) as [r [Hr Hrk]].
    exists r. split; auto. apply in_or_app. auto.
  - intros a tc c Ha Htc Hid Hcin Hcid.
    apply in_app_or in Htc. destruct Htc as [Htc|[<-|[]]].
    + eapply Hx; eauto.
    + rewrite Hid, (Hfk a Ha) in Hk. discriminate.
Qed.

Lemma crossCampusInv_delete_class q tcs tcas cls :
  crossCampusInvRows tcs tcas cls ->
  crossCampusInvRows tcs (deleteWhere q tcas) cls.
Proof.
  intros [[Hd [Hcd Hfk]] Hx]. unfold deleteWhere.
  split; [split; [|split]|]; auto.
  - intros a Ha. apply filter_In in Ha. apply Hfk. tauto.
  - intros a tc c Ha. apply filter_In in Ha. apply Hx. tauto.
Qed.

Lemma crossCampusInv_delete_campus p tcs tcas cls :
  crossCampusInvRows tcs tcas cls ->
  crossCampusInvRows
    (deleteWhere p tcs)
    (deleteWhere
       (fun a => mem (TeacherClassAssignment.teacherCampusId a)
                     (map TeacherCampus.id (selectWhere p tcs))) tcas)
    cls.
Proof.
  intros [[Hd [Hcd Hfk]] Hx]. unfold deleteWhere, selectWhere.
  split; [split; [|split]|]; auto.
  - apply NoDup_map_filter. exact Hd.
  - intros a Ha. apply filter_In in Ha. destruct Ha as [Ha Hm].
    apply hasKey_true.
    destruct (proj1 (hasKey_true _ _ _) (Hfk a Ha)) as [r [Hr Hrk]].
    exists r. split; auto. apply filter_In. split; auto.
    destruct (p r) eqn:E; auto. exfalso.
    apply negb_true_iff in Hm.
    assert (mem (TeacherClassAssignment.teacherCampusId a)
                (map TeacherCampus.id (filter p tcs)) = true); [|congruence].
    unfold mem. apply existsb_exists.
    exists (TeacherCampus.id r). split.
    + apply in_map. apply filter_In. auto.
    + apply String.eqb_eq. auto.
  - intros a tc c Ha Htc. apply filter_In in Ha. apply filter_In in Htc.
    apply Hx; tauto.
Qed.

Lemma crossCampusInv_insert_class row tc c tcs tcas cls :
  hd_error (selectWhere
              (fun r => TeacherCampus.id r
                        =? TeacherClassAssignment.teacherCampusId row) tcs)
  = Some tc ->
  findUnique Class_.id (TeacherClassAssignment.classId row) cls = Some c ->
  (classCampusId c =? TeacherCampus.campusId tc) = true ->
  crossCampusInvRows tcs tcas cls ->
  crossCampusInvRows tcs (tcas ++ [row]) cls.
Proof.
  intros Htc Hc Heq [[Hd [Hcd Hfk]] Hx].
  apply hd_error_filter_some in Htc. destruct Htc as [Htc Hid].
  apply String.eqb_eq in Hid. apply String.eqb_eq in Heq.
  apply findUnique_some in Hc. destruct Hc as [Hc Hcid].
  split; [split; [|split]|]; auto.
  - intros a Ha. apply in_app_or in Ha. destruct Ha as [Ha|[<-|[]]]; auto.
    apply hasKey_true. eauto.
  - intros a tc' c' Ha Htc' Hid' Hc' Hcid'.
    apply in_app_or in Ha. destruct Ha as [Ha|[<-|[]]].
    + eapply Hx; eauto.
    + assert (tc' = tc) as ->
        by (eapply (NoDup_map_inj TeacherCampus.id); eauto; congruence).
      assert (c' = c) as ->
        by (eapply (NoDup_map_inj Class_.id); eauto; congruence).
      exact Heq.
Qed.

Ltac cross_table :=
  first
  [ assumption
  | apply crossCampusInv_update; [row_facts | row_facts | cross_table]
  | apply crossCampusInv_delete_campus; cross_table
  | apply crossCampusInv_delete_class; cross_table
  | apply crossCampusInv_insert_campus; [assumption | cross_table]
  | eapply crossCampusInv_insert_class;
    [ eassumption | eassumption
    | match goal with
      | H : negb _ = false |- _ => apply negb_false_iff in H; exact H
      end
    | cross_table ] ].

Ltac cross_leaf := unfold CrossCampusInv in *; simpl; cross_table.

Lemma CrossCampusInv_run us op db :
  CrossCampusInv db -> CrossCampusInv (run us op db).
Proof.
  intros H. destruct op; unfold run.
  - unfold CampusTeacherService.assignTeacherToCampus, Sql.insertTeacherCampus.
    run_call; cross_leaf.
  - unfold CampusTeacherService.removeTeacherFromCampus.
    run_call; cross_leaf.
  - unfold CampusTeacherService.updateTeacherCampusStatus, teacherSummary.
    run_call; cross_leaf.
  - unfold CampusTeacherService.setPrimaryCampus, teacherSummary.
    run_call; cross_leaf.
  - unfold TeacherCampusService.assignTeacherToCampus, teacherSummary,
      Sql.insertTeacherCampus.
    run_call; cross_leaf.
  - unfold TeacherCampusService.assignTeacherToClass,
      Sql.insertTeacherClassAssignment.
    run_call; try subject_loop; cross_leaf.
  - unfold TeacherCampusService.updateAssignmentStatus.
    run_call; cross_leaf.
  - unfold TeacherCampusService.removeTeacherFromCampus.
    run_call; cross_leaf.
  - unfold CampusStudentService.assignStudentToCampus,
      StudentCampusModel.create.
    run_call; cross_leaf.
  - unfold CampusStudentService.removeStudentFromCampus,
      StudentCampusModel.delete.
    run_call; cross_leaf.
  - unfold CampusStudentService.updateStudentCampusStatus,
      StudentCampusModel.update.
    run_call; cross_leaf.
  - unfold CampusStudentService.setPrimaryCampus, StudentCampusModel.update.
    run_call; cross_leaf.
Qed.

Lemma CrossCampusInv_trace us ops :
  forall db, CrossCampusInv db -> Forall CrossCampusInv (trace us ops db).
Proof.
  induction ops as [|op ops IH]; simpl; intros db H.
  - constructor; auto.
  - constructor; auto. apply IH. apply CrossCampusInv_run. exact H.
Qed.

(** A call whose class is of another campus than the campus assignment
    throws BAD_REQUEST before any statement runs. *)
Lemma mismatch_is_bad_request data now uuid db :
  campusMismatch data db ->
  TeacherCampusService.assignTeacherToClass data now uuid db
  = (db, inl (TRPCError BAD_REQUEST)).
Proof.
  intros [tc [cls [Htc [Hcls Hne]]]].
  unfold TeacherCampusService.assignTeacherToClass.
  unfold_call. rewrite Htc, Hcls.
  fold (classCampusId cls).
  destruct (String.eqb_spec (classCampusId cls) (TeacherCampus.campusId tc));
    [contradiction|reflexivity].
Qed.

Lemma ownCampusMismatch_is_mismatch data db :
  classesCoherent db -> ownCampusMismatch data db -> campusMismatch data db.
Proof.
  intros Hco [tc [cls [Htc [Hcls Hne]]]]. exists tc, cls.
  split; [exact Htc|]. split; [exact Hcls|].
  apply findUnique_some in Hcls. destruct Hcls as [Hin _].
  rewrite <- (Hco cls Hin). exact Hne.
Qed.

Lemma crossCampus_own db :
  classesCoherent db -> crossCampus db -> crossCampusOwn db.
Proof.
  intros Hco Hx a tc c Ha Htc Hid Hc Hcid.
  rewrite (Hco c Hc). eapply Hx; eauto.
Qed.

(** C2, as the code has it.  [assignTeacherToClass] reads the campus of a
    class off the program of its class group
    ([class_.classGroup.program.campusId]), not off the class's own
    [campusId].  For the campus read that way: in every store reachable by
    calls of the services from a store that satisfies the cross-campus
    invariant (and the keys of the migration), every class assignment is
    for a class of the campus of its campus assignment, and every
    [assignTeacherToClass] call whose class is of another campus fails
    with BAD_REQUEST and leaves the store as it was.  For the class's own
    [campusId] the same holds when every class of the store is of the
    campus of the program of its class group, which nothing in the
    services makes sure of. *)
Theorem class_assignments_stay_in_campus us ops db0 :
  CrossCampusInv db0 ->
  Forall
    (fun db =>
       (crossCampus db
        /\ forall data now uuid,
            campusMismatch data db ->
            TeacherCampusService.assignTeacherToClass data now uuid db
            = (db, inl (TRPCError BAD_REQUEST)))
       /\ (classesCoherent db0 ->
           crossCampusOwn db
           /\ forall data now uuid,
               ownCampusMismatch data db ->
               TeacherCampusService.assignTeacherToClass data now uuid db
               = (db, inl (TRPCError BAD_REQUEST))))
    (trace us ops db0).
Proof.
  intros H.
  assert (Hboth :
    Forall (fun db => CrossCampusInv db /\ class_ db = class_ db0)
           (trace us ops db0)).
  { apply trace_invariant; [|split; [exact H|reflexivity]].
    intros op db [Hinv Hcls]. split; [apply CrossCampusInv_run; exact Hinv|].
    rewrite <- Hcls.
    pose proof (run_keeps_reference_tables us op db) as E.
    unfold referenceTables in E. congruence. }
  eapply Forall_impl; [|exact Hboth].
  intros db [[_ Hx] Hcls]. split.
  - split; [exact Hx|].
    intros data now uuid. apply mismatch_is_bad_request.
  - intros Hco.
    assert (Hco' : classesCoherent db)
      by (unfold classesCoherent; rewrite Hcls; exact Hco).
    split; [apply crossCampus_own; assumption|].
    intros data now uuid Hm. apply mismatch_is_bad_request.
    apply ownCampusMismatch_is_mismatch; assumption.
Qed.

Lemma class_assignments_stay_in_campus_witness :
  Forall
    (fun db => crossCampus db /\ crossCampusOwn db)
    (trace sampleOracle
       [TC_assignTeacherToClass
          (TeacherCampusService.mkClassData "a1" "X1" true []) 3 sampleUuid;
        TC_assignTeacherToClass
          (TeacherCampusService.mkClassData "a2" "X1" false ["S1"]) 4
          sampleUuid;
        TC_removeTeacherFromCampus "T1" "C1"]
       (sampleStore
          [rowT1C1 false ACTIVE; rowT1C2 true ACTIVE]
          [TeacherClassAssignment.mk "k1" "a1" "X2" true ACTIVE 2 2] [] [])).
Proof.
  eapply Forall_impl;
    [|apply (class_assignments_stay_in_campus sampleOracle)].
  - intros db [[Hx _] Hown]. split; [exact Hx|].
    apply Hown. intros c [<-|[<-|[]]]; reflexivity.
  - split; [split; [|split]|]; simpl.
    + repeat constructor; simpl; intuition discriminate.
    + repeat constructor; simpl; intuition discriminate.
    + intros a [<-|[]]. reflexivity.
    + intros a tc c [<-|[]] [<-|[<-|[]]] Hid [<-|[<-|[]]] Hcid;
        simpl in *; try discriminate; reflexivity.
Defined.

(** C2 as it is worded fails.  Class X3 is of campus C1 by its own
    [campusId] and hangs under a program of campus C2.  The store has no
    class assignment, so the invariant holds of it; the campus assignment
    a2 of T1 is at C2, another campus than that of the class; the call is
    not answered BAD_REQUEST but returns, and the class assignment it has
    created is for a class of another campus than its campus
    assignment. *)
Lemma class_of_another_campus_is_assigned :
  crossCampusOwn storeStrayClass
  /\ ownCampusMismatch
       (TeacherCampusService.mkClassData "a2" "X3" false []) storeStrayClass
  /\ snd (TeacherCampusService.assignTeacherToClass
            (TeacherCampusService.mkClassData "a2" "X3" false [])
            3 sampleUuid storeStrayClass)
     = inr (ClassAssignmentResult.mk "A" "a2" "X3" false ACTIVE strayClass)
  /\ teacherClassAssignment
       (fst (TeacherCampusService.assignTeacherToClass
               (TeacherCampusService.mkClassData "a2" "X3" false [])
               3 sampleUuid storeStrayClass))
     = [TeacherClassAssignment.mk "A" "a2" "X3" false ACTIVE 3 3]
  /\ ~ crossCampusOwn
        (fst (TeacherCampusService.assignTeacherToClass
                (TeacherCampusService.mkClassData "a2" "X3" false [])
                3 sampleUuid storeStrayClass)).
Proof.
  split; [intros a tc c []|]. split.
  - exists (rowT1C2 true ACTIVE), strayClass.
    split; [reflexivity|]. split; [reflexivity|]. discriminate.
  - split; [reflexivity|]. split; [reflexivity|].
    intros H.
    specialize (H (TeacherClassAssignment.mk "A" "a2" "X3" false ACTIVE 3 3)
                  (rowT1C2 true ACTIVE) strayClass).
    simpl in H.
    assert (E : "C1" = "C2") by (apply H; auto 10).
    discriminate E.
Qed.

(** ** Removing a teacher from a campus *)

Lemma mem_true k ks : mem k ks = true <-> In k ks.
Proof.
  unfold mem. rewrite existsb_exists. split.
  - intros [x [Hx Hk]]. apply String.eqb_eq in Hk. subst. exact Hx.
  - intros H. exists k. split; auto. apply String.eqb_refl.
Qed.

Lemma mem_false k ks : mem k ks = false -> ~ In k ks.
Proof. intros H Hin. apply mem_true in Hin. congruence. Qed.

Lemma filter_none {R} (p : R -> bool) rows :
  (forall r, In r rows -> p r = false) -> filter p rows = [].
Proof.
  induction rows as [|r rows IH]; simpl; intros H; auto.
  rewrite (H r (or_introl eq_refl)). apply IH. intros x Hx. apply H. auto.
Qed.

(** Under the primary key and the unique index, the first row found for
    the pair is the only row with its id and the only row of the pair. *)
Lemma id_test_is_pair_test t c t0 tcs :
  NoDup (map TeacherCampus.id tcs) ->
  teacherPairsUnique tcs ->
  hd_error (filter (Sql.teacherCampusPair t c) tcs) = Some t0 ->
  forall r, In r tcs ->
    (TeacherCampus.id r =? TeacherCampus.id t0) = Sql.teacherCampusPair t c r.
Proof.
  intros Hid Hpair H0 r Hr.
  apply hd_error_filter_some in H0. destruct H0 as [Hin0 Hp0].
  destruct (String.eqb_spec (TeacherCampus.id r) (TeacherCampus.id t0))
    as [E|E].
  - assert (r = t0) as ->
      by (apply (NoDup_map_inj TeacherCampus.id tcs); auto).
    auto.
  - destruct (Sql.teacherCampusPair t c r) eqn:Hp; auto. exfalso. apply E.
    assert (r = t0) as ->; auto.
    apply (NoDup_map_inj
             (fun r => (TeacherCampus.teacherId r, TeacherCampus.campusId r))
             tcs); auto.
    apply (pairOf_key TeacherCampus.teacherId TeacherCampus.campusId) in Hp.
    apply (pairOf_key TeacherCampus.teacherId TeacherCampus.campusId) in Hp0.
    congruence.
Qed.

Lemma filter_all {R} (p : R -> bool) rows :
  (forall r, In r rows -> p r = true) -> filter p rows = rows.
Proof.
  induction rows as [|r rows IH]; simpl; intros H; auto.
  rewrite (H r (or_introl eq_refl)). f_equal. apply IH.
  intros x Hx. apply H. auto.
Qed.

Lemma filter_idem {R} (p : R -> bool) rows :
  filter p (filter p rows) = filter p rows.
Proof.
  apply filter_all. intros r Hr. apply filter_In in Hr. tauto.
Qed.

Lemma filter_after_negb {R} (p : R -> bool) rows :
  filter p (filter (fun r => negb (p r)) rows) = [].
Proof.
  apply filter_none. intros r Hr. apply filter_In in Hr.
  destruct Hr as [_ Hr]. apply negb_true_iff. exact Hr.
Qed.

(** The ids of the rows with key [k], when there is one, are [k]. *)
Lemma mem_ids_of_key {R} (key : R -> string) k rows x :
  hasKey key k rows = true ->
  mem x (map key (filter (fun r => key r =? k) rows)) = (x =? k).
Proof.
  intros Hk. destruct (String.eqb_spec x k) as [->|Hne].
  - apply mem_true. apply hasKey_true in Hk. destruct Hk as [r [Hr <-]].
    apply in_map. apply filter_In. split; auto. apply String.eqb_refl.
  - destruct (mem x _) eqn:E; auto. exfalso. apply mem_true in E.
    apply in_map_iff in E. destruct E as [r [<- Hr]].
    apply filter_In in Hr. destruct Hr as [_ Hr].
    apply String.eqb_eq in Hr. contradiction.
Qed.

Lemma filter_mem_ids {A} (tcs : list TeacherCampus.t) k (proj : A -> string) :
  hasKey TeacherCampus.id k tcs = true ->
  forall rows,
    filter (fun a => mem (proj a)
                       (map TeacherCampus.id
                          (filter (fun r => TeacherCampus.id r =? k) tcs)))
           rows
    = filter (fun a => proj a =? k) rows.
Proof.
  intros Hk. apply filter_ext. intros a. apply mem_ids_of_key. exact Hk.
Qed.

Lemma filter_not_mem_ids {A} (tcs : list TeacherCampus.t) k
  (proj : A -> string) :
  hasKey TeacherCampus.id k tcs = true ->
  forall rows,
    filter (fun a => negb (mem (proj a)
                             (map TeacherCampus.id
                                (filter (fun r => TeacherCampus.id r =? k)
                                        tcs))))
           rows
    = filter (fun a => negb (proj a =? k)) rows.
Proof.
  intros Hk. apply filter_ext. intros a.
  rewrite (mem_ids_of_key _ _ _ _ Hk). reflexivity.
Qed.

Lemma existsb_pointwise {R} (f g : R -> bool) rows :
  (forall r, f r = g r) -> existsb f rows = existsb g rows.
Proof.
  intros H. induction rows as [|r rows IH]; simpl; auto.
  rewrite H, IH. reflexivity.
Qed.

Lemma mem_ids_existsb {R} (key : R -> string) (p : R -> bool) rows x :
  mem x (map key (filter p rows))
  = existsb (fun r => p r && (x =? key r)) rows.
Proof.
  unfold mem. induction rows as [|r rows IH]; simpl; auto.
  destruct (p r); simpl; rewrite IH; reflexivity.
Qed.

(** The one DELETE on "TeacherCampus", with the foreign keys cascading,
    leaves what [Removed] says. *)
Lemma deleteTeacherCampus_Removed t c db :
  Removed t c db (Sql.deleteTeacherCampus (Sql.teacherCampusPair t c) db).
Proof.
  unfold Removed, Sql.deleteTeacherCampus, Sql.deleteTeacherClassAssignment,
    Sql.deleteTeacherSubjectAssignment, deleteWhere, selectWhere.
  simpl. split; [reflexivity|]. split; [|split; [|split; reflexivity]].
  - apply filter_ext. intros a. unfold hangsOffPair.
    rewrite mem_ids_existsb. reflexivity.
  - apply filter_ext. intros s. unfold hangsOffClassOfPair.
    rewrite mem_ids_existsb. f_equal. apply existsb_pointwise. intros a.
    unfold hangsOffPair. rewrite mem_ids_existsb. reflexivity.
Qed.

(** What the two removals do when the teacher is assigned to the
    campus. *)
Lemma CampusTeacherService_remove_store us u t c db :
  CampusUserService.hasPermission us db u c MANAGE_CAMPUS_TEACHERS = true ->
  Sql.selectTeacherCampus t c db <> [] ->
  CampusTeacherService.removeTeacherFromCampus us u c t db
  = (Sql.deleteTeacherCampus (Sql.teacherCampusPair t c) db, inr tt).
Proof.
  intros Hperm Hne. unfold CampusTeacherService.removeTeacherFromCampus.
  unfold_call. rewrite Hperm. simpl.
  destruct (Sql.selectTeacherCampus t c db); [contradiction|reflexivity].
Qed.

Lemma TeacherCampusService_remove_store t c db :
  NoDup (map TeacherCampus.id (teacherCampus db)) ->
  teacherPairsUnique (teacherCampus db) ->
  Sql.selectTeacherCampus t c db <> [] ->
  TeacherCampusService.removeTeacherFromCampus t c db
  = (Sql.deleteTeacherCampus (Sql.teacherCampusPair t c) db, inr tt).
Proof.
  intros Hid Hpair Hne.
  unfold TeacherCampusService.removeTeacherFromCampus,
    Sql.selectTeacherCampus, selectWhere in *.
  unfold_call. simpl.
  destruct (filter (Sql.teacherCampusPair t c) (teacherCampus db))
    as [|t0 rest] eqn:Hsel; [contradiction|]. simpl.
  assert (H0 : hd_error (filter (Sql.teacherCampusPair t c)
                           (teacherCampus db)) = Some t0)
    by (rewrite Hsel; reflexivity).
  pose proof (id_test_is_pair_test _ _ _ _ Hid Hpair H0) as Htest.
  apply hd_error_filter_some in H0. destruct H0 as [Hin0 _].
  assert (Hkey : hasKey TeacherCampus.id (TeacherCampus.id t0)
                   (teacherCampus db) = true)
    by (apply hasKey_true; eauto).
  f_equal.
  unfold Sql.deleteTeacherCampus, Sql.deleteTeacherClassAssignment,
    Sql.deleteTeacherSubjectAssignment, selectWhere, deleteWhere.
  simpl.
  rewrite <- (filter_ext_in
                (fun r => TeacherCampus.id r =? TeacherCampus.id t0)
                (Sql.teacherCampusPair t c) _ Htest).
  rewrite <- (filter_ext_in
                (fun r => negb (TeacherCampus.id r =? TeacherCampus.id t0))
                (fun r => negb (Sql.teacherCampusPair t c r)))
    by (intros r Hr; rewrite (Htest r Hr); reflexivity).
  rewrite !(filter_mem_ids _ _ _ Hkey), !(filter_not_mem_ids _ _ _ Hkey).
  rewrite ?filter_after_negb. simpl.
  rewrite ?filter_idem.
  rewrite ?(filter_all (fun _ => negb false)) by reflexivity.
  rewrite ?filter_idem.
  reflexivity.
Qed.

(** C5. When the teacher is assigned to the campus, the removal returns,
    by either service (for CampusTeacherService: once the actor has the
    campus permission), and leaves exactly this: the campus assignment of
    the pair is gone with the class rows that hung off it and the subject
    rows that hung off these, and every other row of the three tables is
    there as it was, in its place: the assignments of the teacher at other
    campuses with their primary flags (none is promoted), and the class
    and subject rows of every other assignment.  Likewise the removal of
    a student who is assigned to the campus returns and deletes the
    assignment of the pair and nothing else.  The store respects the
    primary key and the unique index of "TeacherCampus". *)
Theorem remove_deletes_descendants_only us u t c db :
  NoDup (map TeacherCampus.id (teacherCampus db)) ->
  teacherPairsUnique (teacherCampus db) ->
  (Sql.selectTeacherCampus t c db <> [] ->
   (CampusUserService.hasPermission us db u c MANAGE_CAMPUS_TEACHERS = true ->
    exists db',
      CampusTeacherService.removeTeacherFromCampus us u c t db
      = (db', inr tt)
      /\ Removed t c db db')
   /\ exists db',
        TeacherCampusService.removeTeacherFromCampus t c db = (db', inr tt)
        /\ Removed t c db db')
  /\ (CampusUserService.hasPermission us db u c MANAGE_CAMPUS_STUDENTS = true ->
      StudentCampusModel.findUnique t c db <> None ->
      exists db',
        CampusStudentService.removeStudentFromCampus us u c t db
        = (db', inr tt)
        /\ studentCampus db'
           = filter (fun r => negb (StudentCampusModel.pair t c r))
                    (studentCampus db)
        /\ teacherCampus db' = teacherCampus db
        /\ teacherClassAssignment db' = teacherClassAssignment db
        /\ teacherSubjectAssignment db' = teacherSubjectAssignment db
        /\ referenceTables db' = referenceTables db).
Proof.
  intros Hid Hpair. split.
  - intros Hne. split.
    + intros Hperm. eexists. split.
      * apply CampusTeacherService_remove_store; assumption.
      * apply deleteTeacherCampus_Removed.
    + eexists. split.
      * apply TeacherCampusService_remove_store; assumption.
      * apply deleteTeacherCampus_Removed.
  - intros Hperm Hrow.
    unfold CampusStudentService.removeStudentFromCampus,
      StudentCampusModel.delete.
    unfold_call. rewrite Hperm. simpl.
    destruct (StudentCampusModel.findUnique t c db); [|contradiction].
    simpl. eexists. split; [reflexivity|].
    repeat split; reflexivity.
Qed.

Lemma remove_deletes_descendants_only_witness :
  (exists db',
      CampusTeacherService.removeTeacherFromCampus sampleOracle
        "admin" "C1" "T1" storeWithClass = (db', inr tt)
      /\ Removed "T1" "C1" storeWithClass db')
  /\ (exists db',
        TeacherCampusService.removeTeacherFromCampus "T1" "C1" storeWithClass
        = (db', inr tt)
        /\ Removed "T1" "C1" storeWithClass db')
  /\ (exists db',
        CampusStudentService.removeStudentFromCampus sampleOracle
          "admin" "C1" "St1" storeStudent = (db', inr tt)
        /\ studentCampus db' = []).
Proof.
  assert (Hid : NoDup (map TeacherCampus.id (teacherCampus storeWithClass)))
    by (simpl; repeat constructor; simpl; intuition discriminate).
  assert (Hpair : teacherPairsUnique (teacherCampus storeWithClass))
    by (unfold teacherPairsUnique, pairsUnique; simpl;
        repeat constructor; simpl; intuition discriminate).
  destruct (proj1 (remove_deletes_descendants_only
                     sampleOracle "admin" "T1" "C1" storeWithClass
                     Hid Hpair))
    as [Hct Htc]; [discriminate|].
  split; [apply Hct; reflexivity|]. split; [exact Htc|].
  destruct (proj2 (remove_deletes_descendants_only
                     sampleOracle "admin" "St1" "C1" storeStudent
                     (NoDup_nil _) (NoDup_nil _)))
    as [db' [Hcall [Hrows _]]]; [reflexivity|discriminate|].
  exists db'. split; [exact Hcall|exact Hrows].
Defined.

(** ** More on keys and tests *)

Lemma findUnique_hasKey {R} (key : R -> string) k rows r :
  findUnique key k rows = Some r -> hasKey key k rows = true.
Proof.
  intros H. apply find_some in H. unfold hasKey. apply existsb_exists.
  exists r. exact H.
Qed.

Lemma hasKey_findUnique {R} (key : R -> string) k rows :
  hasKey key k rows
  = match findUnique key k rows with Some _ => true | None => false end.
Proof.
  unfold hasKey, findUnique. induction rows as [|r rows IH]; simpl; auto.
  destruct (key r =? k); auto.
Qed.

Lemma hasKey_updateWhere {R} (key : R -> string) k p (f : R -> R) rows :
  (forall r, key (f r) = key r) ->
  hasKey key k (updateWhere p f rows) = hasKey key k rows.
Proof.
  intros Hk. rewrite !hasKey_map, updateWhere_map_key; auto.
Qed.

Lemma existsb_updateWhere {R} (q p : R -> bool) (f : R -> R) rows :
  (forall r, q (f r) = q r) ->
  existsb q (updateWhere p f rows) = existsb q rows.
Proof.
  intros Hq. unfold updateWhere. induction rows as [|r rows IH]; simpl; auto.
  rewrite IH. destruct (p r); rewrite ?Hq; reflexivity.
Qed.

Lemma existsb_false_forall_inv {R} (p : R -> bool) rows :
  (forall r, In r rows -> p r = false) -> existsb p rows = false.
Proof.
  induction rows as [|r rows IH]; simpl; intros H; auto.
  rewrite (H r (or_introl eq_refl)). apply IH. intros x Hx. apply H. auto.
Qed.

Lemma existsb_filter_nil {R} (q : R -> bool) rows :
  existsb q rows = false <-> filter q rows = [].
Proof.
  split; intros H.
  - apply filter_none. apply existsb_false_forall. exact H.
  - apply existsb_false_forall_inv. apply filter_nil_forall. exact H.
Qed.

Lemma positive_length_existsb {R} (q : R -> bool) rows :
  (0 <? List.length (filter q rows))%nat = existsb q rows.
Proof.
  induction rows as [|r rows IH]; simpl; auto.
  destruct (q r); simpl; auto.
Qed.

Lemma hasKey_app {R} (key : R -> string) k rows rows' :
  hasKey key k (rows ++ rows') = hasKey key k rows || hasKey key k rows'.
Proof. unfold hasKey. apply existsb_app. Qed.

(** ** Permission check of the campus assignment *)

(** C6 at its failing input.  Two of the three entry points ask the
    oracle: when it denies the actor the permission to manage the
    teachers (the students) of the target campus, and for teachers the
    actor does not hold the super-admin role,
    [CampusTeacherService.assignTeacherToCampus] and
    [assignStudentToCampus] fail with FORBIDDEN and leave the store as it
    was.  [TeacherCampusService.assignTeacherToCampus] takes no actor and
    asks no oracle: whoever calls it, and whatever the oracle would
    answer, when the teacher (profile, user and the row the foreign key
    refers to) and the campus exist, the teacher is not at the campus yet
    and the row id is new, it returns and the campus assignment is in the
    store. *)
Theorem permission_is_checked_by_two_of_three_assignments
  us db actor campusId person isPrimary now k :
  (CampusUserService.hasPermission us db actor campusId MANAGE_CAMPUS_TEACHERS
   = false ->
   hasSuperAdminRole (findUnique User.id actor (user db)) = false ->
   CampusTeacherService.assignTeacherToCampus
     us actor campusId person isPrimary now db
   = (db, inl (TRPCError FORBIDDEN)))
  /\ (CampusUserService.hasPermission us db actor campusId
        MANAGE_CAMPUS_STUDENTS = false ->
      CampusStudentService.assignStudentToCampus
        us actor campusId person isPrimary now k db
      = (db, inl (TRPCError FORBIDDEN)))
  /\ (forall tp usr cmp status,
        findUnique TeacherProfile.id person (teacherProfile db) = Some tp ->
        findUnique User.id (TeacherProfile.userId tp) (user db) = Some usr ->
        hasKey Teacher.id person (teacher db) = true ->
        findUnique Campus.id campusId (campus db) = Some cmp ->
        Sql.selectTeacherCampus person campusId db = [] ->
        hasKey TeacherCampus.id k (teacherCampus db) = false ->
        exists db' res,
          TeacherCampusService.assignTeacherToCampus
            (TeacherCampusService.mkCampusData person campusId isPrimary
               status) now k db
          = (db', inr res)
          /\ In (TeacherCampus.mk k person campusId isPrimary
                   (match status with Some s => s | None => ACTIVE end)
                   now now now)
                (teacherCampus db')).
Proof.
  split; [|split].
  - intros Hperm Hrole.
    unfold CampusTeacherService.assignTeacherToCampus. unfold_call.
    rewrite Hrole. simpl. rewrite Hperm. reflexivity.
  - intros Hperm.
    unfold CampusStudentService.assignStudentToCampus. unfold_call.
    rewrite Hperm. reflexivity.
  - intros tp usr cmp status Htp Husr Hrow Hcmp Hsel Hfresh.
    assert (Hex : existsb (Sql.teacherCampusPair person campusId)
                    (teacherCampus db) = false)
      by (apply existsb_filter_nil; exact Hsel).
    unfold TeacherCampusService.assignTeacherToCampus, findTeacherWithUser,
      teacherSummary, Sql.insertTeacherCampus.
    unfold_call. simpl. rewrite Htp. simpl. rewrite Husr, Hcmp, Hsel. simpl.
    destruct isPrimary; simpl;
      rewrite ?hasKey_updateWhere, ?existsb_updateWhere, ?Hfresh, ?Hex
        by (intros []; reflexivity);
      simpl;
      rewrite ?Hrow, ?(findUnique_hasKey _ _ _ _ Hcmp);
      simpl; rewrite ?Husr; simpl;
      eexists; eexists; (split; [reflexivity|]); simpl;
      apply in_or_app; right; left; reflexivity.
Qed.

Lemma permission_is_checked_by_two_of_three_assignments_witness :
  CampusTeacherService.assignTeacherToCampus
    sampleOracle "admin" "C3" "T1" false 9 emptyStore
  = (emptyStore, inl (TRPCError FORBIDDEN))
  /\ CampusStudentService.assignStudentToCampus
       sampleOracle "admin" "C3" "St1" false 9 "b3" emptyStore
     = (emptyStore, inl (TRPCError FORBIDDEN))
  /\ exists db' res,
       TeacherCampusService.assignTeacherToCampus
         (TeacherCampusService.mkCampusData "T1" "C3" false None) 9 "a3"
         emptyStore
       = (db', inr res)
       /\ In (TeacherCampus.mk "a3" "T1" "C3" false ACTIVE 9 9 9)
             (teacherCampus db').
Proof.
  split; [|split].
  - apply (proj1 (permission_is_checked_by_two_of_three_assignments
                    sampleOracle emptyStore "admin" "C3" "T1" false 9 "a3"));
      reflexivity.
  - apply (proj1 (proj2 (permission_is_checked_by_two_of_three_assignments
                           sampleOracle emptyStore "admin" "C3" "St1" false
                           9 "b3")));
      reflexivity.
  - apply (proj2 (proj2 (permission_is_checked_by_two_of_three_assignments
                           sampleOracle emptyStore "admin" "C3" "T1" false
                           9 "a3"))
             (TeacherProfile.mk "T1" "u1")
             (User.mk "u1" (Some "Tom") (Some "tom@lxp") ["teacher"])
             (Campus.mk "C3" "East") None);
      reflexivity.
Defined.

(** ** Designating the primary campus *)

Lemma hd_error_none_nil {A} (l : list A) : hd_error l = None <-> l = [].
Proof. destruct l; simpl; split; intros H; auto; discriminate. Qed.




(** ** Status of a campus assignment *)

Section StatusKept.
Context {R : Type}.
Variables (key : R -> string) (status : R -> Status).

Lemma statusKept_refl rows : statusKeptRows key status rows rows.
Proof. intros r Hr. left. exists r. auto. Qed.

Lemma statusKept_update p (g : R -> R) rows rows1 :
  (forall r, key (g r) = key r) ->
  (forall r, status (g r) = status r) ->
  statusKeptRows key status rows rows1 ->
  statusKeptRows key status rows (updateWhere p g rows1).
Proof.
  intros Hi Hs H r' Hr'. apply In_updateWhere in Hr'.
  destruct Hr' as [r1 [Hr1 [->| ->]]]; [apply H; exact Hr1|].
  rewrite Hi, Hs. apply H. exact Hr1.
Qed.

Lemma statusKept_delete q rows rows1 :
  statusKeptRows key status rows rows1 ->
  statusKeptRows key status rows (filter q rows1).
Proof. intros H r' Hr'. apply filter_In in Hr'. apply H. tauto. Qed.

Lemma statusKept_insert row rows rows1 :
  map key rows1 = map key rows ->
  hasKey key (key row) rows1 = false ->
  statusKeptRows key status rows rows1 ->
  statusKeptRows key status rows (rows1 ++ [row]).
Proof.
  intros Hids Hk H r' Hr'. apply in_app_or in Hr'.
  destruct Hr' as [Hr'|[<-|[]]]; [apply H; exact Hr'|].
  right. rewrite <- Hids. apply hasKey_false. exact Hk.
Qed.

(** A row that was Archived is Archived in every row that carries its id
    afterwards. *)
Lemma statusKept_archived rows rows' r r' :
  NoDup (map key rows) ->
  statusKeptRows key status rows rows' ->
  In r rows -> status r = ARCHIVED ->
  In r' rows' -> key r' = key r -> status r' = ARCHIVED.
Proof.
  intros Hid Hkept Hr Hst Hr' Hsame.
  destruct (Hkept r' Hr') as [[r0 [Hr0 [Hi Hs]]]|Hn].
  - assert (r0 = r) as ->
      by (apply (NoDup_map_inj key rows); auto; congruence).
    congruence.
  - exfalso. apply Hn. rewrite Hsame. apply in_map. exact Hr.
Qed.

End StatusKept.

Ltac status_table :=
  first
  [ apply statusKept_refl
  | apply statusKept_delete; status_table
  | apply statusKept_update; [row_facts | row_facts | status_table]
  | apply statusKept_insert;
    [ first [ reflexivity | apply updateWhere_map_key; row_facts ]
    | assumption
    | status_table ] ].

Ltac status_call := run_call; try subject_loop; simpl; unfold deleteWhere;
                    status_table.

Lemma statusKept_run us op db :
  isStatusUpdate op = false ->
  statusKeptRows TeacherCampus.id TeacherCampus.status
                 (teacherCampus db) (teacherCampus (run us op db))
  /\ statusKeptRows StudentCampus.id StudentCampus.status
                    (studentCampus db) (studentCampus (run us op db)).
Proof.
  intros Hop. destruct op; try discriminate; unfold run.
  - unfold CampusTeacherService.assignTeacherToCampus, Sql.insertTeacherCampus.
    split; status_call.
  - unfold CampusTeacherService.removeTeacherFromCampus.
    split; status_call.
  - unfold CampusTeacherService.setPrimaryCampus, teacherSummary.
    split; status_call.
  - unfold TeacherCampusService.assignTeacherToCampus, teacherSummary,
      Sql.insertTeacherCampus.
    split; status_call.
  - unfold TeacherCampusService.assignTeacherToClass,
      Sql.insertTeacherClassAssignment.
    split; status_call.
  - unfold TeacherCampusService.removeTeacherFromCampus.
    split; status_call.
  - unfold CampusStudentService.assignStudentToCampus,
      StudentCampusModel.create.
    split; status_call.
  - unfold CampusStudentService.removeStudentFromCampus,
      StudentCampusModel.delete.
    split; status_call.
  - unfold CampusStudentService.setPrimaryCampus, StudentCampusModel.update.
    split; status_call.
Qed.

Lemma filter_updateWhere_same {R} (p : R -> bool) (g : R -> R) rows :
  (forall x, p (g x) = p x) ->
  filter p (updateWhere p g rows) = map g (filter p rows).
Proof.
  intros Hp. unfold updateWhere.
  induction rows as [|r rows IH]; simpl; auto.
  destruct (p r) eqn:E; simpl.
  - rewrite Hp, E, IH. reflexivity.
  - rewrite E, IH. reflexivity.
Qed.

Lemma hd_error_filter_in {R} (p : R -> bool) rows r :
  In r rows -> p r = true -> exists x, hd_error (filter p rows) = Some x.
Proof.
  intros Hr Hp. assert (Hin : In r (filter p rows)) by (apply filter_In; auto).
  destruct (filter p rows) as [|x l]; [contradiction|]. exists x. reflexivity.
Qed.

(** C8, as the code has it.  No call other than a status update changes
    the status of an Archived campus assignment, of a teacher or of a
    student: as long as the row is in the store it stays Archived.  A
    status update, however, writes whatever status it is given without
    looking at the current one: [updateAssignmentStatus], and
    [updateTeacherCampusStatus] and [updateStudentCampusStatus] for an
    actor with the campus permission, move an Archived assignment to the
    status requested, Active and Inactive included. *)
Theorem archived_left_only_by_status_update us db :
  NoDup (map TeacherCampus.id (teacherCampus db)) ->
  NoDup (map StudentCampus.id (studentCampus db)) ->
  (forall op r r',
      isStatusUpdate op = false ->
      In r (teacherCampus db) -> TeacherCampus.status r = ARCHIVED ->
      In r' (teacherCampus (run us op db)) ->
      TeacherCampus.id r' = TeacherCampus.id r ->
      TeacherCampus.status r' = ARCHIVED)
  /\ (forall op r r',
        isStatusUpdate op = false ->
        In r (studentCampus db) -> StudentCampus.status r = ARCHIVED ->
        In r' (studentCampus (run us op db)) ->
        StudentCampus.id r' = StudentCampus.id r ->
        StudentCampus.status r' = ARCHIVED)
  /\ (forall r s now,
        In r (teacherCampus db) -> TeacherCampus.status r = ARCHIVED ->
        exists r',
          snd (TeacherCampusService.updateAssignmentStatus
                 (TeacherCampus.id r) s now db) = inr r'
          /\ In r' (teacherCampus
                      (run us (TC_updateAssignmentStatus
                                 (TeacherCampus.id r) s now) db))
          /\ TeacherCampus.id r' = TeacherCampus.id r
          /\ TeacherCampus.status r' = s)
  /\ (forall u r s now,
        In r (teacherCampus db) -> TeacherCampus.status r = ARCHIVED ->
        CampusUserService.hasPermission us db u (TeacherCampus.campusId r)
          MANAGE_CAMPUS_TEACHERS = true ->
        exists r',
          In r' (teacherCampus
                   (run us (CT_updateTeacherCampusStatus u
                              (TeacherCampus.campusId r)
                              (TeacherCampus.teacherId r) s now) db))
          /\ TeacherCampus.id r' = TeacherCampus.id r
          /\ TeacherCampus.status r' = s)
  /\ (forall u r s,
        In r (studentCampus db) -> StudentCampus.status r = ARCHIVED ->
        CampusUserService.hasPermission us db u (StudentCampus.campusId r)
          MANAGE_CAMPUS_STUDENTS = true ->
        exists r',
          In r' (studentCampus
                   (run us (CS_updateStudentCampusStatus u
                              (StudentCampus.campusId r)
                              (StudentCampus.studentId r) s) db))
          /\ StudentCampus.id r' = StudentCampus.id r
          /\ StudentCampus.status r' = s).
Proof.
  intros Hid Hsid. split; [|split; [|split; [|split]]].
  - intros op r r' Hop.
    apply statusKept_archived; auto. apply statusKept_run; auto.
  - intros op r r' Hop.
    apply statusKept_archived; auto. apply statusKept_run; auto.
  - intros r s now Hr Hst.
    unfold run, TeacherCampusService.updateAssignmentStatus.
    unfold_call. simpl.
    unfold Sql.selectTeacherCampusById, Sql.updateTeacherCampus, selectWhere.
    simpl.
    rewrite filter_updateWhere_same by reflexivity.
    destruct (hd_error_filter_in
                (fun x => TeacherCampus.id x =? TeacherCampus.id r)
                (teacherCampus db) r Hr (String.eqb_refl _)) as [x Hx].
    pose proof (hd_error_filter_some _ _ _ Hx) as [Hxin Hxid].
    apply String.eqb_eq in Hxid.
    destruct (filter (fun x => TeacherCampus.id x =? TeacherCampus.id r)
                     (teacherCampus db)) as [|y l] eqn:E; [discriminate|].
    simpl in Hx. inversion Hx; subst y. simpl.
    eexists. split; [reflexivity|]. simpl. split; [|split; auto].
    unfold updateWhere. apply in_map_iff. exists x. split; auto.
    rewrite Hxid, String.eqb_refl. reflexivity.
  - intros u r s now Hr Hst Hperm.
    assert (Hpair : Sql.teacherCampusPair (TeacherCampus.teacherId r)
                      (TeacherCampus.campusId r) r = true)
      by (unfold Sql.teacherCampusPair; rewrite !String.eqb_refl;
          reflexivity).
    destruct (hd_error_filter_in _ _ r Hr Hpair) as [x Hx].
    exists (TeacherCampus.set_updatedAt now (TeacherCampus.set_status s r)).
    split; [|split; reflexivity].
    unfold run, CampusTeacherService.updateTeacherCampusStatus,
      teacherSummary, Sql.selectTeacherCampus, selectWhere.
    unfold_call. rewrite Hperm. simpl. rewrite Hx. simpl.
    repeat (break_inner; simpl);
      unfold updateWhere; apply in_map_iff; exists r; rewrite Hpair; auto.
  - intros u r s Hr Hst Hperm.
    assert (Hpair : StudentCampusModel.pair (StudentCampus.studentId r)
                      (StudentCampus.campusId r) r = true)
      by (unfold StudentCampusModel.pair; rewrite !String.eqb_refl;
          reflexivity).
    exists (StudentCampus.set_status s r).
    split; [|split; reflexivity].
    unfold run, CampusStudentService.updateStudentCampusStatus,
      StudentCampusModel.update, StudentCampusModel.findUnique.
    unfold_call. rewrite Hperm. simpl.
    destruct (find (StudentCampusModel.pair (StudentCampus.studentId r)
                      (StudentCampus.campusId r)) (studentCampus db)) eqn:E.
    + simpl. unfold updateWhere. apply in_map_iff. exists r.
      rewrite Hpair. auto.
    + pose proof (find_none _ _ E r Hr). congruence.
Qed.

Lemma archived_left_only_by_status_update_witness :
  (forall r',
      In r' (teacherCampus
               (run sampleOracle (CT_setPrimaryCampus "admin" "T1" "C1" 9)
                  (sampleStore [rowT1C1 false ARCHIVED] [] [] []))) ->
      TeacherCampus.id r' = "a1" -> TeacherCampus.status r' = ARCHIVED)
  /\ (exists r',
        snd (TeacherCampusService.updateAssignmentStatus "a1" INACTIVE 9
               (sampleStore [rowT1C1 false ARCHIVED] [] [] [])) = inr r'
        /\ TeacherCampus.status r' = INACTIVE)
  /\ (exists r',
        In r' (teacherCampus
                 (run sampleOracle
                    (CT_updateTeacherCampusStatus "admin" "C1" "T1" ACTIVE 9)
                    (sampleStore [rowT1C1 false ARCHIVED] [] [] [])))
        /\ TeacherCampus.status r' = ACTIVE).
Proof.
  assert (Hid : NoDup (map TeacherCampus.id
                         (teacherCampus
                            (sampleStore [rowT1C1 false ARCHIVED] [] [] []))))
    by (simpl; repeat constructor; simpl; tauto).
  destruct (archived_left_only_by_status_update sampleOracle _ Hid
              (NoDup_nil _))
    as [Hkeep [_ [Hset [Hct _]]]].
  split; [|split].
  - intros r' Hr' Hk.
    apply (Hkeep (CT_setPrimaryCampus "admin" "T1" "C1" 9)
                 (rowT1C1 false ARCHIVED) r'); auto.
    simpl. tauto.
  - destruct (Hset (rowT1C1 false ARCHIVED) INACTIVE 9%Z)
      as [r' [Hres [_ [_ Hst]]]]; [simpl; tauto|reflexivity|].
    exists r'. split; assumption.
  - destruct (Hct "admin" (rowT1C1 false ARCHIVED) ACTIVE 9%Z)
      as [r' [Hin [_ Hst]]]; [simpl; tauto|reflexivity|reflexivity|].
    exists r'. split; assumption.
Defined.

(** C8 as it is worded fails: a status update takes an Archived
    assignment back to Active, or to Inactive. *)
Lemma archived_assignment_reactivated :
  In (rowT1C1 false ARCHIVED)
     (teacherCampus (sampleStore [rowT1C1 false ARCHIVED] [] [] []))
  /\ teacherCampus
       (run sampleOracle (TC_updateAssignmentStatus "a1" ACTIVE 9)
          (sampleStore [rowT1C1 false ARCHIVED] [] [] []))
     = [TeacherCampus.mk "a1" "T1" "C1" false ACTIVE 1 1 9]
  /\ teacherCampus
       (run sampleOracle
          (CT_updateTeacherCampusStatus "admin" "C1" "T1" INACTIVE 9)
          (sampleStore [rowT1C1 false ARCHIVED] [] [] []))
     = [TeacherCampus.mk "a1" "T1" "C1" false INACTIVE 1 1 9].
Proof. split; [simpl; tauto|]. split; reflexivity. Qed.

(** ** Designating the primary campus twice *)

Lemma filter_map_kept {R} (p : R -> bool) (h : R -> R) rows :
  (forall x, p (h x) = p x) -> filter p (map h rows) = map h (filter p rows).
Proof.
  intros Hp. induction rows as [|r rows IH]; simpl; auto.
  rewrite Hp. destruct (p r); simpl; rewrite IH; reflexivity.
Qed.

Lemma find_map_kept {R} (p : R -> bool) (h : R -> R) rows :
  (forall x, p (h x) = p x) ->
  find p (map h rows) = option_map h (find p rows).
Proof.
  intros Hp. induction rows as [|r rows IH]; simpl; auto.
  rewrite Hp. destruct (p r); simpl; auto.
Qed.

Lemma hd_error_map {A B} (h : A -> B) l :
  hd_error (map h l) = option_map h (hd_error l).
Proof. destruct l; reflexivity. Qed.

(** The store [setPrimaryCampus] of CampusTeacherService leaves behind. *)
Lemma CampusTeacherService_setPrimaryCampus_store u t c now db :
  fst (CampusTeacherService.setPrimaryCampus u t c now db)
  = match hd_error (Sql.selectTeacherCampus t c db) with
    | None => db
    | Some _ =>
        Sql.updateTeacherCampus (Sql.teacherCampusPair t c)
          (fun r => TeacherCampus.set_updatedAt now
                      (TeacherCampus.set_isPrimary true r))
          (Sql.updateTeacherCampus (Sql.isPrimaryOf t)
             (fun r => TeacherCampus.set_updatedAt now
                         (TeacherCampus.set_isPrimary false r))
             db)
    end.
Proof.
  unfold CampusTeacherService.setPrimaryCampus, teacherSummary.
  run_call; reflexivity.
Qed.

Lemma select_after_updates t c p1 p2 (g1 g2 : TeacherCampus.t -> TeacherCampus.t)
  db :
  (forall x, Sql.teacherCampusPair t c (g1 x) = Sql.teacherCampusPair t c x) ->
  (forall x, Sql.teacherCampusPair t c (g2 x) = Sql.teacherCampusPair t c x) ->
  Sql.selectTeacherCampus t c
    (Sql.updateTeacherCampus p2 g2 (Sql.updateTeacherCampus p1 g1 db))
  = map (fun r => if p2 r then g2 r else r)
      (map (fun r => if p1 r then g1 r else r)
         (Sql.selectTeacherCampus t c db)).
Proof.
  intros H1 H2. unfold Sql.selectTeacherCampus, selectWhere. simpl.
  unfold updateWhere.
  rewrite filter_map_kept by (intros x; destruct (p2 x); auto).
  rewrite filter_map_kept by (intros x; destruct (p1 x); auto).
  reflexivity.
Qed.

(** Splits on the tests a statement makes on one row. *)
Ltac row_cases tid t cid c prim :=
  let E1 := fresh "E" in
  let E2 := fresh "E" in
  destruct (tid =? t) eqn:E1, (cid =? c) eqn:E2, prim;
  repeat (simpl; rewrite ?E1, ?E2); reflexivity.

Lemma CampusTeacherService_setPrimaryCampus_twice u t c now now' db :
  observableState
    (fst (CampusTeacherService.setPrimaryCampus u t c now'
            (fst (CampusTeacherService.setPrimaryCampus u t c now db))))
  = observableState (fst (CampusTeacherService.setPrimaryCampus u t c now db)).
Proof.
  rewrite !CampusTeacherService_setPrimaryCampus_store.
  destruct (hd_error (Sql.selectTeacherCampus t c db)) as [row|] eqn:E.
  - rewrite select_after_updates by reflexivity.
    rewrite !hd_error_map, E. simpl.
    unfold observableState, with_teacherCampus. simpl. f_equal.
    unfold updateWhere. rewrite !map_map. apply map_ext.
    intros [k tid cid prim st j cr up].
    unfold Sql.teacherCampusPair, Sql.isPrimaryOf. simpl.
    row_cases tid t cid c prim.
  - rewrite E. reflexivity.
Qed.

Lemma CampusTeacherService_setPrimaryCampus_same_result u t c now now' db :
  snd (CampusTeacherService.setPrimaryCampus u t c now'
            (fst (CampusTeacherService.setPrimaryCampus u t c now db)))
  = snd (CampusTeacherService.setPrimaryCampus u t c now db).
Proof.
  rewrite !CampusTeacherService_setPrimaryCampus_store.
  destruct (hd_error (Sql.selectTeacherCampus t c db)) as [row|] eqn:E.
  - unfold CampusTeacherService.setPrimaryCampus, teacherSummary,
      findTeacherWithUser.
    unfold_call.
    rewrite select_after_updates by reflexivity.
    rewrite !hd_error_map, E. simpl.
    repeat (break_inner; simpl); try reflexivity.
    all: destruct row as [k tid cid prim st j cr up]; simpl;
      unfold Sql.teacherCampusPair, Sql.isPrimaryOf; simpl;
      row_cases tid t cid c prim.
  - unfold CampusTeacherService.setPrimaryCampus. unfold_call.
    rewrite E. reflexivity.
Qed.

(** The store [setPrimaryCampus] of CampusStudentService leaves behind. *)
Lemma CampusStudentService_setPrimaryCampus_store us u s c db :
  fst (CampusStudentService.setPrimaryCampus us u s c db)
  = if CampusUserService.hasPermission us db u c MANAGE_CAMPUS_STUDENTS
    then
      match StudentCampusModel.findUnique s c db with
      | Some _ =>
          StudentCampusModel.updateMany (StudentCampusModel.pair s c)
            (StudentCampus.set_isPrimary true)
            (StudentCampusModel.updateMany (StudentCampusModel.isPrimaryOf s)
               (StudentCampus.set_isPrimary false) db)
      | None =>
          StudentCampusModel.updateMany (StudentCampusModel.isPrimaryOf s)
            (StudentCampus.set_isPrimary false) db
      end
    else db.
Proof.
  unfold CampusStudentService.setPrimaryCampus, StudentCampusModel.update,
    StudentCampusModel.findUnique.
  unfold_call. simpl.
  destruct (CampusUserService.hasPermission us db u c MANAGE_CAMPUS_STUDENTS);
    simpl; auto.
  unfold updateWhere. rewrite find_map_kept.
  - destruct (find (StudentCampusModel.pair s c) (studentCampus db));
      reflexivity.
  - intros [k sid cid prim st j].
    unfold StudentCampusModel.pair, StudentCampusModel.isPrimaryOf. simpl.
    row_cases sid s cid c prim.
Qed.

Lemma CampusStudentService_setPrimaryCampus_twice us u s c db :
  fst (CampusStudentService.setPrimaryCampus us u s c
         (fst (CampusStudentService.setPrimaryCampus us u s c db)))
  = fst (CampusStudentService.setPrimaryCampus us u s c db).
Proof.
  rewrite (CampusStudentService_setPrimaryCampus_store us u s c db).
  destruct (CampusUserService.hasPermission us db u c MANAGE_CAMPUS_STUDENTS)
    eqn:P.
  2:{ rewrite CampusStudentService_setPrimaryCampus_store, P. reflexivity. }
  rewrite CampusStudentService_setPrimaryCampus_store.
  match goal with
  | |- (if ?b then _ else _) = _ => destruct b; [|reflexivity]
  end.
  unfold StudentCampusModel.findUnique.
  destruct (find (StudentCampusModel.pair s c) (studentCampus db))
    as [row|] eqn:F; simpl; unfold updateWhere.
  - rewrite !find_map_kept, F; simpl.
    + unfold StudentCampusModel.updateMany, with_studentCampus. simpl.
      f_equal. unfold updateWhere. rewrite !map_map. apply map_ext.
      intros [k sid cid prim st j].
      unfold StudentCampusModel.pair, StudentCampusModel.isPrimaryOf. simpl.
      row_cases sid s cid c prim.
    + intros [k sid cid prim st j].
      unfold StudentCampusModel.pair, StudentCampusModel.isPrimaryOf. simpl.
      row_cases sid s cid c prim.
    + intros [k sid cid prim st j].
      unfold StudentCampusModel.pair, StudentCampusModel.isPrimaryOf. simpl.
      row_cases sid s cid c prim.
  - rewrite !find_map_kept, F; simpl.
    + unfold StudentCampusModel.updateMany, with_studentCampus. simpl.
      f_equal. unfold updateWhere. rewrite !map_map. apply map_ext.
      intros [k sid cid prim st j].
      unfold StudentCampusModel.pair, StudentCampusModel.isPrimaryOf. simpl.
      row_cases sid s cid c prim.
    + intros [k sid cid prim st j].
      unfold StudentCampusModel.pair, StudentCampusModel.isPrimaryOf. simpl.
      row_cases sid s cid c prim.
Qed.

(** C9. Calling [setPrimaryCampus] a second time with the same person and
    campus leaves the same observable store as the first call did: the same
    assignment rows with the same primary flags and statuses (only the
    [updatedAt] stamps of the teacher rows move), for the teacher service,
    which also returns the same value, and for the student service. *)
Theorem setPrimaryCampus_twice_is_once us actor person campusId now now' db :
  observableState
    (fst (CampusTeacherService.setPrimaryCampus actor person campusId now'
            (fst (CampusTeacherService.setPrimaryCampus
                    actor person campusId now db))))
  = observableState
      (fst (CampusTeacherService.setPrimaryCampus actor person campusId now db))
  /\ snd (CampusTeacherService.setPrimaryCampus actor person campusId now'
            (fst (CampusTeacherService.setPrimaryCampus
                    actor person campusId now db)))
     = snd (CampusTeacherService.setPrimaryCampus actor person campusId now db)
  /\ fst (CampusStudentService.setPrimaryCampus us actor person campusId
            (fst (CampusStudentService.setPrimaryCampus
                    us actor person campusId db)))
     = fst (CampusStudentService.setPrimaryCampus us actor person campusId db).
Proof.
  split; [|split].
  - apply CampusTeacherService_setPrimaryCampus_twice.
  - apply CampusTeacherService_setPrimaryCampus_same_result.
  - apply CampusStudentService_setPrimaryCampus_twice.
Qed.

(** ** The clear step does not look at the status *)

Lemma filter_length_weaken_in {R} (q q' : R -> bool) rows :
  (forall r, In r rows -> q r = true -> q' r = true) ->
  (List.length (filter q rows) <= List.length (filter q' rows))%nat.
Proof.
  induction rows as [|r rows IH]; simpl; intros H; auto.
  assert (IH' := IH (fun x Hx => H x (or_intror Hx))).
  destruct (q r) eqn:E.
  - rewrite (H r (or_introl eq_refl) E). simpl. lia.
  - destruct (q' r); simpl; lia.
Qed.

Section DesignationFacts.
Context {R : Type}.
Variables (key person campus : R -> string) (primary : R -> bool)
          (status : R -> Status).
Variables (demote promote : R -> R).
Hypothesis demote_person : forall r, person (demote r) = person r.
Hypothesis demote_campus : forall r, campus (demote r) = campus r.
Hypothesis demote_key : forall r, key (demote r) = key r.
Hypothesis demote_status : forall r, status (demote r) = status r.
Hypothesis demote_primary : forall r, primary (demote r) = false.
Hypothesis promote_person : forall r, person (promote r) = person r.
Hypothesis promote_campus : forall r, campus (promote r) = campus r.

(** After the clear step no row of the person is flagged. *)
Lemma cleared_not_primary s rows y :
  In y (updateWhere (primaryOf person primary s) demote rows) ->
  person y = s -> primary y = false.
Proof.
  intros Hy Hs. unfold updateWhere in Hy. apply in_map_iff in Hy.
  destruct Hy as [x [Hx _]]. unfold primaryOf in Hx.
  destruct (person x =? s) eqn:E; simpl in Hx.
  - destruct (primary x) eqn:F; subst y; auto.
  - subst y. apply String.eqb_neq in E. contradiction.
Qed.

(** Every row is still there after the clear step, with its status. *)
Lemma cleared_row_kept s rows r :
  In r rows -> person r = s ->
  exists y, In y (updateWhere (primaryOf person primary s) demote rows)
            /\ key y = key r /\ status y = status r
            /\ campus y = campus r /\ person y = s /\ primary y = false.
Proof.
  intros Hr Hs.
  exists (if primaryOf person primary s r then demote r else r).
  split; [unfold updateWhere; apply in_map_iff; exists r; auto|].
  unfold primaryOf. rewrite Hs, String.eqb_refl. simpl.
  destruct (primary r) eqn:F; auto 10.
  rewrite demote_person. auto 10.
Qed.

Lemma flagged_within_pair_at_most_one s c rows' :
  pairsUnique person campus rows' ->
  (forall r', In r' rows' -> person r' = s -> primary r' = true ->
              campus r' = c) ->
  (primaries person primary s rows' <= 1)%nat.
Proof.
  intros Hu H.
  apply Nat.le_trans
    with (List.length (filter (pairOf person campus s c) rows'));
    [|apply pairsUnique_at_most_one; exact Hu].
  apply filter_length_weaken_in. intros r Hr Hp.
  unfold primaryOf in Hp. apply andb_true_iff in Hp. destruct Hp as [Ha Hb].
  apply String.eqb_eq in Ha. unfold pairOf.
  rewrite Ha, (H r Hr Ha Hb), !String.eqb_refl. reflexivity.
Qed.

Lemma designated_by_insert s c rows row :
  person row = s -> campus row = c ->
  pairsUnique person campus rows ->
  existsb (pairOf person campus s c)
          (updateWhere (primaryOf person primary s) demote rows) = false ->
  designated key person campus primary status s c rows
    (updateWhere (primaryOf person primary s) demote rows ++ [row]).
Proof.
  intros Hs Hc Hu Hnew.
  assert (Hflag : forall r',
             In r' (updateWhere (primaryOf person primary s) demote rows
                    ++ [row]) ->
             person r' = s -> primary r' = true -> campus r' = c).
  { intros r' Hr' Hp Hf. apply in_app_or in Hr'.
    destruct Hr' as [Hr'|[<-|[]]]; auto.
    rewrite (cleared_not_primary s rows r' Hr' Hp) in Hf. discriminate. }
  split; [exact Hflag|]. split.
  - apply (flagged_within_pair_at_most_one s c); auto.
    unfold pairsUnique. apply NoDup_map_snoc.
    + rewrite updateWhere_map_key; auto.
      intros r. rewrite demote_person, demote_campus. reflexivity.
    + rewrite Hs, Hc. apply no_pair_not_in.
      apply existsb_false_forall. exact Hnew.
  - intros r Hr Hp Hne.
    destruct (cleared_row_kept s rows r Hr Hp) as [y [Hy [Hk [Hst [_ [_ Hf]]]]]].
    exists y. split; [apply in_or_app; auto|auto].
Qed.

Lemma designated_by_update s c rows :
  pairsUnique person campus rows ->
  designated key person campus primary status s c rows
    (updateWhere (pairOf person campus s c) promote
       (updateWhere (primaryOf person primary s) demote rows)).
Proof.
  intros Hu.
  assert (Hflag : forall r',
             In r' (updateWhere (pairOf person campus s c) promote
                      (updateWhere (primaryOf person primary s) demote rows)) ->
             person r' = s -> primary r' = true -> campus r' = c).
  { intros r' Hr' Hp Hf. unfold updateWhere at 1 in Hr'.
    apply in_map_iff in Hr'. destruct Hr' as [y [Hy Hin]].
    destruct (pairOf person campus s c y) eqn:E.
    - subst r'. rewrite promote_campus.
      apply pairOf_key in E. inversion E. reflexivity.
    - subst r'. rewrite (cleared_not_primary s rows y Hin Hp) in Hf.
      discriminate. }
  split; [exact Hflag|]. split.
  - apply (flagged_within_pair_at_most_one s c); auto.
    unfold pairsUnique. rewrite !updateWhere_map_key; auto.
    + intros r. rewrite demote_person, demote_campus. reflexivity.
    + intros r. rewrite promote_person, promote_campus. reflexivity.
  - intros r Hr Hp Hne.
    destruct (cleared_row_kept s rows r Hr Hp)
      as [y [Hy [Hk [Hst [Hcy [Hpy Hf]]]]]].
    exists y. split; [|auto].
    unfold updateWhere at 1. apply in_map_iff. exists y. split; auto.
    unfold pairOf. rewrite Hcy.
    destruct (String.eqb_spec (campus r) c); [contradiction|].
    rewrite andb_false_r. reflexivity.
Qed.

(** The clear step alone: nobody is flagged for the person any more. *)
Lemma designated_by_clear s c rows :
  designated key person campus primary status s c rows
    (updateWhere (primaryOf person primary s) demote rows).
Proof.
  split; [|split].
  - intros r' Hr' Hp Hf.
    rewrite (cleared_not_primary s rows r' Hr' Hp) in Hf. discriminate.
  - unfold primaries.
    replace (filter (primaryOf person primary s)
               (updateWhere (primaryOf person primary s) demote rows))
      with (@nil R); [simpl; lia|].
    symmetry. apply filter_none. intros y Hy. unfold primaryOf.
    destruct (String.eqb_spec (person y) s) as [E|E]; auto.
    rewrite (cleared_not_primary s rows y Hy E). reflexivity.
  - intros r Hr Hp _.
    destruct (cleared_row_kept s rows r Hr Hp) as [y [Hy [Hk [Hst [_ [_ Hf]]]]]].
    exists y. auto.
Qed.

End DesignationFacts.

Ltac designated_leaf :=
  first
  [ apply designated_by_insert;
    [ row_facts | row_facts | row_facts | row_facts | row_facts
    | reflexivity | reflexivity | assumption | assumption ]
  | apply designated_by_update;
    [ row_facts | row_facts | row_facts | row_facts | row_facts
    | row_facts | row_facts | assumption ]
  | apply designated_by_clear;
    [ row_facts | row_facts | row_facts | row_facts | row_facts ] ].

Ltac designated_call :=
  repeat (break_inner; simpl);
  unfold TeacherDesignated, StudentDesignated; simpl; designated_leaf.

(** C10. The clear step of a designation of a primary campus, by
    [assignTeacherToCampus] / [assignStudentToCampus] with isPrimary = true
    or by [setPrimaryCampus], selects on the person and the flag only.
    Once the tests before it have passed, whether the call then returns or
    throws, in the store it leaves the rows flagged for the person are rows
    of the designated campus, at most one row of the person is flagged
    counting rows of every status, and every row the person had at another
    campus, Inactive and Archived ones included, is kept with its status
    and is not flagged.  [CampusTeacherService.assignTeacherToCampus] runs
    the clear step and is then rejected by the storage: it leaves the
    teacher with no flagged row. *)
Theorem designation_demotes_rows_of_any_status us db :
  teacherPairsUnique (teacherCampus db) ->
  studentPairsUnique (studentCampus db) ->
  (forall u c t now,
      hasSuperAdminRole (findUnique User.id u (user db)) = true
      \/ CampusUserService.hasPermission us db u c MANAGE_CAMPUS_TEACHERS
         = true ->
      hasKey TeacherProfile.id t (teacherProfile db) = true ->
      hasKey Campus.id c (campus db) = true ->
      Sql.selectTeacherCampus t c db = [] ->
      exists db',
        CampusTeacherService.assignTeacherToCampus us u c t true now db
        = (db', inl (StorageError NotNullViolation))
        /\ TeacherDesignated t c db db'
        /\ primaries TeacherCampus.teacherId TeacherCampus.isPrimary t
             (teacherCampus db') = 0%nat)
  /\ (forall t c st now k,
        hasKey TeacherProfile.id t (teacherProfile db) = true ->
        hasKey Campus.id c (campus db) = true ->
        Sql.selectTeacherCampus t c db = [] ->
        TeacherDesignated t c db
          (fst (TeacherCampusService.assignTeacherToCampus
                  (TeacherCampusService.mkCampusData t c true st) now k db))
        /\ (hasKey TeacherCampus.id k (teacherCampus db) = false ->
            hasKey Teacher.id t (teacher db) = true ->
            In (TeacherCampus.mk k t c true
                  (match st with Some x => x | None => ACTIVE end)
                  now now now)
               (teacherCampus
                  (fst (TeacherCampusService.assignTeacherToCampus
                          (TeacherCampusService.mkCampusData t c true st)
                          now k db)))))
  /\ (forall u t c now,
        Sql.selectTeacherCampus t c db <> [] ->
        TeacherDesignated t c db
          (fst (CampusTeacherService.setPrimaryCampus u t c now db)))
  /\ (forall u c s now k,
        CampusUserService.hasPermission us db u c MANAGE_CAMPUS_STUDENTS
        = true ->
        hasKey Student.id s (student db) = true ->
        hasKey Campus.id c (campus db) = true ->
        StudentCampusModel.findUnique s c db = None ->
        StudentDesignated s c db
          (fst (CampusStudentService.assignStudentToCampus
                  us u c s true now k db)))
  /\ (forall u s c,
        CampusUserService.hasPermission us db u c MANAGE_CAMPUS_STUDENTS
        = true ->
        StudentDesignated s c db
          (fst (CampusStudentService.setPrimaryCampus us u s c db))).
Proof.
  intros Ht Hs. split; [|split; [|split; [|split]]].
  - intros u c t now Hallow Hteacher Hcampus Hnone.
    rewrite hasKey_findUnique in Hteacher.
    rewrite hasKey_findUnique in Hcampus.
    destruct (findUnique TeacherProfile.id t (teacherProfile db))
      as [tp|] eqn:Etp; [|discriminate].
    destruct (findUnique Campus.id c (campus db)) as [cp|] eqn:Ecp;
      [|discriminate].
    eexists. split; [|split].
    + unfold CampusTeacherService.assignTeacherToCampus,
        Sql.insertTeacherCampus.
      unfold findUnique, Sql.selectTeacherCampus, selectWhere in *.
      unfold_call. simpl.
      destruct Hallow as [Hrole|Hperm].
      * rewrite Hrole. simpl. rewrite Etp. simpl. rewrite Ecp. simpl.
        rewrite Hnone. reflexivity.
      * destruct (hasSuperAdminRole _); simpl; rewrite ?Hperm; simpl;
          rewrite Etp; simpl; rewrite Ecp; simpl; rewrite Hnone;
          reflexivity.
    + unfold TeacherDesignated. simpl. designated_leaf.
    + simpl. apply primaries_clear; row_facts.
  - intros t c st now k Hteacher Hcampus Hnone.
    pose proof Hteacher as Hteacher'. pose proof Hcampus as Hcampus'.
    rewrite hasKey_findUnique in Hteacher'.
    rewrite hasKey_findUnique in Hcampus'.
    destruct (findUnique TeacherProfile.id t (teacherProfile db))
      as [tp|] eqn:Etp; [|discriminate].
    destruct (findUnique Campus.id c (campus db)) as [cp|] eqn:Ecp;
      [|discriminate].
    unfold TeacherCampusService.assignTeacherToCampus, findTeacherWithUser,
      teacherSummary, Sql.insertTeacherCampus.
    unfold findUnique, Sql.selectTeacherCampus, selectWhere in *.
    unfold_call. simpl. rewrite Etp. simpl. rewrite Ecp. simpl.
    rewrite Hnone. simpl.
    split.
    + designated_call.
    + intros Hfresh Hrow.
      rewrite hasKey_updateWhere by (intros []; reflexivity).
      rewrite Hfresh.
      rewrite existsb_updateWhere by (intros []; reflexivity).
      rewrite (proj2 (existsb_filter_nil _ _) Hnone).
      rewrite Hrow, Hcampus. simpl.
      repeat (break_inner; simpl); apply in_or_app; right; simpl; auto.
  - intros u t c now Hrow.
    unfold CampusTeacherService.setPrimaryCampus, findTeacherWithUser,
      teacherSummary.
    unfold_call. simpl.
    destruct (Sql.selectTeacherCampus t c db) as [|r0 rest] eqn:Esel;
      [contradiction|].
    simpl. designated_call.
  - intros u c s now k Hperm Hstudent Hcampus Hnone.
    pose proof Hstudent as Hstudent'. pose proof Hcampus as Hcampus'.
    rewrite hasKey_findUnique in Hstudent'.
    rewrite hasKey_findUnique in Hcampus'.
    destruct (findUnique Student.id s (student db)) as [sp|] eqn:Esp;
      [|discriminate].
    destruct (findUnique Campus.id c (campus db)) as [cp|] eqn:Ecp;
      [|discriminate].
    unfold CampusStudentService.assignStudentToCampus,
      CampusStudentService.findStudentWithUser, StudentCampusModel.create.
    unfold findUnique, StudentCampusModel.findUnique in *.
    unfold_call. simpl. rewrite Hperm. simpl. rewrite Esp. simpl.
    rewrite Ecp. simpl. rewrite Hnone. simpl.
    designated_call.
  - intros u s c Hperm.
    unfold CampusStudentService.setPrimaryCampus, StudentCampusModel.update.
    unfold_call. simpl. rewrite Hperm. simpl.
    designated_call.
Qed.

Lemma designation_demotes_rows_of_any_status_witness :
  (exists db',
      CampusTeacherService.assignTeacherToCampus
        sampleOracle "admin" "C2" "T1" true 5
        (sampleStore [rowT1C1 true INACTIVE] [] [] [])
      = (db', inl (StorageError NotNullViolation))
      /\ TeacherDesignated "T1" "C2"
           (sampleStore [rowT1C1 true INACTIVE] [] [] []) db'
      /\ primaries TeacherCampus.teacherId TeacherCampus.isPrimary "T1"
           (teacherCampus db') = 0%nat)
  /\ TeacherDesignated "T1" "C2"
       (sampleStore [rowT1C1 true INACTIVE] [] [] [])
       (fst (TeacherCampusService.assignTeacherToCampus
               (TeacherCampusService.mkCampusData "T1" "C2" true None)
               5 "a2" (sampleStore [rowT1C1 true INACTIVE] [] [] [])))
  /\ In (TeacherCampus.mk "a2" "T1" "C2" true ACTIVE 5 5 5)
        (teacherCampus
           (fst (TeacherCampusService.assignTeacherToCampus
                   (TeacherCampusService.mkCampusData "T1" "C2" true None)
                   5 "a2" (sampleStore [rowT1C1 true INACTIVE] [] [] [])))).
Proof.
  assert (Hu : teacherPairsUnique
                 (teacherCampus (sampleStore [rowT1C1 true INACTIVE] [] [] [])))
    by (unfold teacherPairsUnique, pairsUnique; simpl;
        constructor; [simpl; tauto|constructor]).
  assert (Hs : studentPairsUnique
                 (studentCampus (sampleStore [rowT1C1 true INACTIVE] [] [] [])))
    by constructor.
  destruct (designation_demotes_rows_of_any_status sampleOracle
              (sampleStore [rowT1C1 true INACTIVE] [] [] []) Hu Hs)
    as [Hct [Htc _]].
  split.
  - apply (Hct "admin" "C2" "T1" 5%Z);
      [right; reflexivity|reflexivity|reflexivity|reflexivity].
  - destruct (Htc "T1" "C2" None 5%Z "a2") as [Hd Hin];
      [reflexivity|reflexivity|reflexivity|].
    split; [exact Hd|apply Hin; reflexivity].
Defined.

(** ** Subjects of a class assignment *)

(** When the loop runs to its end, it has appended one row per subject id,
    and the ids were pairwise distinct and new for the class row. *)
Lemma subject_loop_returns uuid ca now l : forall i db d,
  forEachFrom i l
    (fun i subjectId =>
       Sql.insertTeacherSubjectAssignment
         (TeacherSubjectAssignment.mk (uuid (S i)) ca subjectId ACTIVE now now))
    db = (d, inr tt) ->
  d = with_teacherSubjectAssignment
        (teacherSubjectAssignment db ++ subjectRows uuid ca now i l) db
  /\ NoDup l
  /\ forall s, In s l ->
       existsb (Sql.subjectAssignmentPair ca s) (teacherSubjectAssignment db)
       = false.
Proof.
  induction l as [|x l IH]; simpl; intros i db d H.
  - inversion H; subst. rewrite app_nil_r.
    split; [apply with_teacherSubjectAssignment_self|].
    split; [constructor|tauto].
  - unfold bind at 1 in H.
    unfold Sql.insertTeacherSubjectAssignment at 1 in H. simpl in H.
    destruct (hasKey TeacherSubjectAssignment.id (uuid (S i))
                     (teacherSubjectAssignment db)); [discriminate|].
    destruct (existsb (Sql.subjectAssignmentPair ca x)
                      (teacherSubjectAssignment db)) eqn:Ex; [discriminate|].
    destruct (negb (hasKey TeacherClassAssignment.id ca
                           (teacherClassAssignment db))); [discriminate|].
    destruct (negb (hasKey Subject.id x (subject db))); [discriminate|].
    apply IH in H. simpl in H. destruct H as [-> [Hnd Hnew]].
    split; [|split].
    + rewrite <- app_assoc. reflexivity.
    + constructor; auto. intros Hin. specialize (Hnew x Hin).
      rewrite existsb_app in Hnew. apply orb_false_iff in Hnew.
      destruct Hnew as [_ Hnew]. simpl in Hnew.
      unfold Sql.subjectAssignmentPair in Hnew. simpl in Hnew.
      rewrite !String.eqb_refl in Hnew. discriminate.
    + intros s [<-|Hs]; auto. specialize (Hnew s Hs).
      rewrite existsb_app in Hnew. apply orb_false_iff in Hnew. tauto.
Qed.

Lemma subjectsOf_subjectRows uuid ca now l : forall i,
  map TeacherSubjectAssignment.subjectId
    (filter (fun s => TeacherSubjectAssignment.teacherClassAssignmentId s =? ca)
            (subjectRows uuid ca now i l)) = l.
Proof.
  induction l as [|x l IH]; simpl; intros i; auto.
  rewrite String.eqb_refl. simpl. rewrite IH. reflexivity.
Qed.

(** No subject row refers to a class row id that is not in use. *)
Lemma no_subject_of_new_class ca db :
  subjectRowsRefer db ->
  hasKey TeacherClassAssignment.id ca (teacherClassAssignment db) = false ->
  filter (fun s => TeacherSubjectAssignment.teacherClassAssignmentId s =? ca)
         (teacherSubjectAssignment db) = [].
Proof.
  intros Hfk Hnew. apply filter_none. intros s Hs.
  destruct (String.eqb_spec
              (TeacherSubjectAssignment.teacherClassAssignmentId s) ca)
    as [E|E]; auto.
  rewrite <- E, (Hfk s Hs) in Hnew. discriminate.
Qed.

(** With distinct, existing subjects and new row ids the loop runs to its
    end. *)
Lemma subject_loop_succeeds uuid ca now l : forall i db,
  NoDup l ->
  (forall s, In s l -> hasKey Subject.id s (subject db) = true) ->
  hasKey TeacherClassAssignment.id ca (teacherClassAssignment db) = true ->
  (forall s, In s l ->
     existsb (Sql.subjectAssignmentPair ca s) (teacherSubjectAssignment db)
     = false) ->
  (forall j, (i <= j < i + List.length l)%nat ->
     hasKey TeacherSubjectAssignment.id (uuid (S j))
            (teacherSubjectAssignment db) = false) ->
  (forall j j', (i <= j < j')%nat -> (j' < i + List.length l)%nat ->
     uuid (S j) <> uuid (S j')) ->
  forEachFrom i l
    (fun i subjectId =>
       Sql.insertTeacherSubjectAssignment
         (TeacherSubjectAssignment.mk (uuid (S i)) ca subjectId ACTIVE now now))
    db
  = (with_teacherSubjectAssignment
       (teacherSubjectAssignment db ++ subjectRows uuid ca now i l) db,
     inr tt).
Proof.
  induction l as [|x l IH]; simpl; intros i db Hnd Hsub Hca Hpair Hid Hinj.
  - rewrite app_nil_r. unfold ret. f_equal.
    apply with_teacherSubjectAssignment_self.
  - inversion Hnd as [|? ? Hx Hnd']; subst.
    unfold bind at 1. unfold Sql.insertTeacherSubjectAssignment at 1. simpl.
    rewrite (Hid i) by lia.
    rewrite (Hpair x) by auto.
    rewrite Hca, (Hsub x) by auto. simpl.
    rewrite IH; simpl; auto.
    + rewrite <- app_assoc. reflexivity.
    + intros s Hs. rewrite existsb_app, (Hpair s) by auto. simpl.
      unfold Sql.subjectAssignmentPair. simpl.
      destruct (String.eqb_spec x s); [subst; contradiction|].
      rewrite andb_false_r. reflexivity.
    + intros j Hj. rewrite hasKey_app, (Hid j) by lia. simpl.
      unfold hasKey. simpl.
      destruct (String.eqb_spec (uuid (S i)) (uuid (S j))) as [E|E]; auto.
      exfalso. apply (Hinj i j); auto; lia.
    + intros j j' Hj Hj'. apply Hinj; lia.
Qed.

(** What a call that returned has done. *)
Lemma assignTeacherToClass_returned db data now uuid db' res :
  subjectRowsRefer db ->
  TeacherCampusService.assignTeacherToClass data now uuid db = (db', inr res) ->
  NoDup (TeacherCampusService.subjectIds data)
  /\ subjectsOf (uuid 0%nat) db' = TeacherCampusService.subjectIds data.
Proof.
  intros Hfk.
  unfold TeacherCampusService.assignTeacherToClass,
    Sql.insertTeacherClassAssignment.
  run_call; intros H; inversion H; subst; clear H.
  - match goal with
    | H : forEachFrom _ _ _ _ = _ |- _ =>
        destruct u; apply subject_loop_returns in H;
        destruct H as [-> [Hnd _]]
    end.
    split; auto. unfold subjectsOf, selectWhere. simpl.
    rewrite filter_app, map_app, subjectsOf_subjectRows.
    rewrite no_subject_of_new_class; auto.
  - match goal with
    | H : (0 <? _)%nat = false |- _ => apply Nat.ltb_ge in H
    end.
    destruct (TeacherCampusService.subjectIds data); [|simpl in *; lia].
    split; [constructor|].
    unfold subjectsOf, selectWhere. simpl.
    rewrite no_subject_of_new_class; auto.
Qed.

(** A call that can go through and names pairwise distinct subjects
    returns. *)
Lemma assignTeacherToClass_returns db data now uuid :
  subjectRowsRefer db ->
  attachable data uuid db ->
  NoDup (TeacherCampusService.subjectIds data) ->
  exists res,
    snd (TeacherCampusService.assignTeacherToClass data now uuid db) = inr res
    /\ subjectsOf (uuid 0%nat)
         (fst (TeacherCampusService.assignTeacherToClass data now uuid db))
       = TeacherCampusService.subjectIds data.
Proof.
  intros Hfk [[tc [cls [Htc [Hcls Hsame]]]] [Hk [Hpair [Hsub [Hid Hinj]]]]] Hnd.
  assert (Hnone := no_subject_of_new_class (uuid 0%nat) db Hfk Hk).
  assert (Htck : hasKey TeacherCampus.id
                   (TeacherCampusService.teacherCampusId data)
                   (teacherCampus db) = true).
  { apply hd_error_filter_some in Htc. destruct Htc as [Hin Hk'].
    apply hasKey_true. exists tc. split; auto.
    apply String.eqb_eq. exact Hk'. }
  assert (Hck : hasKey Class_.id (TeacherCampusService.classId data)
                  (class_ db) = true).
  { apply findUnique_some in Hcls. apply hasKey_true. eauto. }
  unfold TeacherCampusService.assignTeacherToClass,
    Sql.insertTeacherClassAssignment.
  unfold_call. rewrite Htc, Hcls.
  fold (classCampusId cls). rewrite Hsame, String.eqb_refl. simpl.
  rewrite Hk, Hpair, Htck, Hck. simpl.
  destruct (0 <? List.length (TeacherCampusService.subjectIds data))%nat
    eqn:Hlen.
  - rewrite subject_loop_succeeds; simpl; auto.
    + eexists. split; [reflexivity|].
      unfold subjectsOf, selectWhere. simpl.
      rewrite filter_app, map_app, subjectsOf_subjectRows, Hnone.
      reflexivity.
    + rewrite hasKey_app. unfold hasKey at 2. simpl.
      rewrite String.eqb_refl. apply orb_true_r.
    + intros s Hs. apply existsb_false_forall_inv. intros r Hr.
      unfold Sql.subjectAssignmentPair.
      assert (Hf := filter_nil_forall _ _ Hnone r Hr). simpl in Hf.
      rewrite Hf. reflexivity.
    + intros j Hj. apply Hid. lia.
    + intros j j' Hj Hj'. apply Hinj; lia.
  - apply Nat.ltb_ge in Hlen.
    destruct (TeacherCampusService.subjectIds data); [|simpl in Hlen; lia].
    simpl. eexists. split; [reflexivity|].
    unfold subjectsOf, selectWhere. simpl. rewrite Hnone. reflexivity.
Qed.

(** C4, as the code has it.  [assignTeacherToClass] inserts one subject
    row per element of the list, in order, and does not deduplicate: a call
    that can go through and whose subject ids are pairwise distinct returns
    and leaves exactly one subject row per requested id on the new class
    assignment; a call whose list holds a subject id twice does not return
    (the unique index rejects the second row); and whenever a call
    returned, its subject ids were pairwise distinct and the subject rows
    of the new class assignment are exactly the requested ones. *)
Theorem distinct_subjects_attached_duplicates_rejected db data now uuid :
  subjectRowsRefer db ->
  (attachable data uuid db ->
   NoDup (TeacherCampusService.subjectIds data) ->
   exists res,
     snd (TeacherCampusService.assignTeacherToClass data now uuid db) = inr res
     /\ subjectsOf (uuid 0%nat)
          (fst (TeacherCampusService.assignTeacherToClass data now uuid db))
        = TeacherCampusService.subjectIds data)
  /\ (~ NoDup (TeacherCampusService.subjectIds data) ->
      exists e,
        snd (TeacherCampusService.assignTeacherToClass data now uuid db)
        = inl e)
  /\ (forall db' res,
        TeacherCampusService.assignTeacherToClass data now uuid db
        = (db', inr res) ->
        NoDup (TeacherCampusService.subjectIds data)
        /\ subjectsOf (uuid 0%nat) db'
           = TeacherCampusService.subjectIds data).
Proof.
  intros Hfk. split; [|split].
  - intros Hatt Hnd. apply assignTeacherToClass_returns; assumption.
  - intros Hdup.
    destruct (TeacherCampusService.assignTeacherToClass data now uuid db)
      as [db' [e|res]] eqn:E; simpl; eauto.
    exfalso. apply Hdup.
    apply (assignTeacherToClass_returned db data now uuid db' res Hfk E).
  - intros db' res E.
    apply (assignTeacherToClass_returned db data now uuid db' res Hfk E).
Qed.

Lemma distinct_subjects_attached_duplicates_rejected_witness :
  subjectsOf "A"
    (fst (TeacherCampusService.assignTeacherToClass
            (TeacherCampusService.mkClassData "a1" "X2" true ["S1"; "S2"])
            3 sampleUuid storeTwoCampuses))
  = ["S1"; "S2"].
Proof.
  assert (Hfk : subjectRowsRefer storeTwoCampuses) by (intros s []).
  destruct (proj2 (proj2 (distinct_subjects_attached_duplicates_rejected
                            storeTwoCampuses
                            (TeacherCampusService.mkClassData
                               "a1" "X2" true ["S1"; "S2"])
                            3 sampleUuid Hfk))
              (fst (TeacherCampusService.assignTeacherToClass
                      (TeacherCampusService.mkClassData
                         "a1" "X2" true ["S1"; "S2"])
                      3 sampleUuid storeTwoCampuses))
              (ClassAssignmentResult.mk "A" "a1" "X2" true ACTIVE
                 (Class_.mk "X2" "C1" (ClassGroup.mk (Program.mk "C1"))))
              eq_refl) as [_ Hrows].
  exact Hrows.
Defined.

(** C4 as it is worded fails: with the list S1, S1, S2 the call throws on
    the second S1 and S2 is never attached, whereas the list S1, S2
    attaches both. *)
Lemma duplicate_subject_is_an_error :
  ~ spec_deduplicates
      (TeacherCampusService.mkClassData "a1" "X2" true ["S1"; "S1"; "S2"])
      3 sampleUuid storeTwoCampuses
  /\ snd (TeacherCampusService.assignTeacherToClass
            (TeacherCampusService.mkClassData "a1" "X2" true ["S1"; "S1"; "S2"])
            3 sampleUuid storeTwoCampuses)
     = inl (StorageError UniqueViolation)
  /\ subjectsOf "A"
       (fst (TeacherCampusService.assignTeacherToClass
               (TeacherCampusService.mkClassData
                  "a1" "X2" true ["S1"; "S1"; "S2"])
               3 sampleUuid storeTwoCampuses))
     = ["S1"]
  /\ subjectsOf "A"
       (fst (TeacherCampusService.assignTeacherToClass
               (TeacherCampusService.mkClassData "a1" "X2" true ["S1"; "S2"])
               3 sampleUuid storeTwoCampuses))
     = ["S1"; "S2"].
Proof.
  split; [|split; [|split]]; try reflexivity.
  intros [res [H _]]. vm_compute in H. discriminate.
Qed.

(** ** Calls that fail half-way *)

(** C3 at its failing inputs.  [assignTeacherToClass] runs its INSERTs one
    by one outside any transaction: when a later subject row is rejected,
    the class row and the earlier subject rows stay.  [setPrimaryCampus] of
    CampusStudentService clears the flags before it finds out that the
    student has no assignment at the campus, and the flags stay cleared. *)
Theorem failed_calls_leave_partial_writes :
  (snd (TeacherCampusService.assignTeacherToClass
          (TeacherCampusService.mkClassData "a1" "X2" true ["S1"; "S1"; "S2"])
          3 sampleUuid storeTwoCampuses)
   = inl (StorageError UniqueViolation)
   /\ teacherClassAssignment
        (fst (TeacherCampusService.assignTeacherToClass
                (TeacherCampusService.mkClassData
                   "a1" "X2" true ["S1"; "S1"; "S2"])
                3 sampleUuid storeTwoCampuses))
      = [TeacherClassAssignment.mk "A" "a1" "X2" true ACTIVE 3 3]
   /\ teacherSubjectAssignment
        (fst (TeacherCampusService.assignTeacherToClass
                (TeacherCampusService.mkClassData
                   "a1" "X2" true ["S1"; "S1"; "S2"])
                3 sampleUuid storeTwoCampuses))
      = [TeacherSubjectAssignment.mk "B" "A" "S1" ACTIVE 3 3])
  /\ (snd (TeacherCampusService.assignTeacherToClass
             (TeacherCampusService.mkClassData "a1" "X2" true ["S9"])
             3 sampleUuid storeTwoCampuses)
      = inl (StorageError ForeignKeyViolation)
      /\ teacherClassAssignment
           (fst (TeacherCampusService.assignTeacherToClass
                   (TeacherCampusService.mkClassData "a1" "X2" true ["S9"])
                   3 sampleUuid storeTwoCampuses))
         = [TeacherClassAssignment.mk "A" "a1" "X2" true ACTIVE 3 3])
  /\ (snd (CampusStudentService.setPrimaryCampus
             sampleOracle "admin" "St1" "C2" storeStudent)
      = inl (TRPCError INTERNAL_SERVER_ERROR)
      /\ studentCampus
           (fst (CampusStudentService.setPrimaryCampus
                   sampleOracle "admin" "St1" "C2" storeStudent))
         = [StudentCampus.mk "b1" "St1" "C1" false ACTIVE 1]).
Proof. repeat split; reflexivity. Qed.

(** ** End-to-end scenarios *)

(** T1 is assigned to C1 as primary, then to C2 as primary: two rows, only
    that of C2 flagged. *)
Example scenario_second_primary_takes_the_flag :
  teacherCampus
    (run sampleOracle
       (TC_assignTeacherToCampus
          (TeacherCampusService.mkCampusData "T1" "C2" true None) 2 "a2")
       (run sampleOracle
          (TC_assignTeacherToCampus
             (TeacherCampusService.mkCampusData "T1" "C1" true None) 1 "a1")
          emptyStore))
  = [rowT1C1 false ACTIVE; rowT1C2 true ACTIVE].
Proof. reflexivity. Qed.

(** The same second assignment through [CampusTeacherService]: the flag
    of C1 is cleared, the INSERT is rejected for its missing id, and T1 is
    left with no primary campus. *)
Example scenario_assignment_without_id_is_rejected :
  CampusTeacherService.assignTeacherToCampus
    sampleOracle "root" "C2" "T1" true 2
    (sampleStore [rowT1C1 true ACTIVE] [] [] [])
  = (sampleStore [rowT1C1 false ACTIVE] [] [] [],
     inl (StorageError NotNullViolation)).
Proof. reflexivity. Qed.

(** Assigning T1 to C1 a second time is a CONFLICT and changes nothing. *)
Example scenario_second_assignment_conflicts :
  CampusTeacherService.assignTeacherToCampus
    sampleOracle "admin" "C1" "T1" true 9 storeTwoCampuses
  = (storeTwoCampuses, inl (TRPCError CONFLICT)).
Proof. reflexivity. Qed.

(** Class X1 is of campus C2: assigning it through the assignment of T1 at
    C1 is a BAD_REQUEST and changes nothing. *)
Example scenario_class_of_other_campus :
  TeacherCampusService.assignTeacherToClass
    (TeacherCampusService.mkClassData "a1" "X1" true []) 9 sampleUuid
    storeTwoCampuses
  = (storeTwoCampuses, inl (TRPCError BAD_REQUEST)).
Proof. reflexivity. Qed.

(** Removing T1 from C1 takes the class X2 and its subjects along and
    leaves the assignment at C2, still primary. *)
Example scenario_removal_cascades :
  TeacherCampusService.removeTeacherFromCampus "T1" "C1" storeWithClass
  = (sampleStore [rowT1C2 true ACTIVE] [] [] [], inr tt).
Proof. reflexivity. Qed.

(* ================================================================== *)
(** * Further properties of the services *)

Lemma with_teacherCampus_self db :
  with_teacherCampus (teacherCampus db) db = db.
Proof. destruct db; reflexivity. Qed.

Lemma with_studentCampus_self db :
  with_studentCampus (studentCampus db) db = db.
Proof. destruct db; reflexivity. Qed.

Lemma updateWhere_none {R} (p : R -> bool) (g : R -> R) rows :
  (forall r, In r rows -> p r = false) -> updateWhere p g rows = rows.
Proof.
  intros H. unfold updateWhere. induction rows as [|r rows IH]; simpl; auto.
  rewrite (H r (or_introl eq_refl)). f_equal. apply IH.
  intros x Hx. apply H. right. exact Hx.
Qed.

Lemma updateWhere_unmatched {R} (p : R -> bool) (g : R -> R) rows :
  (forall x, p (g x) = p x) ->
  hd_error (filter p (updateWhere p g rows)) = None ->
  updateWhere p g rows = rows.
Proof.
  intros Hp H. apply updateWhere_none.
  rewrite filter_updateWhere_same in H by exact Hp.
  rewrite hd_error_map in H.
  destruct (hd_error (filter p rows)) eqn:E; [discriminate|].
  apply filter_nil_forall. apply hd_error_none_nil. exact E.
Qed.

(** The loop of [assignTeacherToClass] ends early only on a rejected
    INSERT. *)
Lemma subject_loop_throws_storage uuid ca now l : forall i db d e,
  forEachFrom i l
    (fun i subjectId =>
       Sql.insertTeacherSubjectAssignment
         (TeacherSubjectAssignment.mk (uuid (S i)) ca subjectId ACTIVE now now))
    db = (d, inl e) ->
  e = StorageError UniqueViolation \/ e = StorageError ForeignKeyViolation.
Proof.
  induction l as [|x l IH]; simpl; intros i db d e H.
  - inversion H.
  - unfold bind at 1 in H.
    unfold Sql.insertTeacherSubjectAssignment at 1 in H. simpl in H.
    repeat match type of H with
           | context [if ?b then _ else _] => destruct b
           end;
      inversion H; eauto.
Qed.

(** ** Errors and the writes before them *)

Ltac precheck_leaf :=
  match goal with
  | H : Some _ = Some _ |- _ => inversion H; subst; clear H
  | H : None = Some _ |- _ => discriminate H
  end;
  try reflexivity; try congruence.

(** X1. A call that ends with a tRPC error other than
    INTERNAL_SERVER_ERROR (FORBIDDEN, NOT_FOUND, CONFLICT, BAD_REQUEST)
    has written nothing: the store after the call is the store before
    it.  These errors are thrown by tests that precede every write of
    their method. *)
Theorem precheck_errors_write_nothing us op db code :
  thrown us op db = Some (TRPCError code) ->
  code <> INTERNAL_SERVER_ERROR ->
  run us op db = db.
Proof.
  intros H Hc. destruct op; unfold thrown, run in *.
  - revert H. unfold CampusTeacherService.assignTeacherToCampus,
      Sql.insertTeacherCampus.
    run_call; intros H; precheck_leaf.
  - revert H. unfold CampusTeacherService.removeTeacherFromCampus.
    run_call; intros H; precheck_leaf.
  - revert H. unfold CampusTeacherService.updateTeacherCampusStatus,
      teacherSummary.
    run_call; intros H; precheck_leaf.
  - revert H. unfold CampusTeacherService.setPrimaryCampus, teacherSummary.
    run_call; intros H; precheck_leaf.
  - revert H. unfold TeacherCampusService.assignTeacherToCampus,
      teacherSummary, Sql.insertTeacherCampus.
    run_call; intros H; precheck_leaf.
  - revert H. unfold TeacherCampusService.assignTeacherToClass,
      Sql.insertTeacherClassAssignment.
    run_call; intros H; try precheck_leaf.
    match goal with
    | L : forEachFrom _ _ _ _ = (_, inl _) |- _ =>
        apply subject_loop_throws_storage in L; destruct L as [L|L];
        discriminate L
    end.
  - revert H. unfold TeacherCampusService.updateAssignmentStatus.
    run_call; intros H; precheck_leaf.
    unfold Sql.updateTeacherCampus, Sql.selectTeacherCampusById,
      selectWhere in *.
    simpl in *.
    match goal with
    | E : hd_error _ = None |- with_teacherCampus ?rows ?db = _ =>
        replace rows with (teacherCampus db);
        [ apply with_teacherCampus_self
        | symmetry; apply updateWhere_unmatched;
          [ intros x; reflexivity | exact E ] ]
    end.
  - revert H. unfold TeacherCampusService.removeTeacherFromCampus.
    run_call; intros H; precheck_leaf.
  - revert H. unfold CampusStudentService.assignStudentToCampus,
      StudentCampusModel.create, CampusStudentService.rethrowTRPC.
    run_call; intros H; precheck_leaf.
  - revert H. unfold CampusStudentService.removeStudentFromCampus,
      StudentCampusModel.delete, CampusStudentService.internalError.
    run_call; intros H; precheck_leaf.
  - revert H. unfold CampusStudentService.updateStudentCampusStatus,
      StudentCampusModel.update, CampusStudentService.internalError.
    run_call; intros H; precheck_leaf.
  - revert H. unfold CampusStudentService.setPrimaryCampus,
      StudentCampusModel.update, CampusStudentService.internalError.
    run_call; intros H; precheck_leaf.
Qed.

Lemma precheck_errors_write_nothing_witness :
  run sampleOracle (CT_assignTeacherToCampus "admin" "C1" "T1" true 9)
      storeTwoCampuses
  = storeTwoCampuses.
Proof.
  apply (precheck_errors_write_nothing _ _ _ CONFLICT).
  - vm_compute. reflexivity.
  - discriminate.
Defined.

Lemma findTeacherWithUser_hasKey t db p :
  findTeacherWithUser t db = Some p ->
  hasKey TeacherProfile.id t (teacherProfile db) = true.
Proof.
  unfold findTeacherWithUser. intros H.
  destruct (findUnique TeacherProfile.id t (teacherProfile db)) eqn:E;
    [|discriminate].
  eapply findUnique_hasKey. exact E.
Qed.

Lemma findStudentWithUser_hasKey s db p :
  CampusStudentService.findStudentWithUser s db = Some p ->
  hasKey Student.id s (student db) = true.
Proof.
  unfold CampusStudentService.findStudentWithUser. intros H.
  destruct (findUnique Student.id s (student db)) eqn:E; [|discriminate].
  eapply findUnique_hasKey. exact E.
Qed.

Ltac catalogue_leaf :=
  match goal with
  | H : Some _ = Some _ |- _ => inversion H; subst; clear H
  | H : None = Some _ |- _ => discriminate H
  end;
  simpl; try tauto;
  try match goal with
      | F : findUnique ?key ?k ?rows = Some _,
        N : negb (hasKey ?key ?k ?rows) = true |- _ =>
          rewrite (findUnique_hasKey _ _ _ _ F) in N; discriminate N
      | F : findTeacherWithUser ?k ?db = Some _,
        N : negb (hasKey TeacherProfile.id ?k (teacherProfile ?db)) = true
        |- _ =>
          rewrite (findTeacherWithUser_hasKey _ _ _ F) in N; discriminate N
      end.

(** X2. The errors a call can end with.  The teacher methods let a
    rejected INSERT and a TypeError (the user of a teacher profile
    missing) reach the caller as they are: for [assignTeacherToCampus] of
    CampusTeacherService, whose INSERT names no id, the rejection is that
    of the NOT NULL column.  The student methods turn every failure
    inside their try block into INTERNAL_SERVER_ERROR; only
    [assignTeacherToClass] throws BAD_REQUEST; no removal of a teacher
    throws anything but FORBIDDEN and NOT_FOUND. *)
Theorem thrown_errors_are_catalogued us op db e :
  thrown us op db = Some e -> In e (mayThrow op).
Proof.
  intros H. destruct op; unfold thrown, mayThrow in *.
  - revert H. unfold CampusTeacherService.assignTeacherToCampus,
      Sql.insertTeacherCampus.
    run_call; intros H; catalogue_leaf.
  - revert H. unfold CampusTeacherService.removeTeacherFromCampus.
    run_call; intros H; catalogue_leaf.
  - revert H. unfold CampusTeacherService.updateTeacherCampusStatus,
      teacherSummary.
    run_call; intros H; catalogue_leaf.
  - revert H. unfold CampusTeacherService.setPrimaryCampus, teacherSummary.
    run_call; intros H; catalogue_leaf.
  - revert H. unfold TeacherCampusService.assignTeacherToCampus,
      teacherSummary, Sql.insertTeacherCampus.
    run_call; intros H; catalogue_leaf.
  - revert H. unfold TeacherCampusService.assignTeacherToClass,
      Sql.insertTeacherClassAssignment.
    run_call; intros H; catalogue_leaf.
    match goal with
    | L : forEachFrom _ _ _ _ = (_, inl _) |- _ =>
        apply subject_loop_throws_storage in L; destruct L as [L|L];
        subst; tauto
    end.
  - revert H. unfold TeacherCampusService.updateAssignmentStatus.
    run_call; intros H; catalogue_leaf.
  - revert H. unfold TeacherCampusService.removeTeacherFromCampus.
    run_call; intros H; catalogue_leaf.
  - revert H. unfold CampusStudentService.assignStudentToCampus,
      StudentCampusModel.create, CampusStudentService.rethrowTRPC.
    run_call; intros H; catalogue_leaf.
  - revert H. unfold CampusStudentService.removeStudentFromCampus,
      StudentCampusModel.delete, CampusStudentService.internalError.
    run_call; intros H; catalogue_leaf.
  - revert H. unfold CampusStudentService.updateStudentCampusStatus,
      StudentCampusModel.update, CampusStudentService.internalError.
    run_call; intros H; catalogue_leaf.
  - revert H. unfold CampusStudentService.setPrimaryCampus,
      StudentCampusModel.update, CampusStudentService.internalError.
    run_call; intros H; catalogue_leaf.
Qed.

Lemma thrown_errors_are_catalogued_witness :
  In (StorageError NotNullViolation)
     (mayThrow (CT_assignTeacherToCampus "admin" "C2" "T1" false 5)).
Proof.
  apply (thrown_errors_are_catalogued sampleOracle _ emptyStore).
  vm_compute. reflexivity.
Defined.

(** X3. No call of the three services, whether it returns or throws,
    changes a row of "User", "TeacherProfile", "Teacher", "Student", "Campus",
    "Class" or "Subject": in every store observable between the calls of
    a sequence these tables are those of the first store. *)
Theorem calls_write_assignment_tables_only us ops db0 :
  Forall (fun db => referenceTables db = referenceTables db0)
         (trace us ops db0).
Proof.
  apply trace_invariant; [|reflexivity].
  intros op db H. rewrite <- H. apply run_keeps_reference_tables.
Qed.

(** ** Who may manage the teachers of a campus *)

(** X4. The super-admin role replaces the campus permission in
    [assignTeacherToCampus] only: an actor who holds the role but not the
    permission MANAGE_CAMPUS_TEACHERS of the campus is never refused by
    the assignment, and is refused with FORBIDDEN by
    [removeTeacherFromCampus] and by [updateTeacherCampusStatus], which
    leave the store as it is. *)
Theorem super_admin_bypass_is_for_assignment_only
  us db actor campusId teacherId isPrimary status now :
  hasSuperAdminRole (findUnique User.id actor (user db)) = true ->
  CampusUserService.hasPermission us db actor campusId MANAGE_CAMPUS_TEACHERS
  = false ->
  thrown us (CT_assignTeacherToCampus actor campusId teacherId isPrimary
               now) db
  <> Some (TRPCError FORBIDDEN)
  /\ CampusTeacherService.removeTeacherFromCampus us actor campusId teacherId db
     = (db, inl (TRPCError FORBIDDEN))
  /\ CampusTeacherService.updateTeacherCampusStatus us actor campusId
       teacherId status now db
     = (db, inl (TRPCError FORBIDDEN)).
Proof.
  intros Hsa Hp. split; [|split].
  - unfold thrown, CampusTeacherService.assignTeacherToCampus,
      Sql.insertTeacherCampus.
    unfold_call. simpl. rewrite Hsa. simpl.
    repeat (break_inner; simpl); discriminate.
  - unfold CampusTeacherService.removeTeacherFromCampus.
    unfold_call. simpl. rewrite Hp. reflexivity.
  - unfold CampusTeacherService.updateTeacherCampusStatus.
    unfold_call. simpl. rewrite Hp. reflexivity.
Qed.

Lemma super_admin_bypass_is_for_assignment_only_witness :
  thrown sampleOracle
    (CT_assignTeacherToCampus "root" "C1" "T1" false 5) emptyStore
  <> Some (TRPCError FORBIDDEN)
  /\ CampusTeacherService.removeTeacherFromCampus sampleOracle
       "root" "C1" "T1" emptyStore
     = (emptyStore, inl (TRPCError FORBIDDEN))
  /\ CampusTeacherService.updateTeacherCampusStatus sampleOracle
       "root" "C1" "T1" INACTIVE 5 emptyStore
     = (emptyStore, inl (TRPCError FORBIDDEN)).
Proof.
  apply super_admin_bypass_is_for_assignment_only; vm_compute; reflexivity.
Defined.

(** ** When an assignment is accepted *)

(** X5. [assignTeacherToCampus] of CampusTeacherService never returns
    and never adds a row.  Its INSERT names no id, for a column that is
    NOT NULL and has no default: the call ends with the rejection of the
    storage exactly when the actor holds the super-admin role or the
    campus permission, the teacher profile and the campus exist, and the
    teacher has no assignment to the campus yet, of any status; it ends
    with FORBIDDEN, NOT_FOUND or CONFLICT otherwise.  The campus
    assignments after the call are those of before, up to the primary
    flags the clear step has reset. *)
Theorem CampusTeacherService_assign_never_returns
  us db actor campusId teacherId isPrimary now :
  thrown us (CT_assignTeacherToCampus actor campusId teacherId isPrimary
               now) db <> None
  /\ (thrown us (CT_assignTeacherToCampus actor campusId teacherId isPrimary
                   now) db = Some (StorageError NotNullViolation)
      <->
      (hasSuperAdminRole (findUnique User.id actor (user db))
       || CampusUserService.hasPermission us db actor campusId
            MANAGE_CAMPUS_TEACHERS = true)
      /\ hasKey TeacherProfile.id teacherId (teacherProfile db) = true
      /\ hasKey Campus.id campusId (campus db) = true
      /\ Sql.selectTeacherCampus teacherId campusId db = [])
  /\ map TeacherCampus.id
        (teacherCampus
           (run us (CT_assignTeacherToCampus actor campusId teacherId
                      isPrimary now) db))
     = map TeacherCampus.id (teacherCampus db).
Proof.
  unfold Sql.selectTeacherCampus, selectWhere.
  rewrite <- existsb_filter_nil, !hasKey_findUnique.
  unfold thrown, run, CampusTeacherService.assignTeacherToCampus,
    Sql.insertTeacherCampus, Sql.selectTeacherCampus, selectWhere.
  unfold_call. simpl.
  destruct (hasSuperAdminRole (findUnique User.id actor (user db))); simpl.
  2: destruct (CampusUserService.hasPermission us db actor campusId
                 MANAGE_CAMPUS_TEACHERS);
     simpl;
     [|split; [discriminate
              |split; [split; [discriminate | intros [? _]; discriminate]
                      |reflexivity]]].
  all: destruct (findUnique TeacherProfile.id teacherId (teacherProfile db))
         eqn:Ht; simpl;
       try (split; [discriminate
                   |split; [split; [discriminate
                                   |intros (_ & ? & _); discriminate]
                           |reflexivity]]).
  all: destruct (findUnique Campus.id campusId (campus db)) eqn:Hc; simpl;
       try (split; [discriminate
                   |split; [split; [discriminate
                                   |intros (_ & _ & ? & _); discriminate]
                           |reflexivity]]).
  all: rewrite ?positive_length_existsb;
       destruct (existsb (Sql.teacherCampusPair teacherId campusId)
                   (teacherCampus db)) eqn:He; simpl;
       try (split; [discriminate
                   |split; [split; [discriminate
                                   |intros (_ & _ & _ & ?); discriminate]
                           |reflexivity]]).
  all: destruct isPrimary; simpl;
       (split; [discriminate|split; [tauto|]]);
       try reflexivity;
       apply updateWhere_map_key; intros []; reflexivity.
Qed.

(** ** Status updates and the rest of a row *)

(** X6. A status update, of any of the three services and whether it
    returns or throws, changes nothing but the [status] and [updatedAt]
    columns: every campus assignment keeps its id, its person, its campus,
    its primary flag and its dates, no row is added or removed, and the
    class and subject assignments are untouched.  In particular an
    assignment made Inactive or Archived keeps its primary flag. *)
Theorem status_update_keeps_placement us op db :
  isStatusUpdate op = true ->
  teacherPlacement (run us op db) = teacherPlacement db
  /\ studentPlacement (run us op db) = studentPlacement db
  /\ teacherClassAssignment (run us op db) = teacherClassAssignment db
  /\ teacherSubjectAssignment (run us op db) = teacherSubjectAssignment db.
Proof.
  intros H. destruct op; try discriminate H;
    unfold run, teacherPlacement, studentPlacement.
  - unfold CampusTeacherService.updateTeacherCampusStatus, teacherSummary.
    run_call; repeat split; try reflexivity;
      apply updateWhere_map_key; intros []; reflexivity.
  - unfold TeacherCampusService.updateAssignmentStatus.
    run_call; repeat split; try reflexivity;
      apply updateWhere_map_key; intros []; reflexivity.
  - unfold CampusStudentService.updateStudentCampusStatus,
      StudentCampusModel.update.
    run_call; repeat split; try reflexivity;
      apply updateWhere_map_key; intros []; reflexivity.
Qed.

Lemma status_update_keeps_placement_witness :
  teacherPlacement
    (run sampleOracle (TC_updateAssignmentStatus "a2" ARCHIVED 9)
         storeTwoCampuses)
  = teacherPlacement storeTwoCampuses
  /\ studentPlacement
       (run sampleOracle (TC_updateAssignmentStatus "a2" ARCHIVED 9)
            storeTwoCampuses)
     = studentPlacement storeTwoCampuses
  /\ teacherClassAssignment
       (run sampleOracle (TC_updateAssignmentStatus "a2" ARCHIVED 9)
            storeTwoCampuses)
     = teacherClassAssignment storeTwoCampuses
  /\ teacherSubjectAssignment
       (run sampleOracle (TC_updateAssignmentStatus "a2" ARCHIVED 9)
            storeTwoCampuses)
     = teacherSubjectAssignment storeTwoCampuses.
Proof.
  apply status_update_keeps_placement. reflexivity.
Defined.

(** ** Assigning and removing again *)

Lemma with_teacherClassAssignment_self db :
  with_teacherClassAssignment (teacherClassAssignment db) db = db.
Proof. destruct db; reflexivity. Qed.

(** The store a returning, non-primary [assignTeacherToCampus] leaves. *)
Lemma TeacherCampusService_assign_nonprimary_store t c st now k db db1 res :
  TeacherCampusService.assignTeacherToCampus
    (TeacherCampusService.mkCampusData t c false st) now k db
  = (db1, inr res) ->
  db1 = with_teacherCampus
          (teacherCampus db
           ++ [TeacherCampus.mk k t c false
                 (match st with Some x => x | None => ACTIVE end)
                 now now now]) db
  /\ hasKey TeacherCampus.id k (teacherCampus db) = false
  /\ existsb (Sql.teacherCampusPair t c) (teacherCampus db) = false.
Proof.
  unfold TeacherCampusService.assignTeacherToCampus, teacherSummary,
    Sql.insertTeacherCampus.
  run_call; intros H; inversion H; subst; auto.
Qed.

(** What deleting the campus assignments of a pair does to a store in
    which the pair has the one row [row], appended last, that no class
    row refers to. *)
Lemma delete_appended_row t c row db :
  Sql.teacherCampusPair t c row = true ->
  existsb (Sql.teacherCampusPair t c) (teacherCampus db) = false ->
  (forall a, In a (teacherClassAssignment db) ->
     TeacherClassAssignment.teacherCampusId a <> TeacherCampus.id row) ->
  Sql.deleteTeacherCampus (Sql.teacherCampusPair t c)
    (with_teacherCampus (teacherCampus db ++ [row]) db)
  = db.
Proof.
  intros Hrow Hnone Hrefs.
  assert (Hsel : filter (Sql.teacherCampusPair t c) (teacherCampus db) = [])
    by (apply existsb_filter_nil; exact Hnone).
  unfold Sql.deleteTeacherCampus, Sql.deleteTeacherClassAssignment,
    Sql.deleteTeacherSubjectAssignment, selectWhere, deleteWhere.
  simpl. rewrite !filter_app. simpl. rewrite Hrow, Hsel. simpl.
  assert (Hcls :
    filter (fun a => (TeacherClassAssignment.teacherCampusId a
                      =? TeacherCampus.id row) || false)
           (teacherClassAssignment db) = []).
  { apply filter_none. intros a Ha.
    rewrite orb_false_r. apply String.eqb_neq. apply Hrefs. exact Ha. }
  rewrite Hcls. simpl.
  rewrite (filter_all _ (teacherSubjectAssignment db)) by reflexivity.
  rewrite (filter_all _ (teacherClassAssignment db)).
  2:{ intros a Ha. rewrite orb_false_r.
      apply negb_true_iff. apply String.eqb_neq. apply Hrefs. exact Ha. }
  rewrite app_nil_r.
  rewrite (filter_all _ (teacherCampus db)).
  2:{ intros r Hr. apply negb_true_iff.
      eapply existsb_false_forall; eauto. }
  destruct db; reflexivity.
Qed.

(** X7. Assigning a teacher to a campus through TeacherCampusService,
    not as the primary campus and with any status, and removing the
    teacher from that campus again gives back the store as it was before
    the assignment, class and subject assignments included, in a store
    whose class assignments refer to existing campus assignments.  The
    removal of CampusTeacherService does so for an actor with the campus
    permission, that of TeacherCampusService under the primary key and
    the unique index of the table.  (A primary assignment has demoted the
    earlier primary campus, which the removal does not restore.) *)
Theorem assign_then_remove_restores
  us actor campusId teacherId st now rowId db db1 res :
  classRowsRefer db ->
  TeacherCampusService.assignTeacherToCampus
    (TeacherCampusService.mkCampusData teacherId campusId false st)
    now rowId db = (db1, inr res) ->
  (CampusUserService.hasPermission us db1 actor campusId
     MANAGE_CAMPUS_TEACHERS = true ->
   CampusTeacherService.removeTeacherFromCampus us actor campusId teacherId
     db1 = (db, inr tt))
  /\ (NoDup (map TeacherCampus.id (teacherCampus db)) ->
      teacherPairsUnique (teacherCampus db) ->
      TeacherCampusService.removeTeacherFromCampus teacherId campusId db1
      = (db, inr tt)).
Proof.
  intros Hfk Hassign.
  apply TeacherCampusService_assign_nonprimary_store in Hassign.
  destruct Hassign as (-> & Hfresh & Hnone).
  set (row := TeacherCampus.mk rowId teacherId campusId false
                (match st with Some x => x | None => ACTIVE end)
                now now now).
  assert (Hrow : Sql.teacherCampusPair teacherId campusId row = true)
    by (unfold Sql.teacherCampusPair; simpl; rewrite !String.eqb_refl;
        reflexivity).
  assert (Hne : Sql.selectTeacherCampus teacherId campusId
                  (with_teacherCampus (teacherCampus db ++ [row]) db) <> []).
  { unfold Sql.selectTeacherCampus, selectWhere. simpl.
    rewrite filter_app. simpl. rewrite Hrow.
    intros E. apply app_eq_nil in E. destruct E as [_ E]. discriminate E. }
  assert (Hback : Sql.deleteTeacherCampus
                    (Sql.teacherCampusPair teacherId campusId)
                    (with_teacherCampus (teacherCampus db ++ [row]) db) = db).
  { apply delete_appended_row; auto.
    intros a Ha E. simpl in E. apply Hfk in Ha. rewrite E in Ha.
    congruence. }
  split.
  - intros Hperm.
    rewrite (CampusTeacherService_remove_store _ _ _ _ _ Hperm Hne).
    rewrite Hback. reflexivity.
  - intros Hid Hpair.
    rewrite (TeacherCampusService_remove_store _ _ _); auto.
    + rewrite Hback. reflexivity.
    + simpl. apply NoDup_map_snoc; auto. apply hasKey_false. exact Hfresh.
    + simpl. unfold teacherPairsUnique, pairsUnique.
      apply NoDup_map_snoc; auto. simpl. apply no_pair_not_in.
      apply existsb_false_forall. exact Hnone.
Qed.

Lemma assign_then_remove_restores_witness :
  CampusTeacherService.removeTeacherFromCampus sampleOracle "admin" "C1" "T1"
    (fst (TeacherCampusService.assignTeacherToCampus
            (TeacherCampusService.mkCampusData "T1" "C1" false (Some INACTIVE))
            5 "a1" (sampleStore [rowT1C2 true ACTIVE] [] [] [])))
  = (sampleStore [rowT1C2 true ACTIVE] [] [] [], inr tt)
  /\ TeacherCampusService.removeTeacherFromCampus "T1" "C1"
       (fst (TeacherCampusService.assignTeacherToCampus
               (TeacherCampusService.mkCampusData "T1" "C1" false
                  (Some INACTIVE))
               5 "a1" (sampleStore [rowT1C2 true ACTIVE] [] [] [])))
     = (sampleStore [rowT1C2 true ACTIVE] [] [] [], inr tt).
Proof.
  destruct (assign_then_remove_restores sampleOracle "admin" "C1" "T1"
              (Some INACTIVE) 5%Z "a1"
              (sampleStore [rowT1C2 true ACTIVE] [] [] [])
              (fst (TeacherCampusService.assignTeacherToCampus
                      (TeacherCampusService.mkCampusData "T1" "C1" false
                         (Some INACTIVE))
                      5 "a1" (sampleStore [rowT1C2 true ACTIVE] [] [] [])))
              (TeacherCampusAssignment.mk (Some "a1") "T1" "C1" false INACTIVE
                 5 (Campus.mk "C1" "North")
                 (TeacherSummary.mk "T1"
                    (UserSummary.mk "u1" (Some "Tom") (Some "tom@lxp")))))
    as [Hct Htc].
  - intros a [].
  - vm_compute. reflexivity.
  - split.
    + apply Hct. reflexivity.
    + apply Htc.
      * repeat constructor; simpl; intuition discriminate.
      * unfold teacherPairsUnique, pairsUnique.
        repeat constructor; simpl; intuition discriminate.
Defined.

(** ** The two teacher services against each other *)

(** X8. For an actor allowed to manage the teachers of the campus (by
    role or by permission), a teacher the foreign key can refer to and a
    row id that is not in use,
    [assignTeacherToCampus] of CampusTeacherService and
    [assignTeacherToCampus] of TeacherCampusService, called without a
    status, run the same tests and the same demotion and part at the
    INSERT: they end with the same tRPC errors, leaving the same store;
    and when the tests pass, the first is rejected for its missing id
    while the second inserts its row, so that the store the second leaves
    is the store the first leaves with that row appended. *)
Theorem two_assignments_differ_by_the_insert
  us actor campusId teacherId isPrimary now rowId db :
  hasSuperAdminRole (findUnique User.id actor (user db))
  || CampusUserService.hasPermission us db actor campusId
       MANAGE_CAMPUS_TEACHERS = true ->
  hasKey Teacher.id teacherId (teacher db) = true ->
  hasKey TeacherCampus.id rowId (teacherCampus db) = false ->
  (forall code,
      thrown us (CT_assignTeacherToCampus actor campusId teacherId isPrimary
                   now) db = Some (TRPCError code)
      <-> thrown us (TC_assignTeacherToCampus
                       (TeacherCampusService.mkCampusData teacherId campusId
                          isPrimary None) now rowId) db
          = Some (TRPCError code))
  /\ (thrown us (CT_assignTeacherToCampus actor campusId teacherId isPrimary
                   now) db <> Some (StorageError NotNullViolation) ->
      run us (TC_assignTeacherToCampus
                (TeacherCampusService.mkCampusData teacherId campusId
                   isPrimary None) now rowId) db
      = run us (CT_assignTeacherToCampus actor campusId teacherId isPrimary
                  now) db)
  /\ (thrown us (CT_assignTeacherToCampus actor campusId teacherId isPrimary
                   now) db = Some (StorageError NotNullViolation) ->
      run us (TC_assignTeacherToCampus
                (TeacherCampusService.mkCampusData teacherId campusId
                   isPrimary None) now rowId) db
      = with_teacherCampus
          (teacherCampus
             (run us (CT_assignTeacherToCampus actor campusId teacherId
                        isPrimary now) db)
           ++ [TeacherCampus.mk rowId teacherId campusId isPrimary ACTIVE
                 now now now])
          (run us (CT_assignTeacherToCampus actor campusId teacherId
                     isPrimary now) db)).
Proof.
  intros Hallowed Hrow Hfresh. unfold thrown, run,
    CampusTeacherService.assignTeacherToCampus,
    TeacherCampusService.assignTeacherToCampus,
    Sql.insertTeacherCampus, Sql.selectTeacherCampus, selectWhere,
    findTeacherWithUser, teacherSummary.
  unfold_call. simpl.
  destruct (hasSuperAdminRole (findUnique User.id actor (user db))); simpl.
  2: simpl in Hallowed; rewrite Hallowed; simpl.
  all: destruct (findUnique TeacherProfile.id teacherId (teacherProfile db))
         eqn:Ht; simpl;
       [|split; [tauto|split; [reflexivity|discriminate]]].
  all: destruct (findUnique Campus.id campusId (campus db)) eqn:Hc; simpl;
       [|split; [tauto|split; [reflexivity|discriminate]]].
  all: destruct (filter (Sql.teacherCampusPair teacherId campusId)
                   (teacherCampus db)) eqn:He; simpl;
       [|split; [tauto|split; [reflexivity|discriminate]]].
  all: apply existsb_filter_nil in He.
  all: destruct isPrimary; simpl;
       rewrite ?hasKey_updateWhere, ?existsb_updateWhere, ?Hfresh, ?He
         by (intros []; reflexivity);
       simpl;
       rewrite ?Hrow, ?(findUnique_hasKey _ _ _ _ Hc);
       simpl;
       (split; [intros code|split; [intros N; contradiction N; reflexivity
                                   |intros _]]);
       repeat (break_inner; simpl);
       try reflexivity; split; discriminate.
Qed.

Lemma two_assignments_differ_by_the_insert_witness :
  run sampleOracle
    (TC_assignTeacherToCampus
       (TeacherCampusService.mkCampusData "T1" "C2" true None) 5 "a2")
    (sampleStore [rowT1C1 true ARCHIVED] [] [] [])
  = with_teacherCampus
      (teacherCampus
         (run sampleOracle (CT_assignTeacherToCampus "admin" "C2" "T1" true 5)
              (sampleStore [rowT1C1 true ARCHIVED] [] [] []))
       ++ [TeacherCampus.mk "a2" "T1" "C2" true ACTIVE 5 5 5])
      (run sampleOracle (CT_assignTeacherToCampus "admin" "C2" "T1" true 5)
           (sampleStore [rowT1C1 true ARCHIVED] [] [] [])).
Proof.
  apply (two_assignments_differ_by_the_insert sampleOracle "admin" "C2" "T1"
           true 5%Z "a2" (sampleStore [rowT1C1 true ARCHIVED] [] [] []));
    reflexivity.
Defined.

(** X9. Under the primary key of "TeacherCampus" and its unique index on
    (teacherId, campusId), and for an actor with the campus permission,
    [removeTeacherFromCampus] of CampusTeacherService (one DELETE, the
    foreign keys cascading) and [removeTeacherFromCampus] of
    TeacherCampusService (three DELETEs in a transaction) leave the same
    store. *)
Theorem two_removals_write_the_same us actor campusId teacherId db :
  NoDup (map TeacherCampus.id (teacherCampus db)) ->
  teacherPairsUnique (teacherCampus db) ->
  CampusUserService.hasPermission us db actor campusId
    MANAGE_CAMPUS_TEACHERS = true ->
  run us (CT_removeTeacherFromCampus actor campusId teacherId) db
  = run us (TC_removeTeacherFromCampus teacherId campusId) db.
Proof.
  intros Hid Hpair Hperm. unfold run.
  destruct (Sql.selectTeacherCampus teacherId campusId db) as [|r rest]
    eqn:Hsel.
  - unfold CampusTeacherService.removeTeacherFromCampus,
      TeacherCampusService.removeTeacherFromCampus.
    unfold_call. rewrite Hperm. simpl. rewrite !Hsel. reflexivity.
  - assert (Hne : Sql.selectTeacherCampus teacherId campusId db <> [])
      by (rewrite Hsel; discriminate).
    rewrite (CampusTeacherService_remove_store _ _ _ _ _ Hperm Hne).
    rewrite (TeacherCampusService_remove_store _ _ _ Hid Hpair Hne).
    reflexivity.
Qed.

Lemma two_removals_write_the_same_witness :
  run sampleOracle (CT_removeTeacherFromCampus "admin" "C1" "T1")
      storeWithClass
  = run sampleOracle (TC_removeTeacherFromCampus "T1" "C1") storeWithClass.
Proof.
  apply two_removals_write_the_same.
  - repeat constructor; simpl; intuition discriminate.
  - unfold teacherPairsUnique, pairsUnique.
    repeat constructor; simpl; intuition discriminate.
  - reflexivity.
Defined.

(** ** The campuses of a teacher *)

(** The entry [getCampusesForTeacher] makes of a row of its join. *)
Lemma getCampusesForTeacher_result viewer t inc db :
  CampusTeacherViews.getCampusesForTeacher viewer t inc db
  = (db,
     match findUnique TeacherProfile.id t (teacherProfile db) with
     | None => inl (TRPCError NOT_FOUND)
     | Some _ =>
         inr (map (fun row =>
                     CampusWithAssignment.mk
                       (Campus.id (fst row)) (Campus.name (fst row))
                       (TeacherCampus.status (snd row))
                       (TeacherCampus.isPrimary (snd row))
                       (TeacherCampus.joinedAt (snd row))
                       (TeacherCampus.campusId (snd row)))
                  (CampusTeacherViews.selectCampusesOfTeacher t inc db))
     end).
Proof.
  unfold CampusTeacherViews.getCampusesForTeacher. unfold_call. simpl.
  destruct (findUnique TeacherProfile.id t (teacherProfile db)); reflexivity.
Qed.

Lemma selectCampusesOfTeacher_active t db :
  CampusTeacherViews.selectCampusesOfTeacher t false db
  = filter (fun row => Status_eqb (TeacherCampus.status (snd row)) ACTIVE)
           (CampusTeacherViews.selectCampusesOfTeacher t true db).
Proof.
  unfold CampusTeacherViews.selectCampusesOfTeacher, selectWhere,
    statusCondition.
  induction (teacherCampus db) as [|tc tcs IH]; simpl in *; auto.
  destruct (TeacherCampus.teacherId tc =? t); simpl in *; auto.
  destruct (Status_eqb (TeacherCampus.status tc) ACTIVE) eqn:E; simpl.
  - rewrite filter_app, <- IH. f_equal.
    symmetry. apply filter_all. intros row Hrow.
    apply in_map_iff in Hrow. destruct Hrow as [c [<- _]]. exact E.
  - rewrite filter_app, <- IH.
    rewrite (filter_none _ (map _ _)); auto.
    intros row Hrow.
    apply in_map_iff in Hrow. destruct Hrow as [c [<- _]]. exact E.
Qed.

(** X10. What [getCampusesForTeacher] lists by default is what it lists
    with [includeInactive], less the entries that are not Active, in the
    same order; the two calls fail alike, with NOT_FOUND when there is no
    such teacher profile. *)
Theorem default_campus_list_is_the_active_part viewer teacherId db :
  snd (CampusTeacherViews.getCampusesForTeacher viewer teacherId false db)
  = match snd (CampusTeacherViews.getCampusesForTeacher viewer teacherId
                 true db) with
    | inl e => inl e
    | inr l =>
        inr (filter (fun e => Status_eqb (CampusWithAssignment.status e)
                                         ACTIVE) l)
    end.
Proof.
  rewrite !getCampusesForTeacher_result. simpl.
  destruct (findUnique TeacherProfile.id teacherId (teacherProfile db));
    [|reflexivity].
  f_equal. rewrite selectCampusesOfTeacher_active.
  induction (CampusTeacherViews.selectCampusesOfTeacher teacherId true db)
    as [|row rows IH]; simpl; auto.
  destruct (Status_eqb (TeacherCampus.status (snd row)) ACTIVE); simpl;
    rewrite IH; reflexivity.
Qed.

(** The store a returning [assignTeacherToCampus] leaves, and what it has
    looked up. *)
Lemma TeacherCampusService_assign_returned t c p st now k db db1 res :
  TeacherCampusService.assignTeacherToCampus
    (TeacherCampusService.mkCampusData t c p st) now k db
  = (db1, inr res) ->
  (exists rows,
      db1 = with_teacherCampus
              (rows ++ [TeacherCampus.mk k t c p
                          (match st with Some x => x | None => ACTIVE end)
                          now now now]) db)
  /\ (exists tp, findUnique TeacherProfile.id t (teacherProfile db) = Some tp)
  /\ (exists c0, findUnique Campus.id c (campus db) = Some c0
                 /\ TeacherCampusAssignment.campus res
                    = Campus.mk (Campus.id c0) (Campus.name c0)).
Proof.
  unfold TeacherCampusService.assignTeacherToCampus, findTeacherWithUser,
    teacherSummary, Sql.insertTeacherCampus.
  run_call; intros H; inversion H; subst; simpl;
    (split;
     [ eexists; reflexivity
     | split; [ eexists; reflexivity | eexists; split; reflexivity ] ]).
Qed.

(** X11. Once [assignTeacherToCampus] of TeacherCampusService has
    returned, [getCampusesForTeacher] for that teacher, whoever asks,
    returns; its list has the entry of the new assignment (the campus with
    its name, the status and the flag requested, joined at the time of the
    call) exactly when the status passes the filter of the call: always
    with the inactive entries, and by default when the assignment was
    created Active. *)
Theorem assigned_campus_is_listed
  viewer campusId teacherId isPrimary st now rowId inc db db1 res :
  TeacherCampusService.assignTeacherToCampus
    (TeacherCampusService.mkCampusData teacherId campusId isPrimary st)
    now rowId db = (db1, inr res) ->
  exists l,
    CampusTeacherViews.getCampusesForTeacher viewer teacherId inc db1
    = (db1, inr l)
    /\ (In (CampusWithAssignment.mk campusId
              (Campus.name (TeacherCampusAssignment.campus res))
              (match st with Some x => x | None => ACTIVE end)
              isPrimary now campusId) l
        <-> statusCondition inc
              (match st with Some x => x | None => ACTIVE end) = true).
Proof.
  intros H. apply TeacherCampusService_assign_returned in H.
  destruct H as ([rows ->] & [tp Htp] & [c0 [Hc0 Hres]]).
  rewrite getCampusesForTeacher_result. simpl. rewrite Htp.
  eexists. split; [reflexivity|].
  rewrite Hres. simpl.
  apply findUnique_some in Hc0. destruct Hc0 as [Hin Hid].
  split.
  - intros He. apply in_map_iff in He. destruct He as [[c tc] [Heq Hrow]].
    simpl in Heq.
    unfold CampusTeacherViews.selectCampusesOfTeacher, selectWhere in Hrow.
    apply in_flat_map in Hrow. destruct Hrow as [tc' [Htc' Hc]].
    apply in_map_iff in Hc. destruct Hc as [c' [Heq' _]].
    inversion Heq'; subst c' tc'; clear Heq'.
    apply filter_In in Htc'. destruct Htc' as [_ Hsel].
    apply andb_true_iff in Hsel. destruct Hsel as [_ Hst].
    assert (Hs := f_equal CampusWithAssignment.status Heq). simpl in Hs.
    rewrite <- Hs. exact Hst.
  - intros Hst. apply in_map_iff.
    exists (c0, TeacherCampus.mk rowId teacherId campusId isPrimary
                  (match st with Some x => x | None => ACTIVE end)
                  now now now).
    simpl. split; [rewrite Hid; reflexivity|].
    unfold CampusTeacherViews.selectCampusesOfTeacher, selectWhere. simpl.
    apply in_flat_map.
    exists (TeacherCampus.mk rowId teacherId campusId isPrimary
              (match st with Some x => x | None => ACTIVE end)
              now now now).
    split.
    + apply filter_In. split; [apply in_or_app; right; left; reflexivity|].
      simpl. rewrite String.eqb_refl. simpl. exact Hst.
    + apply in_map_iff. exists c0. split; [reflexivity|].
      apply filter_In. split; auto. simpl.
      apply String.eqb_eq. exact Hid.
Qed.

Lemma assigned_campus_is_listed_witness :
  exists l,
    CampusTeacherViews.getCampusesForTeacher "u1" "T1" false
      (sampleStore [TeacherCampus.mk "a1" "T1" "C1" true ACTIVE 5 5 5]
                   [] [] [])
    = (sampleStore [TeacherCampus.mk "a1" "T1" "C1" true ACTIVE 5 5 5]
                   [] [] [],
       inr l)
    /\ (In (CampusWithAssignment.mk "C1" "North" ACTIVE true 5 "C1") l
        <-> statusCondition false ACTIVE = true).
Proof.
  apply (assigned_campus_is_listed "u1" "C1" "T1" true None
           5 "a1" false emptyStore
           (sampleStore [TeacherCampus.mk "a1" "T1" "C1" true ACTIVE 5 5 5]
                        [] [] [])
           (TeacherCampusAssignment.mk (Some "a1") "T1" "C1" true ACTIVE 5
              (Campus.mk "C1" "North")
              (TeacherSummary.mk "T1"
                 (UserSummary.mk "u1" (Some "Tom") (Some "tom@lxp"))))).
  vm_compute. reflexivity.
Defined.

(** X12. Once [removeTeacherFromCampus] has returned,
    [getCampusesForTeacher] for that teacher lists no entry of the campus
    any more, with or without the inactive entries. *)
Theorem removed_campus_is_not_listed
  us actor viewer campusId teacherId inc db db1 l :
  CampusTeacherService.removeTeacherFromCampus us actor campusId teacherId db
  = (db1, inr tt) ->
  snd (CampusTeacherViews.getCampusesForTeacher viewer teacherId inc db1)
  = inr l ->
  forall e, In e l -> CampusWithAssignment.campusId e <> campusId.
Proof.
  intros Hrm Hview e He.
  assert (Hrows : teacherCampus db1
                  = filter (fun r => negb (Sql.teacherCampusPair teacherId
                                             campusId r))
                           (teacherCampus db)).
  { revert Hrm. unfold CampusTeacherService.removeTeacherFromCampus.
    run_call; intros H; inversion H; subst; reflexivity. }
  rewrite getCampusesForTeacher_result in Hview. simpl in Hview.
  destruct (findUnique TeacherProfile.id teacherId (teacherProfile db1));
    [|discriminate].
  inversion Hview; subst l; clear Hview.
  apply in_map_iff in He. destruct He as [[c tc] [<- Hrow]]. simpl.
  unfold CampusTeacherViews.selectCampusesOfTeacher, selectWhere in Hrow.
  apply in_flat_map in Hrow. destruct Hrow as [tc' [Htc' Hc]].
  apply in_map_iff in Hc. destruct Hc as [c' [Heq _]].
  inversion Heq; subst c' tc'; clear Heq.
  apply filter_In in Htc'. destruct Htc' as [Htc Hsel].
  rewrite Hrows in Htc. apply filter_In in Htc. destruct Htc as [_ Hpair].
  apply andb_true_iff in Hsel. destruct Hsel as [Ht _].
  unfold Sql.teacherCampusPair in Hpair. rewrite Ht in Hpair. simpl in Hpair.
  apply negb_true_iff in Hpair. apply String.eqb_neq. exact Hpair.
Qed.

Lemma removed_campus_is_not_listed_witness :
  CampusWithAssignment.campusId
    (CampusWithAssignment.mk "C2" "South" ACTIVE true 2 "C2")
  <> "C1".
Proof.
  apply (removed_campus_is_not_listed sampleOracle "admin" "u1" "C1" "T1"
           true storeTwoCampuses
           (sampleStore [rowT1C2 true ACTIVE] [] [] [])
           [CampusWithAssignment.mk "C2" "South" ACTIVE true 2 "C2"]).
  - vm_compute. reflexivity.
  - vm_compute. reflexivity.
  - left. reflexivity.
Defined.

Lemma NoDup_key_at_most_one {R} (key : R -> string) k rows :
  NoDup (map key rows) ->
  (List.length (filter (fun r => (key r =? k)%string) rows) <= 1)%nat.
Proof.
  induction rows as [|r rows IH]; simpl; intros Hd; auto.
  inversion Hd as [|? ? Hn Hd']; subst.
  destruct (String.eqb_spec (key r) k) as [E|E]; simpl; auto.
  rewrite (filter_none _ rows); simpl; auto.
  intros x Hx. apply String.eqb_neq. intros Ex. apply Hn.
  rewrite E, <- Ex. apply in_map. exact Hx.
Qed.

(** The entries flagged primary in the list of a teacher are at most as
    many as the rows flagged primary for the teacher, when campus ids are
    unique. *)
Lemma primary_entries_le_primary_rows t inc cs tcs :
  NoDup (map Campus.id cs) ->
  (List.length
     (filter CampusWithAssignment.isPrimary
        (map (fun row =>
                CampusWithAssignment.mk
                  (Campus.id (fst row)) (Campus.name (fst row))
                  (TeacherCampus.status (snd row))
                  (TeacherCampus.isPrimary (snd row))
                  (TeacherCampus.joinedAt (snd row))
                  (TeacherCampus.campusId (snd row)))
             (flat_map
                (fun tc =>
                   map (fun c => (c, tc))
                       (selectWhere
                          (fun c => (Campus.id c
                                     =? TeacherCampus.campusId tc)%string)
                          cs))
                (selectWhere
                   (fun tc => ((TeacherCampus.teacherId tc =? t)%string
                               && statusCondition inc
                                    (TeacherCampus.status tc))%bool)
                   tcs))))
   <= primaries TeacherCampus.teacherId TeacherCampus.isPrimary t tcs)%nat.
Proof.
  intros Hd. unfold primaries, primaryOf, selectWhere.
  induction tcs as [|tc tcs IH]; simpl; auto.
  destruct (TeacherCampus.teacherId tc =? t); simpl; auto.
  destruct (statusCondition inc (TeacherCampus.status tc)); simpl.
  - rewrite map_app, filter_app, length_app.
    pose proof (NoDup_key_at_most_one Campus.id (TeacherCampus.campusId tc)
                  cs Hd) as Hone.
    destruct (TeacherCampus.isPrimary tc) eqn:Ep; simpl.
    + assert (Hle : (List.length
                (filter CampusWithAssignment.isPrimary
                   (map (fun row : Campus.t * TeacherCampus.t =>
                      CampusWithAssignment.mk
                        (Campus.id (fst row)) (Campus.name (fst row))
                        (TeacherCampus.status (snd row))
                        (TeacherCampus.isPrimary (snd row))
                        (TeacherCampus.joinedAt (snd row))
                        (TeacherCampus.campusId (snd row)))
                      (map (fun c => (c, tc))
                         (filter (fun c => (Campus.id c
                                            =? TeacherCampus.campusId tc)
                                           %string) cs))))
                <= 1)%nat).
      { eapply Nat.le_trans; [apply filter_length_le|].
        rewrite !length_map. exact Hone. }
      lia.
    + rewrite (filter_none _ (map _ (map _ _))); simpl; auto.
      intros e He. apply in_map_iff in He. destruct He as [row [<- Hrow]].
      apply in_map_iff in Hrow. destruct Hrow as [c [<- _]]. exact Ep.
  - destruct (TeacherCampus.isPrimary tc); simpl; lia.
Qed.

(** X13. In a store that respects the unique indexes, has at most one
    row flagged primary per person and distinct campus ids, and in every
    store observable after any sequence of calls of the services from
    there, the list [getCampusesForTeacher] returns for a teacher has at
    most one entry flagged primary, with or without the inactive
    entries. *)
Theorem campus_lists_show_at_most_one_primary
  us ops db0 viewer teacherId inc :
  PrimaryInv db0 ->
  NoDup (map Campus.id (campus db0)) ->
  Forall
    (fun db =>
       forall l,
         snd (CampusTeacherViews.getCampusesForTeacher viewer teacherId inc db)
         = inr l ->
         (List.length (filter CampusWithAssignment.isPrimary l) <= 1)%nat)
    (trace us ops db0).
Proof.
  intros Hinv Hd.
  pose proof (PrimaryInv_trace us ops db0 Hinv) as Hp.
  assert (Hr : Forall (fun db => campus db = campus db0) (trace us ops db0)).
  { apply trace_invariant; [|reflexivity].
    intros op db H. rewrite <- H.
    pose proof (run_keeps_reference_tables us op db) as E.
    unfold referenceTables in E. congruence. }
  rewrite Forall_forall in *. intros db Hdb l Hview.
  specialize (Hp db Hdb). specialize (Hr db Hdb).
  rewrite getCampusesForTeacher_result in Hview. simpl in Hview.
  destruct (findUnique TeacherProfile.id teacherId (teacherProfile db));
    [|discriminate].
  inversion Hview; subst l; clear Hview.
  unfold CampusTeacherViews.selectCampusesOfTeacher.
  eapply Nat.le_trans.
  - apply primary_entries_le_primary_rows. rewrite Hr. exact Hd.
  - destruct Hp as [[_ Hone] _]. apply Hone.
Qed.

Lemma campus_lists_show_at_most_one_primary_witness :
  Forall
    (fun db =>
       forall l,
         snd (CampusTeacherViews.getCampusesForTeacher "u1" "T1" true db)
         = inr l ->
         (List.length (filter CampusWithAssignment.isPrimary l) <= 1)%nat)
    (trace sampleOracle
       [TC_assignTeacherToCampus
          (TeacherCampusService.mkCampusData "T1" "C1" true None) 5 "a1";
        TC_assignTeacherToCampus
          (TeacherCampusService.mkCampusData "T1" "C2" true None) 6 "a2";
        CT_assignTeacherToCampus "admin" "C3" "T1" true 7]
       emptyStore).
Proof.
  apply campus_lists_show_at_most_one_primary.
  - split; split; cbn -[String.eqb]; try constructor; intros; simpl; lia.
  - repeat constructor; simpl; intuition discriminate.
Defined.

(** ** The campuses of a student *)

Lemma student_entries_total cs rows :
  (forall sc, In sc rows ->
     hasKey Campus.id (StudentCampus.campusId sc) cs = true) ->
  exists l,
    mapThrowing
      (fun assignment : StudentCampus.t * option Campus.t =>
         match snd assignment with
         | Some c =>
             inr (CampusWithAssignment.mk
                    (Campus.id c) (Campus.name c)
                    (StudentCampus.status (fst assignment))
                    (StudentCampus.isPrimary (fst assignment))
                    (StudentCampus.joinedAt (fst assignment))
                    (StudentCampus.campusId (fst assignment)))
         | None => inl TypeError
         end)
      (map (fun sc => (sc, findUnique Campus.id (StudentCampus.campusId sc) cs))
           rows)
    = inr l
    /\ map (fun e => (CampusWithAssignment.campusId e,
                      CampusWithAssignment.status e,
                      CampusWithAssignment.isPrimary e,
                      CampusWithAssignment.joinedAt e)) l
       = map (fun sc => (StudentCampus.campusId sc, StudentCampus.status sc,
                         StudentCampus.isPrimary sc, StudentCampus.joinedAt sc))
             rows
    /\ forall e, In e l ->
         CampusWithAssignment.id e = CampusWithAssignment.campusId e.
Proof.
  induction rows as [|sc rows IH]; simpl; intros Hfk.
  - exists []. simpl. repeat split; auto. intros e [].
  - destruct IH as [l (Hl & Hmap & Hid)];
      [intros x Hx; apply Hfk; auto|].
    pose proof (Hfk sc (or_introl eq_refl)) as Hc.
    rewrite hasKey_findUnique in Hc.
    destruct (findUnique Campus.id (StudentCampus.campusId sc) cs) as [c|]
      eqn:E; [|discriminate].
    rewrite Hl. eexists. split; [reflexivity|]. simpl. split.
    + rewrite Hmap. reflexivity.
    + intros e [<-|He]; auto. simpl.
      apply findUnique_some in E. tauto.
Qed.

(** X14. In a store whose student assignments refer to existing
    campuses, [getCampusesForStudent] always returns, writes nothing and
    lists one entry per assignment of the student that matches the status
    filter, in table order, with the campus, status, primary flag and
    join date of the assignment.  The student itself is not looked up: a
    student id that is not in the store gets the empty list, where
    [getCampusesForTeacher] throws NOT_FOUND. *)
Theorem student_campus_list_mirrors_rows viewer studentId inc db :
  studentRowsRefer db ->
  exists l,
    CampusStudentViews.getCampusesForStudent viewer studentId inc db
    = (db, inr l)
    /\ map (fun e => (CampusWithAssignment.campusId e,
                      CampusWithAssignment.status e,
                      CampusWithAssignment.isPrimary e,
                      CampusWithAssignment.joinedAt e)) l
       = map (fun sc => (StudentCampus.campusId sc, StudentCampus.status sc,
                         StudentCampus.isPrimary sc, StudentCampus.joinedAt sc))
             (selectWhere
                (fun sc => (StudentCampus.studentId sc =? studentId)
                           && statusCondition inc (StudentCampus.status sc))
                (studentCampus db))
    /\ forall e, In e l ->
         CampusWithAssignment.id e = CampusWithAssignment.campusId e.
Proof.
  intros Hfk.
  destruct (student_entries_total (campus db)
              (selectWhere
                 (fun sc => (StudentCampus.studentId sc =? studentId)
                            && statusCondition inc (StudentCampus.status sc))
                 (studentCampus db)))
    as [l (Hl & Hmap & Hid)].
  { intros sc Hsc. apply filter_In in Hsc. apply Hfk. tauto. }
  exists l. split; [|split; assumption].
  unfold CampusStudentViews.getCampusesForStudent,
    CampusStudentViews.findManyWithCampus, compute.
  unfold_call. simpl. rewrite Hl. reflexivity.
Qed.

Lemma student_campus_list_mirrors_rows_witness :
  exists l,
    CampusStudentViews.getCampusesForStudent "u2" "St1" false storeStudent
    = (storeStudent, inr l)
    /\ map (fun e => (CampusWithAssignment.campusId e,
                      CampusWithAssignment.status e,
                      CampusWithAssignment.isPrimary e,
                      CampusWithAssignment.joinedAt e)) l
       = map (fun sc => (StudentCampus.campusId sc, StudentCampus.status sc,
                         StudentCampus.isPrimary sc, StudentCampus.joinedAt sc))
             (selectWhere
                (fun sc => (StudentCampus.studentId sc =? "St1")
                           && statusCondition false (StudentCampus.status sc))
                (studentCampus storeStudent))
    /\ forall e, In e l ->
         CampusWithAssignment.id e = CampusWithAssignment.campusId e.
Proof.
  apply student_campus_list_mirrors_rows.
  intros sc [<-|[]]. reflexivity.
Defined.

(** ** The procedures of the router *)

(** X15. The procedure [getTeacherCampuses] returns only to a logged-in
    user, writes nothing, and lists Active assignments only: it passes no
    [includeInactive] to the service. *)
Theorem router_lists_active_campuses_only session teacherId db db1 l :
  CampusRouter.getTeacherCampuses session teacherId db = (db1, inr l) ->
  db1 = db
  /\ session <> None
  /\ forall e, In e l -> CampusWithAssignment.status e = ACTIVE.
Proof.
  unfold CampusRouter.getTeacherCampuses, CampusRouter.withSession.
  destruct session as [userId|]; [|discriminate].
  rewrite getCampusesForTeacher_result.
  destruct (findUnique TeacherProfile.id teacherId (teacherProfile db));
    [|discriminate].
  intros H. inversion H; subst; clear H.
  split; [reflexivity|]. split; [discriminate|].
  intros e He. apply in_map_iff in He. destruct He as [row [<- Hrow]]. simpl.
  rewrite selectCampusesOfTeacher_active in Hrow.
  apply filter_In in Hrow. destruct Hrow as [_ Hrow].
  destruct (TeacherCampus.status (snd row)); simpl in Hrow;
    try discriminate; reflexivity.
Qed.

Lemma router_lists_active_campuses_only_witness :
  storeTwoCampuses = storeTwoCampuses
  /\ Some "u1" <> None
  /\ forall e,
       In e [CampusWithAssignment.mk "C1" "North" ACTIVE false 1 "C1";
             CampusWithAssignment.mk "C2" "South" ACTIVE true 2 "C2"] ->
       CampusWithAssignment.status e = ACTIVE.
Proof.
  apply (router_lists_active_campuses_only (Some "u1") "T1" storeTwoCampuses).
  vm_compute. reflexivity.
Defined.

(** X16. The procedure [assignTeacherToCampus] called without
    [isPrimary] never touches a row: the flag defaults to false, so no
    clear step runs before the INSERT of the service is rejected, and
    whatever the outcome of its tests the call throws and leaves the store
    as it was. *)
Theorem router_assignment_defaults_to_non_primary
  us session campusId teacherId now db :
  fst (CampusRouter.assignTeacherToCampus us session campusId teacherId None
         now db) = db
  /\ exists e,
       snd (CampusRouter.assignTeacherToCampus us session campusId teacherId
              None now db) = inl e.
Proof.
  unfold CampusRouter.assignTeacherToCampus, CampusRouter.withSession.
  destruct session as [userId|].
  2: split; [reflexivity|eexists; reflexivity].
  unfold CampusTeacherService.assignTeacherToCampus, Sql.insertTeacherCampus.
  run_call; (split; [reflexivity|eexists; reflexivity]).
Qed.

(** ** A designation that fails *)

(** X17. [setPrimaryCampus] of CampusStudentService, called by an actor
    with the campus permission for a campus the student is not assigned
    to, throws INTERNAL_SERVER_ERROR, not NOT_FOUND, and has by then
    cleared every primary flag of the student: the student is left with
    no primary campus, and nothing else has changed. *)
Theorem student_designation_failure_clears_flags
  us actor studentId campusId db :
  CampusUserService.hasPermission us db actor campusId
    MANAGE_CAMPUS_STUDENTS = true ->
  StudentCampusModel.findUnique studentId campusId db = None ->
  CampusStudentService.setPrimaryCampus us actor studentId campusId db
  = (StudentCampusModel.updateMany (StudentCampusModel.isPrimaryOf studentId)
       (StudentCampus.set_isPrimary false) db,
     inl (TRPCError INTERNAL_SERVER_ERROR))
  /\ primaries StudentCampus.studentId StudentCampus.isPrimary studentId
       (studentCampus
          (run us (CS_setPrimaryCampus actor studentId campusId) db))
     = 0%nat.
Proof.
  intros Hperm Hnone.
  assert (Hcall :
    CampusStudentService.setPrimaryCampus us actor studentId campusId db
    = (StudentCampusModel.updateMany
         (StudentCampusModel.isPrimaryOf studentId)
         (StudentCampus.set_isPrimary false) db,
       inl (TRPCError INTERNAL_SERVER_ERROR))).
  { unfold CampusStudentService.setPrimaryCampus, StudentCampusModel.update,
      CampusStudentService.internalError.
    unfold_call. rewrite Hperm. simpl.
    unfold StudentCampusModel.findUnique in *. simpl.
    unfold updateWhere.
    rewrite find_map_kept
      by (intros x; destruct (StudentCampusModel.isPrimaryOf studentId x);
          reflexivity).
    rewrite Hnone. reflexivity. }
  split; [exact Hcall|].
  unfold run. rewrite Hcall. simpl.
  unfold primaries. apply length_zero_iff_nil.
  apply filter_none. intros r Hr. unfold updateWhere in Hr.
  apply in_map_iff in Hr. destruct Hr as [x [<- _]].
  unfold primaryOf, StudentCampusModel.isPrimaryOf.
  destruct (StudentCampus.studentId x =? studentId) eqn:E; simpl;
    destruct (StudentCampus.isPrimary x) eqn:Ep; simpl;
    rewrite ?E, ?Ep; simpl; auto.
Qed.

Lemma student_designation_failure_clears_flags_witness :
  CampusStudentService.setPrimaryCampus sampleOracle "admin" "St1" "C2"
    storeStudent
  = (StudentCampusModel.updateMany (StudentCampusModel.isPrimaryOf "St1")
       (StudentCampus.set_isPrimary false) storeStudent,
     inl (TRPCError INTERNAL_SERVER_ERROR))
  /\ primaries StudentCampus.studentId StudentCampus.isPrimary "St1"
       (studentCampus
          (run sampleOracle (CS_setPrimaryCampus "admin" "St1" "C2")
               storeStudent))
     = 0%nat.
Proof.
  apply student_designation_failure_clears_flags; reflexivity.
Defined.

(** ** No row outlives the row it hangs off *)

Section RefersTo.
Context {P C : Type}.
Variables (pk : P -> string) (fk : C -> string).

Lemma refersTo_fewer_children q ps cs :
  refersTo pk fk ps cs -> refersTo pk fk ps (deleteWhere q cs).
Proof.
  intros H c Hc. apply filter_In in Hc. apply H. tauto.
Qed.

Lemma refersTo_more_parents ps ps' cs :
  (forall k, hasKey pk k ps = true -> hasKey pk k ps' = true) ->
  refersTo pk fk ps cs -> refersTo pk fk ps' cs.
Proof. intros Hk H c Hc. apply Hk. apply H. exact Hc. Qed.

Lemma refersTo_new_child ps cs c :
  hasKey pk (fk c) ps = true ->
  refersTo pk fk ps cs -> refersTo pk fk ps (cs ++ [c]).
Proof.
  intros Hc H x Hx. apply in_app_or in Hx.
  destruct Hx as [Hx|[<-|[]]]; auto.
Qed.

(** ON DELETE CASCADE: the children of the deleted parents go with
    them. *)
Lemma refersTo_cascade p ps cs :
  refersTo pk fk ps cs ->
  refersTo pk fk (deleteWhere p ps)
    (deleteWhere (fun c => mem (fk c) (map pk (selectWhere p ps))) cs).
Proof.
  intros H c Hc. unfold deleteWhere, selectWhere in *.
  apply filter_In in Hc. destruct Hc as [Hc Hm].
  apply negb_true_iff in Hm.
  apply hasKey_true.
  destruct (proj1 (hasKey_true _ _ _) (H c Hc)) as [r [Hr Hk]].
  exists r. split; auto. apply filter_In. split; auto.
  destruct (p r) eqn:E; auto. exfalso.
  apply mem_false in Hm. apply Hm. rewrite <- Hk.
  apply in_map. apply filter_In. auto.
Qed.

End RefersTo.

Lemma noOrphans_update p (g : TeacherCampus.t -> TeacherCampus.t)
  tcs tcas tsas :
  (forall r, TeacherCampus.id (g r) = TeacherCampus.id r) ->
  noOrphanRows tcs tcas tsas ->
  noOrphanRows (updateWhere p g tcs) tcas tsas.
Proof.
  intros Hg [Hc Hs]. split; auto.
  eapply refersTo_more_parents; [|exact Hc].
  intros k Hk. rewrite hasKey_updateWhere; auto.
Qed.

Lemma noOrphans_insert_campus row tcs tcas tsas :
  noOrphanRows tcs tcas tsas -> noOrphanRows (tcs ++ [row]) tcas tsas.
Proof.
  intros [Hc Hs]. split; auto.
  eapply refersTo_more_parents; [|exact Hc].
  intros k Hk. rewrite hasKey_app, Hk. reflexivity.
Qed.

Lemma noOrphans_insert_class row tcs tcas tsas :
  hasKey TeacherCampus.id (TeacherClassAssignment.teacherCampusId row) tcs
  = true ->
  noOrphanRows tcs tcas tsas -> noOrphanRows tcs (tcas ++ [row]) tsas.
Proof.
  intros Hk [Hc Hs]. split.
  - apply refersTo_new_child; auto.
  - eapply refersTo_more_parents; [|exact Hs].
    intros k Hk'. rewrite hasKey_app, Hk'. reflexivity.
Qed.

Lemma noOrphans_insert_subject row tcs tcas tsas :
  hasKey TeacherClassAssignment.id
         (TeacherSubjectAssignment.teacherClassAssignmentId row) tcas = true ->
  noOrphanRows tcs tcas tsas -> noOrphanRows tcs tcas (tsas ++ [row]).
Proof.
  intros Hk [Hc Hs]. split; auto. apply refersTo_new_child; auto.
Qed.

Lemma noOrphans_delete_subject q tcs tcas tsas :
  noOrphanRows tcs tcas tsas -> noOrphanRows tcs tcas (deleteWhere q tsas).
Proof.
  intros [Hc Hs]. split; auto. apply refersTo_fewer_children. exact Hs.
Qed.

Lemma noOrphans_delete_class q tcs tcas tsas :
  noOrphanRows tcs tcas tsas ->
  noOrphanRows tcs (deleteWhere q tcas)
    (deleteWhere
       (fun s => mem (TeacherSubjectAssignment.teacherClassAssignmentId s)
                     (map TeacherClassAssignment.id (selectWhere q tcas)))
       tsas).
Proof.
  intros [Hc Hs]. split.
  - apply refersTo_fewer_children. exact Hc.
  - apply refersTo_cascade. exact Hs.
Qed.

Lemma noOrphans_delete_campus p tcs tcas tsas :
  noOrphanRows tcs tcas tsas ->
  noOrphanRows
    (deleteWhere p tcs)
    (deleteWhere
       (fun a => mem (TeacherClassAssignment.teacherCampusId a)
                     (map TeacherCampus.id (selectWhere p tcs))) tcas)
    (deleteWhere
       (fun s =>
          mem (TeacherSubjectAssignment.teacherClassAssignmentId s)
              (map TeacherClassAssignment.id
                 (selectWhere
                    (fun a => mem (TeacherClassAssignment.teacherCampusId a)
                                  (map TeacherCampus.id (selectWhere p tcs)))
                    tcas)))
       tsas).
Proof.
  intros [Hc Hs]. split.
  - apply refersTo_cascade. exact Hc.
  - apply refersTo_cascade. exact Hs.
Qed.

(** The loop of [assignTeacherToClass] inserts only rows that the foreign
    key accepts. *)
Lemma subject_loop_no_orphans uuid ca now l : forall i db d res,
  forEachFrom i l
    (fun i subjectId =>
       Sql.insertTeacherSubjectAssignment
         (TeacherSubjectAssignment.mk (uuid (S i)) ca subjectId ACTIVE now now))
    db = (d, res) ->
  NoOrphans db -> NoOrphans d.
Proof.
  induction l as [|x l IH]; simpl; intros i db d res H Hinv.
  - inversion H; subst. exact Hinv.
  - unfold bind at 1 in H.
    unfold Sql.insertTeacherSubjectAssignment at 1 in H. simpl in H.
    destruct (hasKey TeacherSubjectAssignment.id (uuid (S i))
                (teacherSubjectAssignment db));
      [inversion H; subst; exact Hinv|].
    destruct (existsb (Sql.subjectAssignmentPair ca x)
                (teacherSubjectAssignment db));
      [inversion H; subst; exact Hinv|].
    destruct (hasKey TeacherClassAssignment.id ca (teacherClassAssignment db))
      eqn:Hk; simpl in H;
      [|inversion H; subst; exact Hinv].
    destruct (negb (hasKey Subject.id x (subject db)));
      [inversion H; subst; exact Hinv|].
    apply IH in H; auto.
    unfold NoOrphans in *. simpl.
    apply noOrphans_insert_subject; auto.
Qed.

Ltac orphan_table :=
  first
  [ assumption
  | apply noOrphans_update; [row_facts | orphan_table]
  | apply noOrphans_delete_campus; orphan_table
  | apply noOrphans_delete_class; orphan_table
  | apply noOrphans_delete_subject; orphan_table
  | apply noOrphans_insert_campus; orphan_table
  | apply noOrphans_insert_class;
    [ match goal with
      | H : negb _ = false |- _ => apply negb_false_iff in H; exact H
      end
    | orphan_table ] ].

Ltac orphan_leaf := unfold NoOrphans in *; simpl; orphan_table.

Lemma NoOrphans_run us op db : NoOrphans db -> NoOrphans (run us op db).
Proof.
  intros H. destruct op; unfold run.
  - unfold CampusTeacherService.assignTeacherToCampus, Sql.insertTeacherCampus.
    run_call; orphan_leaf.
  - unfold CampusTeacherService.removeTeacherFromCampus.
    run_call; orphan_leaf.
  - unfold CampusTeacherService.updateTeacherCampusStatus, teacherSummary.
    run_call; orphan_leaf.
  - unfold CampusTeacherService.setPrimaryCampus, teacherSummary.
    run_call; orphan_leaf.
  - unfold TeacherCampusService.assignTeacherToCampus, teacherSummary,
      Sql.insertTeacherCampus.
    run_call; orphan_leaf.
  - unfold TeacherCampusService.assignTeacherToClass,
      Sql.insertTeacherClassAssignment.
    run_call;
      try match goal with
          | L : forEachFrom _ _ _ _ = (_, _) |- _ =>
              apply subject_loop_no_orphans in L; [exact L|]
          end;
      orphan_leaf.
  - unfold TeacherCampusService.updateAssignmentStatus.
    run_call; orphan_leaf.
  - unfold TeacherCampusService.removeTeacherFromCampus.
    run_call; orphan_leaf.
  - unfold CampusStudentService.assignStudentToCampus,
      StudentCampusModel.create.
    run_call; orphan_leaf.
  - unfold CampusStudentService.removeStudentFromCampus,
      StudentCampusModel.delete.
    run_call; orphan_leaf.
  - unfold CampusStudentService.updateStudentCampusStatus,
      StudentCampusModel.update.
    run_call; orphan_leaf.
  - unfold CampusStudentService.setPrimaryCampus, StudentCampusModel.update.
    run_call; orphan_leaf.
Qed.

(** X18. From a store in which every class assignment refers to an
    existing campus assignment and every subject assignment to an existing
    class assignment, every store observable after any sequence of calls,
    returned or thrown, is such a store again: the removal by one DELETE
    relies on the cascading foreign keys, the removal by three DELETEs
    does the same work itself, and a call that fails half-way leaves rows
    that are still attached. *)
Theorem no_orphan_rows_between_calls us ops :
  forall db0, NoOrphans db0 -> Forall NoOrphans (trace us ops db0).
Proof.
  induction ops as [|op ops IH]; simpl; intros db H.
  - constructor; auto.
  - constructor; auto. apply IH. apply NoOrphans_run. exact H.
Qed.

Lemma no_orphan_rows_between_calls_witness :
  Forall NoOrphans
    (trace sampleOracle
       [TC_assignTeacherToClass
          (TeacherCampusService.mkClassData "a2" "X1" false ["S1"; "S1"])
          5 sampleUuid;
        CT_removeTeacherFromCampus "admin" "C1" "T1";
        TC_removeTeacherFromCampus "T1" "C2"]
       storeWithClass).
Proof.
  apply no_orphan_rows_between_calls.
  split; intros c Hc; simpl in Hc;
    repeat (destruct Hc as [<-|Hc]; [reflexivity|]); destruct Hc.
Defined.

(** ** The student service *)

(** X19. Given a row id that is not in use, [assignStudentToCampus]
    returns exactly when the actor holds the permission
    MANAGE_CAMPUS_STUDENTS of the campus, the student and the campus
    exist, and the student has no assignment to the campus yet.  No role
    replaces the permission here. *)
Theorem CampusStudentService_assign_returns_iff
  us db actor campusId studentId isPrimary now rowId :
  hasKey StudentCampus.id rowId (studentCampus db) = false ->
  (thrown us (CS_assignStudentToCampus actor campusId studentId isPrimary
                now rowId) db = None
   <->
   CampusUserService.hasPermission us db actor campusId
     MANAGE_CAMPUS_STUDENTS = true
   /\ hasKey Student.id studentId (student db) = true
   /\ hasKey Campus.id campusId (campus db) = true
   /\ StudentCampusModel.findUnique studentId campusId db = None).
Proof.
  intros Hfresh. rewrite !hasKey_findUnique.
  unfold thrown, CampusStudentService.assignStudentToCampus,
    StudentCampusModel.create, CampusStudentService.findStudentWithUser,
    CampusStudentService.rethrowTRPC.
  unfold_call. simpl.
  destruct (CampusUserService.hasPermission us db actor campusId
              MANAGE_CAMPUS_STUDENTS); simpl;
    [|split; [discriminate | intros [? _]; discriminate]].
  destruct (findUnique Student.id studentId (student db)) eqn:Hs; simpl;
    [|split; [discriminate | intros (_ & ? & _); discriminate]].
  destruct (findUnique Campus.id campusId (campus db)) eqn:Hc; simpl;
    [|split; [discriminate | intros (_ & _ & ? & _); discriminate]].
  destruct (StudentCampusModel.findUnique studentId campusId db) eqn:He;
    simpl; [split; [discriminate | intros (_ & _ & _ & ?); discriminate]|].
  assert (Hex : existsb (StudentCampusModel.pair studentId campusId)
                  (studentCampus db) = false).
  { unfold StudentCampusModel.findUnique in He.
    apply existsb_false_forall_inv. intros r Hr.
    destruct (StudentCampusModel.pair studentId campusId r) eqn:E; auto.
    pose proof (find_none _ _ He r Hr). congruence. }
  destruct isPrimary; simpl;
    rewrite ?hasKey_updateWhere, ?existsb_updateWhere, ?Hfresh, ?Hex
      by (intros []; reflexivity);
    simpl;
    rewrite ?(findUnique_hasKey _ _ _ _ Hs), ?(findUnique_hasKey _ _ _ _ Hc);
    simpl; tauto.
Qed.

Lemma CampusStudentService_assign_returns_iff_witness :
  thrown sampleOracle
    (CS_assignStudentToCampus "admin" "C2" "St1" true 5 "b2") storeStudent
  = None
  <->
  CampusUserService.hasPermission sampleOracle storeStudent "admin" "C2"
    MANAGE_CAMPUS_STUDENTS = true
  /\ hasKey Student.id "St1" (student storeStudent) = true
  /\ hasKey Campus.id "C2" (campus storeStudent) = true
  /\ StudentCampusModel.findUnique "St1" "C2" storeStudent = None.
Proof.
  apply CampusStudentService_assign_returns_iff. reflexivity.
Defined.

Lemma find_filter_nil {R} (p : R -> bool) rows :
  find p rows = None -> filter p rows = [].
Proof.
  intros H. apply filter_none. intros r Hr.
  destruct (p r) eqn:E; auto.
  pose proof (find_none _ _ H r Hr). congruence.
Qed.

Lemma find_snoc {R} (p : R -> bool) rows x :
  find p rows = None -> p x = true -> find p (rows ++ [x]) = Some x.
Proof.
  intros Hn Hx. induction rows as [|r rows IH]; simpl in *.
  - rewrite Hx. reflexivity.
  - destruct (p r); [discriminate|]. apply IH. exact Hn.
Qed.

(** X20. Assigning a student to a campus, not as the primary campus, and
    removing the student from that campus again gives back the store as
    it was before the assignment. *)
Theorem student_assign_then_remove_restores
  us actor actor' campusId studentId now rowId db db1 res :
  CampusStudentService.assignStudentToCampus us actor campusId studentId
    false now rowId db = (db1, inr res) ->
  CampusUserService.hasPermission us db1 actor' campusId
    MANAGE_CAMPUS_STUDENTS = true ->
  CampusStudentService.removeStudentFromCampus us actor' campusId studentId
    db1 = (db, inr tt).
Proof.
  intros Hassign Hperm.
  assert (H1 : db1 = with_studentCampus
                       (studentCampus db
                        ++ [StudentCampus.mk rowId studentId campusId false
                              ACTIVE now]) db
               /\ StudentCampusModel.findUnique studentId campusId db = None).
  { revert Hassign.
    unfold CampusStudentService.assignStudentToCampus,
      StudentCampusModel.create.
    run_call; intros H; inversion H; subst; auto. }
  destruct H1 as [-> Hnone].
  unfold CampusStudentService.removeStudentFromCampus,
    StudentCampusModel.delete, StudentCampusModel.findUnique in *.
  unfold_call. rewrite Hperm. simpl.
  assert (Hfind :
    find (StudentCampusModel.pair studentId campusId)
         (studentCampus db
          ++ [StudentCampus.mk rowId studentId campusId false ACTIVE now])
    = Some (StudentCampus.mk rowId studentId campusId false ACTIVE now)).
  { apply find_snoc; auto.
    unfold StudentCampusModel.pair. simpl. rewrite !String.eqb_refl.
    reflexivity. }
  rewrite Hfind. simpl. f_equal.
  unfold deleteWhere. rewrite filter_app. simpl.
  unfold StudentCampusModel.pair at 2. simpl. rewrite !String.eqb_refl. simpl.
  rewrite app_nil_r, filter_all.
  - destruct db; reflexivity.
  - intros r Hr. apply negb_true_iff.
    destruct (StudentCampusModel.pair studentId campusId r) eqn:E; auto.
    pose proof (find_none _ _ Hnone r Hr). congruence.
Qed.

Lemma student_assign_then_remove_restores_witness :
  CampusStudentService.removeStudentFromCampus sampleOracle "admin" "C2" "St1"
    (sampleStore [] [] []
       [StudentCampus.mk "b1" "St1" "C1" true ACTIVE 1;
        StudentCampus.mk "b2" "St1" "C2" false ACTIVE 5])
  = (storeStudent, inr tt).
Proof.
  eapply (student_assign_then_remove_restores sampleOracle "admin" "admin"
            "C2" "St1" 5 "b2" storeStudent).
  - vm_compute. reflexivity.
  - reflexivity.
Defined.

(** ** Acting on an assignment that is not there *)

(** X21. What the services answer, to an actor with the campus
    permission, when the person has no assignment to the campus: the two
    teacher services throw NOT_FOUND from [removeTeacherFromCampus],
    [updateTeacherCampusStatus] and [setPrimaryCampus]; the student
    service throws INTERNAL_SERVER_ERROR from [removeStudentFromCampus]
    and [updateStudentCampusStatus], the rejection of the storage layer
    caught and rethrown.  All five leave the store as it is. *)
Theorem missing_assignment_outcomes
  us actor person campusId status now db :
  CampusUserService.hasPermission us db actor campusId MANAGE_CAMPUS_TEACHERS
  = true ->
  CampusUserService.hasPermission us db actor campusId MANAGE_CAMPUS_STUDENTS
  = true ->
  Sql.selectTeacherCampus person campusId db = [] ->
  StudentCampusModel.findUnique person campusId db = None ->
  CampusTeacherService.removeTeacherFromCampus us actor campusId person db
  = (db, inl (TRPCError NOT_FOUND))
  /\ CampusTeacherService.updateTeacherCampusStatus us actor campusId person
       status now db
     = (db, inl (TRPCError NOT_FOUND))
  /\ CampusTeacherService.setPrimaryCampus actor person campusId now db
     = (db, inl (TRPCError NOT_FOUND))
  /\ TeacherCampusService.removeTeacherFromCampus person campusId db
     = (db, inl (TRPCError NOT_FOUND))
  /\ CampusStudentService.removeStudentFromCampus us actor campusId person db
     = (db, inl (TRPCError INTERNAL_SERVER_ERROR))
  /\ CampusStudentService.updateStudentCampusStatus us actor campusId person
       status db
     = (db, inl (TRPCError INTERNAL_SERVER_ERROR)).
Proof.
  intros Ht Hs Hsel Hfind.
  unfold CampusTeacherService.removeTeacherFromCampus,
    CampusTeacherService.updateTeacherCampusStatus,
    CampusTeacherService.setPrimaryCampus,
    TeacherCampusService.removeTeacherFromCampus,
    CampusStudentService.removeStudentFromCampus,
    CampusStudentService.updateStudentCampusStatus,
    StudentCampusModel.delete, StudentCampusModel.update,
    CampusStudentService.internalError.
  unfold StudentCampusModel.findUnique in *.
  repeat split; unfold_call; simpl; rewrite ?Ht, ?Hs; simpl;
    rewrite ?Hsel, ?Hfind; reflexivity.
Qed.

Lemma missing_assignment_outcomes_witness :
  CampusTeacherService.removeTeacherFromCampus sampleOracle "admin" "C1" "T1"
    emptyStore
  = (emptyStore, inl (TRPCError NOT_FOUND))
  /\ CampusTeacherService.updateTeacherCampusStatus sampleOracle "admin" "C1"
       "T1" INACTIVE 5 emptyStore
     = (emptyStore, inl (TRPCError NOT_FOUND))
  /\ CampusTeacherService.setPrimaryCampus "admin" "T1" "C1" 5 emptyStore
     = (emptyStore, inl (TRPCError NOT_FOUND))
  /\ TeacherCampusService.removeTeacherFromCampus "T1" "C1" emptyStore
     = (emptyStore, inl (TRPCError NOT_FOUND))
  /\ CampusStudentService.removeStudentFromCampus sampleOracle "admin" "C1"
       "T1" emptyStore
     = (emptyStore, inl (TRPCError INTERNAL_SERVER_ERROR))
  /\ CampusStudentService.updateStudentCampusStatus sampleOracle "admin" "C1"
       "T1" INACTIVE emptyStore
     = (emptyStore, inl (TRPCError INTERNAL_SERVER_ERROR)).
Proof.
  apply missing_assignment_outcomes; reflexivity.
Defined.

(** ** The assignments of a teacher, with their classes *)

Lemma classAssignmentsJson_rows order tc db :
  TeacherCampusViews.classAssignmentsJson order tc db
  = match selectWhere
            (fun a => TeacherClassAssignment.teacherCampusId a
                      =? TeacherCampus.id tc)
            (teacherClassAssignment db) with
    | [] => [ClassAssignmentJson.mk None None None None None]
    | rows =>
        RowOrder.arrange order _
          (map (fun a =>
                  ClassAssignmentJson.mk
                    (Some (TeacherClassAssignment.id a))
                    (Some (TeacherClassAssignment.classId a))
                    (Some (TeacherClassAssignment.isClassTeacher a))
                    (Some (TeacherClassAssignment.status a))
                    (TeacherCampusViews.subjectsJson order
                       (TeacherClassAssignment.id a) db))
               rows)
    end.
Proof. reflexivity. Qed.

Lemma arranged_in (order : RowOrder.t) {A} (l : list A) x :
  In x (RowOrder.arrange order A l) <-> In x l.
Proof.
  split; apply Permutation_in;
    [|apply Permutation_sym]; apply RowOrder.arrange_perm.
Qed.



(** X23. Once [assignTeacherToClass] has returned for a campus
    assignment whose campus exists, [getTeacherCampusAssignments] for the
    teacher of that assignment, in whatever order the storage answers,
    has an entry for it whose class assignments include the new one: its
    id, the class, the class-teacher flag as requested, Active. *)
Theorem assigned_class_is_listed order data now uuid db db1 res tc :
  TeacherCampusService.assignTeacherToClass data now uuid db
  = (db1, inr res) ->
  In tc (teacherCampus db) ->
  TeacherCampus.id tc = TeacherCampusService.teacherCampusId data ->
  hasKey Campus.id (TeacherCampus.campusId tc) (campus db) = true ->
  exists l e ca,
    TeacherCampusViews.getTeacherCampusAssignments order
      (TeacherCampus.teacherId tc) db1 = (db1, inr l)
    /\ In e l
    /\ CampusAssignmentJson.id e = TeacherCampusService.teacherCampusId data
    /\ In ca (CampusAssignmentJson.classAssignments e)
    /\ ClassAssignmentJson.id ca = Some (ClassAssignmentResult.id res)
    /\ ClassAssignmentJson.classId ca
       = Some (TeacherCampusService.classId data)
    /\ ClassAssignmentJson.isClassTeacher ca
       = Some (TeacherCampusService.isClassTeacher data)
    /\ ClassAssignmentJson.status ca = Some ACTIVE.
Proof.
  intros Hcall Htc Hid Hcampus.
  assert (Hstore :
    teacherCampus db1 = teacherCampus db
    /\ campus db1 = campus db
    /\ teacherClassAssignment db1
       = (teacherClassAssignment db
          ++ [TeacherClassAssignment.mk (uuid 0%nat)
                (TeacherCampusService.teacherCampusId data)
                (TeacherCampusService.classId data)
                (TeacherCampusService.isClassTeacher data) ACTIVE now now])
         %list
    /\ ClassAssignmentResult.id res = uuid 0%nat).
  { revert Hcall.
    unfold TeacherCampusService.assignTeacherToClass,
      Sql.insertTeacherClassAssignment.
    run_call; intros H; inversion H; subst; clear H; try subject_loop;
      simpl; auto. }
  destruct Hstore as (Htcs & Hcs & Htcas & Hres).
  apply hasKey_true in Hcampus. destruct Hcampus as [c [Hc Hck]].
  unfold TeacherCampusViews.getTeacherCampusAssignments. unfold_call.
  eexists.
  exists (CampusAssignmentJson.mk
            (TeacherCampus.id tc) (TeacherCampus.teacherId tc)
            (TeacherCampus.campusId tc) (TeacherCampus.isPrimary tc)
            (TeacherCampus.status tc) (Campus.name c)
            (TeacherCampusViews.classAssignmentsJson order tc db1)).
  exists (ClassAssignmentJson.mk
            (Some (uuid 0%nat))
            (Some (TeacherCampusService.classId data))
            (Some (TeacherCampusService.isClassTeacher data))
            (Some ACTIVE)
            (TeacherCampusViews.subjectsJson order (uuid 0%nat) db1)).
  split; [reflexivity|]. simpl. rewrite Hres.
  split; [|split; [exact Hid|split; [|repeat split]]].
  - apply arranged_in. apply in_flat_map. exists tc. split.
    + apply filter_In. rewrite Htcs. split; auto. apply String.eqb_refl.
    + apply in_map_iff. exists c. split; [reflexivity|].
      apply filter_In. rewrite Hcs. split; auto.
      apply String.eqb_eq. exact Hck.
  - rewrite classAssignmentsJson_rows.
    assert (Hin :
      In (TeacherClassAssignment.mk (uuid 0%nat)
            (TeacherCampusService.teacherCampusId data)
            (TeacherCampusService.classId data)
            (TeacherCampusService.isClassTeacher data) ACTIVE now now)
         (selectWhere
            (fun a => TeacherClassAssignment.teacherCampusId a
                      =? TeacherCampus.id tc)
            (teacherClassAssignment db1))).
    { apply filter_In. rewrite Htcas. split.
      - apply in_or_app. right. left. reflexivity.
      - simpl. rewrite Hid. apply String.eqb_refl. }
    destruct (selectWhere
                (fun a => TeacherClassAssignment.teacherCampusId a
                          =? TeacherCampus.id tc)
                (teacherClassAssignment db1)) as [|a rows]; [destruct Hin|].
    apply arranged_in.
    apply in_map_iff. eexists. split; [|exact Hin]. reflexivity.
Qed.

Lemma assigned_class_is_listed_witness :
  exists l e ca,
    TeacherCampusViews.getTeacherCampusAssignments reverseOrder "T1"
      (fst (TeacherCampusService.assignTeacherToClass
              (TeacherCampusService.mkClassData "a2" "X1" true ["S1"])
              5 sampleUuid storeTwoCampuses))
    = (fst (TeacherCampusService.assignTeacherToClass
              (TeacherCampusService.mkClassData "a2" "X1" true ["S1"])
              5 sampleUuid storeTwoCampuses), inr l)
    /\ In e l
    /\ CampusAssignmentJson.id e = "a2"
    /\ In ca (CampusAssignmentJson.classAssignments e)
    /\ ClassAssignmentJson.id ca = Some "A"
    /\ ClassAssignmentJson.classId ca = Some "X1"
    /\ ClassAssignmentJson.isClassTeacher ca = Some true
    /\ ClassAssignmentJson.status ca = Some ACTIVE.
Proof.
  apply (assigned_class_is_listed reverseOrder
           (TeacherCampusService.mkClassData "a2" "X1" true ["S1"])
           5 sampleUuid storeTwoCampuses
           (fst (TeacherCampusService.assignTeacherToClass
                   (TeacherCampusService.mkClassData "a2" "X1" true ["S1"])
                   5 sampleUuid storeTwoCampuses))
           (ClassAssignmentResult.mk "A" "a2" "X1" true ACTIVE
              (Class_.mk "X1" "C2" (ClassGroup.mk (Program.mk "C2"))))
           (rowT1C2 true ACTIVE)).
  - vm_compute. reflexivity.
  - right. left. reflexivity.
  - reflexivity.
  - reflexivity.
Defined.

(** ** The teachers of a campus *)

(** X24. [getTeachersForCampus] writes nothing; it throws FORBIDDEN to
    an actor without the permission VIEW_CAMPUS_CLASSES of the campus,
    before it looks the campus up; every teacher it lists has an
    assignment to the campus with the listed status, primary flag and
    join date, and a teacher profile; listed without [includeInactive]
    the assignment is Active. *)
Theorem teachers_of_campus_are_assigned
  us profileColumns teacherClasses actor campusId inc db :
  fst (CampusTeacherViews.getTeachersForCampus us profileColumns
         teacherClasses actor campusId inc db) = db
  /\ (CampusUserService.hasPermission us db actor campusId
        VIEW_CAMPUS_CLASSES = false ->
      snd (CampusTeacherViews.getTeachersForCampus us profileColumns
             teacherClasses actor campusId inc db)
      = inl (TRPCError FORBIDDEN))
  /\ (forall l,
        snd (CampusTeacherViews.getTeachersForCampus us profileColumns
               teacherClasses actor campusId inc db) = inr l ->
        forall e, In e l ->
          (exists tc,
              In tc (teacherCampus db)
              /\ TeacherCampus.campusId tc = campusId
              /\ TeacherCampus.teacherId tc = TeacherWithClasses.id e
              /\ TeacherCampus.status tc = TeacherWithClasses.status e
              /\ TeacherCampus.isPrimary tc = TeacherWithClasses.isPrimary e
              /\ TeacherCampus.joinedAt tc = TeacherWithClasses.joinedAt e)
          /\ hasKey TeacherProfile.id (TeacherWithClasses.id e)
                    (teacherProfile db) = true
          /\ (inc = false -> TeacherWithClasses.status e = ACTIVE)).
Proof.
  unfold CampusTeacherViews.getTeachersForCampus. unfold_call. simpl.
  destruct (CampusUserService.hasPermission us db actor campusId
              VIEW_CAMPUS_CLASSES); simpl.
  2: repeat split; auto; discriminate.
  destruct (findUnique Campus.id campusId (campus db)); simpl.
  2: repeat split; auto; discriminate.
  split; [reflexivity|]. split; [discriminate|].
  intros l Hl e He. inversion Hl; subst l; clear Hl.
  apply in_map_iff in He. destruct He as [[[tc tp] u] [<- Hrow]]. simpl.
  unfold CampusTeacherViews.selectTeachersOfCampus, selectWhere in Hrow.
  apply in_flat_map in Hrow. destruct Hrow as [tc' [Htc Hrow]].
  apply in_flat_map in Hrow. destruct Hrow as [tp' [Htp Hrow]].
  apply in_map_iff in Hrow. destruct Hrow as [u' [Heq _]].
  inversion Heq; subst tc' tp' u'; clear Heq.
  apply filter_In in Htc. destruct Htc as [Htc Hsel].
  apply andb_true_iff in Hsel. destruct Hsel as [Hc Hst].
  apply String.eqb_eq in Hc.
  apply filter_In in Htp. destruct Htp as [Htp Hk].
  apply String.eqb_eq in Hk.
  split; [|split].
  - exists tc. repeat split; auto.
  - apply hasKey_true. exists tp. auto.
  - intros ->. unfold statusCondition in Hst. simpl in Hst.
    destruct (TeacherCampus.status tc); try discriminate; reflexivity.
Qed.

(** ** The subjects of a listed class assignment *)

Lemma subject_loop_subjects_exist uuid ca now l : forall i db d,
  forEachFrom i l
    (fun i subjectId =>
       Sql.insertTeacherSubjectAssignment
         (TeacherSubjectAssignment.mk (uuid (S i)) ca subjectId ACTIVE now now))
    db = (d, inr tt) ->
  forall s, In s l -> hasKey Subject.id s (subject db) = true.
Proof.
  induction l as [|x l IH]; simpl; intros i db d H s Hs; [destruct Hs|].
  unfold bind at 1 in H.
  unfold Sql.insertTeacherSubjectAssignment at 1 in H. simpl in H.
  destruct (hasKey TeacherSubjectAssignment.id (uuid (S i))
              (teacherSubjectAssignment db)); [discriminate|].
  destruct (existsb (Sql.subjectAssignmentPair ca x)
              (teacherSubjectAssignment db)); [discriminate|].
  destruct (negb (hasKey TeacherClassAssignment.id ca
                    (teacherClassAssignment db))); [discriminate|].
  destruct (hasKey Subject.id x (subject db)) eqn:Hx; simpl in H;
    [|discriminate].
  destruct Hs as [<-|Hs]; auto.
  apply (IH _ _ _ H s Hs).
Qed.

Lemma unique_key_selects_one {R} (key : R -> string) k rows :
  NoDup (map key rows) -> hasKey key k rows = true ->
  exists r, filter (fun r => key r =? k) rows = [r] /\ key r = k.
Proof.
  intros Hd Hk. pose proof (NoDup_key_at_most_one key k rows Hd) as Hle.
  apply hasKey_true in Hk. destruct Hk as [r [Hr Hrk]].
  assert (Hin : In r (filter (fun r => key r =? k) rows))
    by (apply filter_In; split; auto; apply String.eqb_eq; auto).
  destruct (filter (fun r => key r =? k) rows) as [|x [|y rest]];
    simpl in *.
  - destruct Hin.
  - destruct Hin as [->|[]]. eauto.
  - lia.
Qed.

Lemma subjects_joined uuid ca now subs l : forall i,
  NoDup (map Subject.id subs) ->
  (forall s, In s l -> hasKey Subject.id s subs = true) ->
  map SubjectJson.id
    (flat_map
       (fun tsa =>
          map (fun s => SubjectJson.mk (Subject.id s) (Subject.name s))
              (selectWhere
                 (fun s => Subject.id s
                           =? TeacherSubjectAssignment.subjectId tsa)
                 subs))
       (subjectRows uuid ca now i l))
  = l.
Proof.
  induction l as [|x l IH]; simpl; intros i Hd Hex; auto.
  destruct (unique_key_selects_one Subject.id x subs Hd
              (Hex x (or_introl eq_refl))) as [s [Hs Hsx]].
  unfold selectWhere at 1. rewrite Hs. simpl. rewrite Hsx. f_equal.
  apply IH; auto.
Qed.

Lemma subjectRows_refer uuid ca now l : forall i s,
  In s (subjectRows uuid ca now i l) ->
  TeacherSubjectAssignment.teacherClassAssignmentId s = ca.
Proof.
  induction l as [|x l IH]; simpl; intros i s Hs; [destruct Hs|].
  destruct Hs as [<-|Hs]; [reflexivity|eauto].
Qed.

(** The join behind the subjects of a class assignment just made has one
    row per subject of the request. *)
Lemma subjects_of_new_class_joined data now uuid db db1 res :
  subjectRowsRefer db ->
  NoDup (map Subject.id (subject db)) ->
  TeacherCampusService.assignTeacherToClass data now uuid db
  = (db1, inr res) ->
  map SubjectJson.id
    (TeacherCampusViews.subjectsJoin (ClassAssignmentResult.id res) db1)
  = TeacherCampusService.subjectIds data.
Proof.
  intros Hfk Hd.
  unfold TeacherCampusService.assignTeacherToClass,
    Sql.insertTeacherClassAssignment.
  run_call; intros H; inversion H; subst; clear H; simpl;
    unfold TeacherCampusViews.subjectsJoin, selectWhere; simpl.
  - match goal with
    | L : forEachFrom _ _ _ _ = _ |- _ =>
        destruct u; pose proof (subject_loop_subjects_exist _ _ _ _ _ _ _ L)
          as Hex;
        apply subject_loop_returns in L; destruct L as [-> _]
    end.
    simpl in *. rewrite filter_app.
    rewrite no_subject_of_new_class; auto. simpl.
    rewrite (filter_all _ (subjectRows _ _ _ _ _))
      by (intros s Hs; apply subjectRows_refer in Hs; rewrite Hs;
          apply String.eqb_refl).
    exact (subjects_joined uuid (uuid 0%nat) now (subject db)
             (TeacherCampusService.subjectIds data) 0%nat Hd Hex).
  - match goal with
    | L : (0 <? _)%nat = false |- _ => apply Nat.ltb_ge in L
    end.
    destruct (TeacherCampusService.subjectIds data); [|simpl in *; lia].
    rewrite no_subject_of_new_class; auto.
Qed.

(** X25. Once [assignTeacherToClass] has returned, in a store with
    distinct subject ids whose subject assignments refer to existing
    class assignments, the subjects that [getTeacherCampusAssignments]
    computes for the new class assignment, in whatever order the storage
    answers, are the subjects of the request, each as many times as the
    request names it, and null when the request named none. *)
Theorem listed_subjects_are_the_requested_ones
  order data now uuid db db1 res :
  subjectRowsRefer db ->
  NoDup (map Subject.id (subject db)) ->
  TeacherCampusService.assignTeacherToClass data now uuid db
  = (db1, inr res) ->
  match TeacherCampusViews.subjectsJson order (ClassAssignmentResult.id res)
          db1 with
  | None => TeacherCampusService.subjectIds data = []
  | Some l =>
      l <> []
      /\ Permutation (map SubjectJson.id l)
                     (TeacherCampusService.subjectIds data)
  end.
Proof.
  intros Hfk Hd Hcall.
  pose proof (subjects_of_new_class_joined _ _ _ _ _ _ Hfk Hd Hcall) as Hj.
  unfold TeacherCampusViews.subjectsJson, TeacherCampusViews.json_agg.
  pose proof (RowOrder.arrange_perm order _
                (TeacherCampusViews.subjectsJoin
                   (ClassAssignmentResult.id res) db1)) as P.
  destruct (RowOrder.arrange order SubjectJson.t
              (TeacherCampusViews.subjectsJoin
                 (ClassAssignmentResult.id res) db1)) as [|x l] eqn:E.
  - apply Permutation_nil in P. rewrite P in Hj. simpl in Hj.
    symmetry. exact Hj.
  - split; [discriminate|]. rewrite <- Hj.
    apply Permutation_map. exact P.
Qed.

Lemma listed_subjects_are_the_requested_ones_witness :
  match TeacherCampusViews.subjectsJson reverseOrder "A"
          (fst (TeacherCampusService.assignTeacherToClass
                  (TeacherCampusService.mkClassData "a2" "X1" true
                     ["S2"; "S1"])
                  5 sampleUuid storeTwoCampuses)) with
  | None => ["S2"; "S1"] = []
  | Some l => l <> [] /\ Permutation (map SubjectJson.id l) ["S2"; "S1"]
  end.
Proof.
  apply (listed_subjects_are_the_requested_ones reverseOrder
           (TeacherCampusService.mkClassData "a2" "X1" true ["S2"; "S1"])
           5 sampleUuid storeTwoCampuses
           (fst (TeacherCampusService.assignTeacherToClass
                   (TeacherCampusService.mkClassData "a2" "X1" true
                      ["S2"; "S1"])
                   5 sampleUuid storeTwoCampuses))
           (ClassAssignmentResult.mk "A" "a2" "X1" true ACTIVE
              (Class_.mk "X1" "C2" (ClassGroup.mk (Program.mk "C2"))))).
  - intros s [].
  - repeat constructor; simpl; intuition discriminate.
  - vm_compute. reflexivity.
Defined.

(** ** A primary assignment that is not Active *)

(** X26. [assignTeacherToCampus] of TeacherCampusService takes the
    status of the new row from the request.  Called for a primary
    assignment with a status other than Active, it has demoted the
    earlier primary campus all the same: when it returns the teacher has
    exactly one row flagged primary, the new one, and no Active row
    flagged primary. *)
Theorem inactive_primary_assignment_leaves_no_active_primary
  data now rowId db db1 res st :
  TeacherCampusService.isPrimary data = true ->
  TeacherCampusService.status data = Some st ->
  st <> ACTIVE ->
  TeacherCampusService.assignTeacherToCampus data now rowId db
  = (db1, inr res) ->
  primaries TeacherCampus.teacherId TeacherCampus.isPrimary
    (TeacherCampusService.teacherId data) (teacherCampus db1) = 1%nat
  /\ activePrimaries TeacherCampus.teacherId TeacherCampus.isPrimary
       TeacherCampus.status (TeacherCampusService.teacherId data)
       (teacherCampus db1) = 0%nat.
Proof.
  intros Hp Hst Hne.
  unfold TeacherCampusService.assignTeacherToCampus, teacherSummary,
    Sql.insertTeacherCampus.
  rewrite Hp, Hst.
  run_call; intros H; inversion H; subst; clear H; simpl;
    unfold primaries, activePrimaries, activePrimaryOf, primaryOf;
    rewrite !filter_app, !length_app; simpl;
    rewrite !String.eqb_refl; simpl.
  all: assert (Hnone :
         forall r,
           In r (updateWhere
                   (Sql.isPrimaryOf (TeacherCampusService.teacherId data))
                   (TeacherCampus.set_isPrimary false) (teacherCampus db)) ->
           (TeacherCampus.teacherId r =? TeacherCampusService.teacherId data)
           && TeacherCampus.isPrimary r = false).
  all: try (intros r Hr; unfold updateWhere in Hr; apply in_map_iff in Hr;
            destruct Hr as [x [<- _]]; unfold Sql.isPrimaryOf;
            destruct (TeacherCampus.teacherId x
                      =? TeacherCampusService.teacherId data) eqn:E; simpl;
            destruct (TeacherCampus.isPrimary x) eqn:Ep; simpl;
            rewrite ?E, ?Ep; reflexivity).
  all: rewrite (filter_none _ _ Hnone); simpl.
  all: rewrite (filter_none
                  (fun r =>
                     (TeacherCampus.teacherId r
                      =? TeacherCampusService.teacherId data)
                     && TeacherCampus.isPrimary r
                     && Status_eqb (TeacherCampus.status r) ACTIVE))
         by (intros r Hr; rewrite (Hnone r Hr); reflexivity).
  all: destruct st; simpl; try congruence; auto.
Qed.

Lemma inactive_primary_assignment_leaves_no_active_primary_witness :
  primaries TeacherCampus.teacherId TeacherCampus.isPrimary "T1"
    (teacherCampus
       (fst (TeacherCampusService.assignTeacherToCampus
               (TeacherCampusService.mkCampusData "T1" "C3" true
                  (Some INACTIVE))
               5 "a3" storeTwoCampuses))) = 1%nat
  /\ activePrimaries TeacherCampus.teacherId TeacherCampus.isPrimary
       TeacherCampus.status "T1"
       (teacherCampus
          (fst (TeacherCampusService.assignTeacherToCampus
                  (TeacherCampusService.mkCampusData "T1" "C3" true
                     (Some INACTIVE))
                  5 "a3" storeTwoCampuses))) = 0%nat.
Proof.
  apply (inactive_primary_assignment_leaves_no_active_primary
           (TeacherCampusService.mkCampusData "T1" "C3" true (Some INACTIVE))
           5 "a3" storeTwoCampuses _
           (TeacherCampusAssignment.mk (Some "a3") "T1" "C3" true INACTIVE 5
              (Campus.mk "C3" "East")
              (TeacherSummary.mk "T1"
                 (UserSummary.mk "u1" (Some "Tom") (Some "tom@lxp"))))
           INACTIVE).
  - reflexivity.
  - reflexivity.
  - discriminate.
  - vm_compute. reflexivity.
Defined.

(** ** Requests to the router *)

(** A request either is refused for want of a session, before anything
    is written, or leaves the store of the service call it hands over
    to. *)
Lemma serve_is_run us req db :
  serve us req db = db \/ exists op, serve us req db = run us op db.
Proof.
  destruct req as [s c t p now|s c t|s c t st now|s t c now];
    destruct s as [u|]; simpl; auto; right.
  - exists (CT_assignTeacherToCampus u c t
              (match p with Some b => b | None => false end) now).
    unfold CampusRouter.assignTeacherToCampus, CampusRouter.withSession.
    simpl.
    destruct (CampusTeacherService.assignTeacherToCampus us u c t _ now db)
      as [d [e|a]]; reflexivity.
  - exists (CT_removeTeacherFromCampus u c t).
    unfold CampusRouter.removeTeacherFromCampus, CampusRouter.withSession.
    simpl.
    destruct (CampusTeacherService.removeTeacherFromCampus us u c t db)
      as [d [e|a]]; reflexivity.
  - exists (CT_updateTeacherCampusStatus u c t st now).
    unfold CampusRouter.updateTeacherCampusStatus, CampusRouter.withSession.
    simpl.
    destruct (CampusTeacherService.updateTeacherCampusStatus us u c t st now db)
      as [d [e|a]]; reflexivity.
  - exists (CT_setPrimaryCampus u t c now).
    unfold CampusRouter.setPrimaryCampus, CampusRouter.withSession.
    simpl.
    destruct (CampusTeacherService.setPrimaryCampus u t c now db)
      as [d [e|a]]; reflexivity.
Qed.

(** X27. Whatever requests reach the four teacher mutations of the
    router, with or without a session, allowed or refused: from a store
    with at most one row flagged primary per person and no orphan rows,
    every store observable between two requests has at most one Active
    primary campus per teacher and per student, no class or subject
    assignment without the row it hangs off, and the users, profiles,
    campuses, classes and subjects it started with. *)
Theorem requests_keep_the_store_consistent us reqs :
  forall db0,
    PrimaryInv db0 ->
    NoOrphans db0 ->
    Forall (fun db => atMostOneActivePrimary db
                      /\ NoOrphans db
                      /\ referenceTables db = referenceTables db0)
           (served us reqs db0).
Proof.
  induction reqs as [|req reqs IH]; simpl; intros db0 Hp Ho.
  - constructor; auto. split; [apply PrimaryInv_active; exact Hp|auto].
  - constructor; [split; [apply PrimaryInv_active; exact Hp|auto]|].
    destruct (serve_is_run us req db0) as [E|[op E]]; rewrite E.
    + apply IH; auto.
    + eapply Forall_impl; [|apply IH].
      * intros db (Ha & Hn & Hr). split; [exact Ha|split; [exact Hn|]].
        rewrite Hr. apply run_keeps_reference_tables.
      * apply PrimaryInv_run. exact Hp.
      * apply NoOrphans_run. exact Ho.
Qed.

Lemma requests_keep_the_store_consistent_witness :
  Forall (fun db => atMostOneActivePrimary db
                    /\ NoOrphans db
                    /\ referenceTables db = referenceTables storeWithClass)
         (served sampleOracle
            [AssignTeacherToCampus (Some "admin") "C3" "T1" (Some true) 5;
             AssignTeacherToCampus None "C2" "T1" None 6;
             SetPrimaryCampus (Some "u1") "T1" "C1" 8;
             UpdateTeacherCampusStatus (Some "admin") "C2" "T1" ARCHIVED 9;
             RemoveTeacherFromCampus (Some "admin") "C1" "T1"]
            storeWithClass).
Proof.
  apply requests_keep_the_store_consistent.
  - split; split; cbn -[String.eqb].
    + repeat constructor; simpl; intuition discriminate.
    + count_rows.
    + constructor.
    + count_rows.
  - split; intros c Hc; simpl in Hc;
      repeat (destruct Hc as [<-|Hc]; [reflexivity|]); destruct Hc.
Defined.
